(** * Scoring and aggregation subsystem of the candidate-scoring platform

  A shallow embedding of the four platform metric calculators
  (GitHub, LinkedIn, Twitter, blog), of the aggregation service
  (composite score, score persistence, weights) and of the score-update
  hook of the notification service, then of the rest of these services
  and of the connectors around the calculators, followed by the
  properties they are checked against.

  Numbers.  A JavaScript [number] is modelled by an exact rational [Q]:
  the formulas are read as real arithmetic.  Rounding error of the IEEE
  doubles is outside that model, and what is proved over it is about
  ranges, order and structure, which do not turn on the last bit; the
  exact value of the weighted overall score does, and is stated over
  binary64 floats in [AggregationDouble].  [Math.round] is the floor of
  [x + 1/2].  In the calculators a division whose divisor is not a literal
  goes through [Js.div], which stops with [NotFinite] on a zero divisor
  (JavaScript would yield NaN or an infinity there, which is no score),
  and a property read on an array element goes through [Js.at_], which
  stops with [TypeError] out of range; a calculator that returns [Ok] has
  met neither.  The two divisions of [calculateCompositeScore] each stand
  under a test that the divisor is positive and are written as plain
  divisions.

  Time.  An ISO date string is modelled by the instant it denotes
  (milliseconds since the epoch, [Z]), or by its calendar year and month
  where the source reads those; the wall clock is an explicit argument. *)

From Stdlib Require Import QArith Qround Qminmax ZArith List Sorted String Ascii Bool Lia Lqa.
From Stdlib Require Import Floats Uint63.
Import ListNotations.
Open Scope Q_scope.

(** ** JavaScript prelude *)

Module Js.

Inductive Error : Type :=
| TypeError          (* property read on [undefined] *)
| NotFinite          (* division by zero: NaN or an infinity *)
| NotFound (msg : string).

Inductive Res (A : Type) : Type :=
| Ok (a : A)
| Throw (e : Error).
Arguments Ok {A} a.
Arguments Throw {A} e.

Definition bind {A B} (m : Res A) (k : A -> Res B) : Res B :=
  match m with
  | Ok a => k a
  | Throw e => Throw e
  end.

Definition div (a b : Q) : Res Q :=
  if Qeq_bool b 0 then Throw NotFinite else Ok (a / b).

Definition Math_round (x : Q) : Q := inject_Z (Qfloor (x + (1 # 2))).
Definition Math_min : Q -> Q -> Q := Qmin.
Definition Math_max : Q -> Q -> Q := Qmax.

(** Comparisons of numbers, as booleans. *)
Definition geb (x y : Q) : bool := Qle_bool y x.
Definition ltb (x y : Q) : bool := negb (Qle_bool y x).
Definition gtb (x y : Q) : bool := ltb y x.
Definition neqb (x y : Q) : bool := negb (Qeq_bool x y).

(** [arr.length] as a number. *)
Definition len {A} (l : list A) : Q := inject_Z (Z.of_nat (List.length l)).

(** [arr.reduce((sum, x) => sum + f(x), 0)] *)
Definition sum_by {A} (f : A -> Q) (l : list A) : Q :=
  fold_left (fun sum x => sum + f x) l 0.

(** [arr[i]] followed by a property read: a [TypeError] out of range. *)
Definition at_ {A} (l : list A) (i : nat) : Res A :=
  match nth_error l i with
  | Some a => Ok a
  | None => Throw TypeError
  end.

(** Truthiness of a [string | null]: null and the empty string are falsy. *)
Definition truthy (s : option string) : bool :=
  match s with
  | Some s => negb (String.eqb s "")
  | None => false
  end.

Definition is_null {A} (s : option A) : bool :=
  match s with
  | Some _ => false
  | None => true
  end.

(** [if (c) recommendations.push(s)] *)
Definition push_if (c : bool) (s : string) : list string :=
  if c then [s] else [].

Definition mem (s : string) (l : list string) : bool :=
  existsb (String.eqb s) l.

(** [[...new Set(arr)]]: every string once, at its first occurrence.
    [seen] are the strings already in the set. *)
Fixpoint set_from (seen l : list string) : list string :=
  match l with
  | [] => []
  | x :: xs => if mem x seen then set_from seen xs
               else x :: set_from (x :: seen) xs
  end.
Definition uniq (l : list string) : list string := set_from [] l.

(** [arr.slice(0, n)] *)
Definition slice0 {A} (n : nat) (l : list A) : list A := firstn n l.

(** [arr.sort(cmp)] with a numeric comparator; the sort is stable. *)
Fixpoint insert_by {A} (cmp : A -> A -> Q) (x : A) (l : list A) : list A :=
  match l with
  | [] => [x]
  | y :: ys => if Qle_bool (cmp x y) 0 then x :: y :: ys
               else y :: insert_by cmp x ys
  end.
Fixpoint sort_by {A} (cmp : A -> A -> Q) (l : list A) : list A :=
  match l with
  | [] => []
  | x :: xs => insert_by cmp x (sort_by cmp xs)
  end.

(** A [Record<string, number>] used as a counter: own keys in insertion
    order.  [record_add k v m] is [m[k] = (m[k] || 0) + v]. *)
Fixpoint record_add (k : string) (v : Q) (m : list (string * Q))
  : list (string * Q) :=
  match m with
  | [] => [(k, 0 + v)]
  | (k', v') :: m' => if String.eqb k k' then (k', v' + v) :: m'
                      else (k', v') :: record_add k v m'
  end.

(** [s.toLowerCase()] on the ASCII letters. *)
Definition lower_ascii (c : ascii) : ascii :=
  let n := nat_of_ascii c in
  if (Nat.leb 65 n && Nat.leb n 90)%bool then ascii_of_nat (n + 32) else c.
Fixpoint toLowerCase (s : string) : string :=
  match s with
  | EmptyString => EmptyString
  | String c s' => String (lower_ascii c) (toLowerCase s')
  end.

(** [s.includes(sub)] *)
Fixpoint includes (s sub : string) : bool :=
  if String.prefix sub s then true
  else match s with
       | EmptyString => false
       | String _ s' => includes s' sub
       end.

(** [s.replace(/\s+/g, '')] on the ASCII white space. *)
Definition is_space (c : ascii) : bool :=
  let n := nat_of_ascii c in
  (Nat.eqb n 32 || (Nat.leb 9 n && Nat.leb n 13))%bool.
Fixpoint strip_spaces (s : string) : string :=
  match s with
  | EmptyString => EmptyString
  | String c s' => if is_space c then strip_spaces s'
                   else String c (strip_spaces s')
  end.

(** [arr.join(sep)] *)
Definition join (sep : string) (l : list string) : string :=
  String.concat sep l.

End Js.

Import Js.

Notation "x <- m ;; k" := (Js.bind m (fun x => k))
(at level 61, m at next level, right associativity).

(** ** GitHub calculator (github.connector.ts) *)

Module GitHub.

Record GitHubUserProfile : Type := {
  login : string;
  bio : option string;
  followers : Q;
  following : Q;
  publicRepos : Q;
  publicGists : Q
}.

Record GitHubRepository : Type := {
  name : string;
  description : option string;
  languages : list (string * Q);
  stargazersCount : Q;
  forksCount : Q;
  watchersCount : Q;
  openIssuesCount : Q;
  pushedAt : Z;
  isForked : bool;
  topics : list string;
  license : option string
}.

Record GitHubContributionStats : Type := {
  totalCommits : Q;
  totalPRs : Q;
  totalIssues : Q;
  totalReviews : Q;
  currentStreak : Q;
  longestStreak : Q
}.

Record Breakdown : Type := {
  repositories : Q;
  stars : Q;
  forks : Q;
  bd_followers : Q;
  bd_languages : list string;
  topLanguage : option string;
  avgCommitsPerRepo : Q;
  activeRepos : Q
}.

Record GitHubMetrics : Type := {
  codeQualityScore : Q;
  languageDiversity : Q;
  commitFrequency : Q;
  collaborationScore : Q;
  projectImpactScore : Q;
  overallScore : Q;
  breakdown : Breakdown;
  recommendations : list string
}.

Record GitHubData : Type := {
  profile : GitHubUserProfile;
  data_repositories : list GitHubRepository;
  contributionStats : GitHubContributionStats;
  metrics : GitHubMetrics;
  fetchedAt : Z
}.

(** The language names of the own repositories, in the order the loop
    meets them, and the bytes per language. *)
Definition language_entries (ownRepos : list GitHubRepository)
  : list (string * Q) :=
  flat_map languages ownRepos.

Definition languageBytes_of (ownRepos : list GitHubRepository)
  : list (string * Q) :=
  fold_left (fun m e => record_add (fst e) (snd e) m)
            (language_entries ownRepos) [].

(** The score formulas, each over the local values it reads. *)
Definition languageDiversity_of (uniqueLanguages : Q) : Q :=
  Math_min (uniqueLanguages / 10) 1 * 100.

Definition codeQualityScore_of (readmeRatio licenseRatio topicsRatio
                                totalStars : Q) : Q :=
  Math_min (readmeRatio * 30 + licenseRatio * 20 + topicsRatio * 20
            + Math_min (totalStars / 100) 1 * 30) 100.

Definition commitFrequency_of (totalCommits : Q) : Q :=
  Math_min (totalCommits / 365 * 10) 100.

Definition collaborationScore_of (totalPRs totalReviews totalIssues : Q) : Q :=
  Math_min (totalPRs / 50 * 40 + totalReviews / 50 * 30
            + totalIssues / 100 * 30) 100.

Definition projectImpactScore_of (totalStars totalForks followers : Q) : Q :=
  Math_min (totalStars / 100 * 40 + totalForks / 50 * 30
            + followers / 100 * 30) 100.

Definition overallScore_of (codeQualityScore languageDiversity commitFrequency
                            collaborationScore projectImpactScore : Q) : Q :=
  Math_round (codeQualityScore * 0.25 + languageDiversity * 0.15
              + commitFrequency * 0.25 + collaborationScore * 0.2
              + projectImpactScore * 0.15).

(** [ownRepos.length > 0 ? totalCommits / ownRepos.length : 0] *)
Definition avgCommitsPerRepo_of (totalCommits count : Q) : Res Q :=
  if gtb count 0 then div totalCommits count else Ok 0.

(** [sixMonthsAgo] is the instant [new Date()] moved back six months. *)
Definition calculateMetrics (sixMonthsAgo : Z)
           (profile : GitHubUserProfile)
           (repositories : list GitHubRepository)
           (contributionStats : GitHubContributionStats)
  : Res GitHubMetrics :=
  let ownRepos := filter (fun r => negb (isForked r)) repositories in
  let uniqueLanguages := uniq (map fst (language_entries ownRepos)) in
  let languageBytes := languageBytes_of ownRepos in
  let languageDiversity := languageDiversity_of (len uniqueLanguages) in
  let topLanguage :=
    match sort_by (fun a b => snd b - snd a) languageBytes with
    | [] => None
    | e :: _ => if String.eqb (fst e) "" then None else Some (fst e)
    end in
  let totalStars := sum_by stargazersCount ownRepos in
  let totalForks := sum_by forksCount ownRepos in
  let hasReadme := len (filter (fun r => truthy (description r)) ownRepos) in
  let hasLicense := len (filter (fun r => truthy (license r)) ownRepos) in
  let hasTopics := len (filter (fun r => gtb (len (topics r)) 0) ownRepos) in
  readmeRatio <- div hasReadme (Math_max (len ownRepos) 1) ;;
  licenseRatio <- div hasLicense (Math_max (len ownRepos) 1) ;;
  topicsRatio <- div hasTopics (Math_max (len ownRepos) 1) ;;
  let codeQualityScore :=
    codeQualityScore_of readmeRatio licenseRatio topicsRatio totalStars in
  avgCommitsPerRepo <-
    avgCommitsPerRepo_of (totalCommits contributionStats) (len ownRepos) ;;
  let commitFrequency :=
    commitFrequency_of (totalCommits contributionStats) in
  let collaborationScore :=
    collaborationScore_of (totalPRs contributionStats)
                          (totalReviews contributionStats)
                          (totalIssues contributionStats) in
  let projectImpactScore :=
    projectImpactScore_of totalStars totalForks (followers profile) in
  let activeRepos :=
    len (filter (fun r => Z.gtb (pushedAt r) sixMonthsAgo) ownRepos) in
  let overallScore :=
    overallScore_of codeQualityScore languageDiversity commitFrequency
                    collaborationScore projectImpactScore in
  let recommendations :=
    push_if (ltb languageDiversity 50)
      "Explore more programming languages to increase diversity"
    ++ push_if (ltb hasReadme (len ownRepos * 0.8))
      "Add descriptions to more of your repositories"
    ++ push_if (ltb hasLicense (len ownRepos * 0.5))
      "Add licenses to your repositories"
    ++ push_if (ltb commitFrequency 50)
      "Maintain consistent commit activity"
    ++ push_if (ltb collaborationScore 50)
      "Contribute to other projects through PRs and code reviews"
    ++ push_if (ltb activeRepos 3)
      "Keep more projects actively maintained"
    ++ push_if (is_null (bio profile))
      "Add a bio to your GitHub profile" in
  Ok {| codeQualityScore := Math_round codeQualityScore;
        languageDiversity := Math_round languageDiversity;
        commitFrequency := Math_round commitFrequency;
        collaborationScore := Math_round collaborationScore;
        projectImpactScore := Math_round projectImpactScore;
        overallScore := overallScore;
        breakdown := {| repositories := len ownRepos;
                        stars := totalStars;
                        forks := totalForks;
                        bd_followers := followers profile;
                        bd_languages := uniqueLanguages;
                        topLanguage := topLanguage;
                        avgCommitsPerRepo :=
                          Math_round (avgCommitsPerRepo * 10) / 10;
                        activeRepos := activeRepos |};
        recommendations := recommendations |}.

End GitHub.

(** ** LinkedIn calculator (linkedin.connector.ts) *)

Module LinkedIn.

(** What the calculator reads of a [Date]. *)
Record JsDate : Type := {
  getFullYear : Z;
  getMonth : Z
}.

Record LinkedInProfile : Type := {
  username : string;
  headline : option string;
  bio : option string;
  connections : Q;
  isManualEntry : bool
}.

(** [endDate] is [None] for null and for the empty string, the two values
    the test [exp.endDate ? ... : new Date()] sends to the clock. *)
Record LinkedInExperience : Type := {
  title : string;
  company : string;
  startDate : JsDate;
  endDate : option JsDate;
  isCurrent : bool;
  description : option string
}.

Record LinkedInEducation : Type := {
  school : string;
  degree : option string;
  fieldOfStudy : option string;
  startYear : option Q;
  endYear : option Q
}.

Record LinkedInSkill : Type := {
  skill_name : string;
  endorsements : Q
}.

Record LinkedInCertification : Type := {
  cert_name : string;
  authority : string
}.

Record Breakdown : Type := {
  yearsOfExperience : Q;
  numberOfPositions : Q;
  numberOfEducation : Q;
  numberOfSkills : Q;
  topSkills : list string;
  bd_connections : Q;
  hasCertifications : bool
}.

Record LinkedInMetrics : Type := {
  experienceScore : Q;
  educationScore : Q;
  skillsScore : Q;
  networkScore : Q;
  overallScore : Q;
  breakdown : Breakdown;
  recommendations : list string
}.

Record LinkedInData : Type := {
  profile : LinkedInProfile;
  experiences : list LinkedInExperience;
  education : list LinkedInEducation;
  skills : list LinkedInSkill;
  certifications : list LinkedInCertification;
  metrics : LinkedInMetrics;
  fetchedAt : Z
}.

(** One turn of the loop over the experiences. *)
Definition months_of (now : JsDate) (exp : LinkedInExperience) : Q :=
  let start := startDate exp in
  let end_ := match endDate exp with Some d => d | None => now end in
  inject_Z ((getFullYear end_ - getFullYear start) * 12
            + (getMonth end_ - getMonth start)).

(** [e.degree?.toLowerCase().includes(word)] *)
Definition degree_includes (e : LinkedInEducation) (word : string) : bool :=
  match degree e with
  | Some d => includes (toLowerCase d) word
  | None => false
  end.

(** The score formulas, each over the local values it reads. *)
Definition experienceScore_of (yearsOfExperience positions describedRatio : Q)
  : Q :=
  Math_min ((if geb yearsOfExperience 5 then 40 else yearsOfExperience * 8)
            + (if geb positions 3 then 30 else positions * 10)
            + describedRatio * 30) 100.

Definition educationScore_of (entries : Q)
           (hasAdvancedDegree hasFieldOfStudy : bool) : Q :=
  Math_min ((if geb entries 1 then 40 else 0)
            + (if hasAdvancedDegree then 30 else 0)
            + (if hasFieldOfStudy then 30 else 0)) 100.

Definition skillsScore_of (count totalEndorsements : Q) : Q :=
  Math_min ((if geb count 10 then 50 else count * 5)
            + (if geb totalEndorsements 50 then 50 else totalEndorsements))
           100.

Definition networkScore_of (connections : Q) : Q :=
  Math_min (if geb connections 500 then 100 else connections / 5) 100.

Definition overallScore_of (experienceScore educationScore skillsScore
                            networkScore : Q) : Q :=
  Math_round (experienceScore * 0.35 + educationScore * 0.2
              + skillsScore * 0.25 + networkScore * 0.2).

(** [now] is the value of [new Date()]. *)
Definition calculateMetrics (now : JsDate)
           (profile : LinkedInProfile)
           (experiences : list LinkedInExperience)
           (education : list LinkedInEducation)
           (skills : list LinkedInSkill)
           (certifications : list LinkedInCertification)
  : Res LinkedInMetrics :=
  let totalMonths :=
    fold_left (fun total exp => total + Math_max 0 (months_of now exp))
              experiences 0 in
  let yearsOfExperience := Math_round (totalMonths / 12 * 10) / 10 in
  let described := len (filter (fun e => truthy (description e)) experiences) in
  describedRatio <- div described (Math_max (len experiences) 1) ;;
  let experienceScore :=
    experienceScore_of yearsOfExperience (len experiences) describedRatio in
  let hasAdvancedDegree :=
    existsb (fun e => degree_includes e "master"
                      || degree_includes e "phd"
                      || degree_includes e "mba")%bool education in
  let educationScore :=
    educationScore_of (len education) hasAdvancedDegree
                      (existsb (fun e => truthy (fieldOfStudy e)) education) in
  let topSkills :=
    map skill_name
        (slice0 10 (sort_by (fun a b => endorsements b - endorsements a)
                            skills)) in
  let totalEndorsements := sum_by endorsements skills in
  let skillsScore := skillsScore_of (len skills) totalEndorsements in
  let networkScore := networkScore_of (connections profile) in
  let overallScore :=
    overallScore_of experienceScore educationScore skillsScore networkScore in
  let recommendations :=
    push_if (ltb yearsOfExperience 2)
      "Gain more professional experience"
    ++ push_if (ltb described (len experiences))
      "Add detailed descriptions to your work experiences"
    ++ push_if (ltb (len skills) 10)
      "Add more skills to your profile"
    ++ push_if (ltb (connections profile) 100)
      "Expand your professional network"
    ++ push_if (negb (truthy (headline profile)))
      "Add a professional headline"
    ++ push_if (negb (truthy (bio profile)))
      "Write a compelling summary/bio"
    ++ push_if (Qeq_bool (len certifications) 0)
      "Add relevant certifications to stand out" in
  Ok {| experienceScore := Math_round experienceScore;
        educationScore := Math_round educationScore;
        skillsScore := Math_round skillsScore;
        networkScore := Math_round networkScore;
        overallScore := overallScore;
        breakdown := {| yearsOfExperience := yearsOfExperience;
                        numberOfPositions := len experiences;
                        numberOfEducation := len education;
                        numberOfSkills := len skills;
                        topSkills := topSkills;
                        bd_connections := connections profile;
                        hasCertifications := gtb (len certifications) 0 |};
        recommendations := recommendations |}.

End LinkedIn.

(** ** Twitter calculator (twitter.connector.ts) *)

Module Twitter.

Record TwitterProfile : Type := {
  username : string;
  bio : option string;
  followers : Q;
  following : Q;
  tweetCount : Q;
  listedCount : Q;
  verified : bool
}.

Record TwitterTweet : Type := {
  text : string;
  createdAt : Z;
  likes : Q;
  retweets : Q;
  replies : Q;
  quotes : Q;
  impressions : option Q;
  isRetweet : bool;
  isReply : bool;
  hashtags : list string
}.

Record Breakdown : Type := {
  bd_followers : Q;
  bd_following : Q;
  totalTweets : Q;
  avgLikes : Q;
  avgRetweets : Q;
  engagementRate : Q;
  technicalTweetRatio : Q;
  topHashtags : list string
}.

Record TwitterMetrics : Type := {
  engagementScore : Q;
  technicalContentScore : Q;
  influenceScore : Q;
  consistencyScore : Q;
  overallScore : Q;
  breakdown : Breakdown;
  recommendations : list string
}.

Record TwitterData : Type := {
  profile : TwitterProfile;
  tweets : list TwitterTweet;
  metrics : TwitterMetrics;
  fetchedAt : Z
}.

Definition TECH_KEYWORDS : list string :=
  [ "javascript"; "typescript"; "python"; "java"; "rust"; "golang"; "react";
    "vue"; "angular"; "nodejs"; "docker"; "kubernetes"; "aws"; "azure"; "gcp";
    "api"; "database"; "sql"; "nosql"; "mongodb"; "postgresql"; "redis";
    "git"; "github"; "gitlab"; "cicd"; "devops"; "agile"; "scrum";
    "machine learning"; "ai"; "ml"; "deep learning"; "neural network";
    "frontend"; "backend"; "fullstack"; "microservices"; "serverless";
    "programming"; "coding"; "developer"; "software"; "engineering";
    "algorithm"; "data structure"; "open source"; "code review" ]%string.

Definition isTechnicalTweet (tweet : TwitterTweet) : bool :=
  let text := toLowerCase (text tweet) in
  let hashtags := map toLowerCase (hashtags tweet) in
  existsb (fun keyword => includes text keyword
                          || mem (strip_spaces keyword) hashtags)%bool
          TECH_KEYWORDS.

(** Milliseconds in a week. *)
Definition WEEK_MS : Q := 1000 * 60 * 60 * 24 * 7.

(** The score formulas, each over the local values it reads. *)
Definition engagementScore_of (avgLikes avgRetweets engagementRate : Q) : Q :=
  Math_min ((if geb avgLikes 10 then 40 else avgLikes * 4)
            + (if geb avgRetweets 5 then 30 else avgRetweets * 6)
            + (if geb engagementRate 1 then 30 else engagementRate * 30))
           100.

Definition technicalContentScore_of (technicalTweetRatio : Q) : Q :=
  Math_min (technicalTweetRatio * 100) 100.

Definition influenceScore_of (followers listedCount : Q) (verified : bool)
  : Q :=
  Math_min ((if geb followers 10000 then 40 else followers / 10000 * 40)
            + (if geb listedCount 100 then 30 else listedCount / 100 * 30)
            + (if verified then 30 else 0)) 100.

Definition consistencyScore_of (tweetsPerWeek : Q) : Q :=
  Math_min (if geb tweetsPerWeek 7 then 100 else tweetsPerWeek * 14) 100.

Definition overallScore_of (engagementScore technicalContentScore
                            influenceScore consistencyScore : Q) : Q :=
  Math_round (engagementScore * 0.3 + technicalContentScore * 0.25
              + influenceScore * 0.25 + consistencyScore * 0.2).

(** The engagement rate per follower, in percent. *)
Definition engagementRate_of (followers totalEngagement count : Q) : Res Q :=
  if gtb followers 0
  then perTweet <- div totalEngagement count ;;
       perFollower <- div perTweet followers ;;
       Ok (perFollower * 100)
  else Ok 0.

(** Tweets per week, between the oldest and the newest original tweet. *)
Definition tweetsPerWeek_of (originalTweets : list TwitterTweet) : Res Q :=
  let sortedTweets :=
    sort_by (fun a b => inject_Z (createdAt a) - inject_Z (createdAt b))
            originalTweets in
  if geb (len sortedTweets) 2
  then firstTweet <- at_ sortedTweets 0 ;;
       lastTweet <- at_ sortedTweets (List.length sortedTweets - 1) ;;
       let weeks :=
         Math_max 1 ((inject_Z (createdAt lastTweet)
                      - inject_Z (createdAt firstTweet)) / WEEK_MS) in
       div (len originalTweets) weeks
  else Ok 0.

Definition calculateMetrics (profile : TwitterProfile)
           (tweets : list TwitterTweet) : Res TwitterMetrics :=
  let originalTweets := filter (fun t => negb (isRetweet t)) tweets in
  if Qeq_bool (len originalTweets) 0 then
    Ok {| engagementScore := 0;
          technicalContentScore := 0;
          influenceScore := Math_min (followers profile / 1000 * 20) 100;
          consistencyScore := 0;
          overallScore := Math_min (followers profile / 1000 * 5) 25;
          breakdown := {| bd_followers := followers profile;
                          bd_following := following profile;
                          totalTweets := tweetCount profile;
                          avgLikes := 0;
                          avgRetweets := 0;
                          engagementRate := 0;
                          technicalTweetRatio := 0;
                          topHashtags := [] |};
          recommendations := ["Tweet more to build your social presence"%string]
       |}
  else
    let totalLikes := sum_by likes originalTweets in
    let totalRetweets := sum_by retweets originalTweets in
    avgLikes <- div totalLikes (len originalTweets) ;;
    avgRetweets <- div totalRetweets (len originalTweets) ;;
    let totalEngagement := totalLikes + totalRetweets * 2 in
    engagementRate <-
      engagementRate_of (followers profile) totalEngagement
                        (len originalTweets) ;;
    let technicalTweets := filter isTechnicalTweet originalTweets in
    technicalTweetRatio <- div (len technicalTweets) (len originalTweets) ;;
    let hashtagCounts :=
      fold_left (fun m tag => record_add (toLowerCase tag) 1 m)
                (flat_map hashtags originalTweets) [] in
    let topHashtags :=
      map fst (slice0 5 (sort_by (fun a b => snd b - snd a) hashtagCounts)) in
    let engagementScore :=
      engagementScore_of avgLikes avgRetweets engagementRate in
    let technicalContentScore :=
      technicalContentScore_of technicalTweetRatio in
    let influenceScore :=
      influenceScore_of (followers profile) (listedCount profile)
                        (verified profile) in
    tweetsPerWeek <- tweetsPerWeek_of originalTweets ;;
    let consistencyScore := consistencyScore_of tweetsPerWeek in
    let overallScore :=
      overallScore_of engagementScore technicalContentScore influenceScore
                      consistencyScore in
    let recommendations :=
      push_if (ltb technicalTweetRatio 0.3)
        "Share more technical content to establish expertise"
      ++ push_if (ltb avgLikes 5)
        "Engage more with the community to increase visibility"
      ++ push_if (ltb tweetsPerWeek 3)
        "Tweet more consistently to grow your audience"
      ++ push_if (ltb (len topHashtags) 3)
        "Use relevant hashtags to reach a wider audience"
      ++ push_if (is_null (bio profile))
        "Add a bio to your Twitter profile" in
    Ok {| engagementScore := Math_round engagementScore;
          technicalContentScore := Math_round technicalContentScore;
          influenceScore := Math_round influenceScore;
          consistencyScore := Math_round consistencyScore;
          overallScore := overallScore;
          breakdown := {| bd_followers := followers profile;
                          bd_following := following profile;
                          totalTweets := tweetCount profile;
                          avgLikes := Math_round (avgLikes * 10) / 10;
                          avgRetweets := Math_round (avgRetweets * 10) / 10;
                          engagementRate :=
                            Math_round (engagementRate * 100) / 100;
                          technicalTweetRatio :=
                            Math_round (technicalTweetRatio * 100) / 100;
                          topHashtags := topHashtags |};
          recommendations := recommendations |}.

End Twitter.

(** ** Blog calculator (blog connector: dev.to, Hashnode, Medium) *)

Module Blog.

Record BlogPost : Type := {
  title : string;
  excerpt : option string;
  tags : list string;
  publishedAt : Z;
  readingTime : Q;
  reactions : Q;
  comments : Q;
  views : option Q;
  coverImage : option string
}.

Record BlogProfile : Type := {
  username : string;
  bio : option string;
  followers : Q;
  following : Q;
  bp_totalPosts : Q
}.

Record Breakdown : Type := {
  totalPosts : Q;
  totalReactions : Q;
  totalComments : Q;
  avgReadingTime : Q;
  postsPerMonth : Q;
  topTags : list string;
  bd_followers : Q
}.

Record BlogMetrics : Type := {
  contentQualityScore : Q;
  consistencyScore : Q;
  engagementScore : Q;
  topicDiversityScore : Q;
  overallScore : Q;
  breakdown : Breakdown;
  recommendations : list string
}.

Record BlogData : Type := {
  profile : BlogProfile;
  posts : list BlogPost;
  metrics : BlogMetrics;
  fetchedAt : Z
}.

(** Milliseconds in thirty days. *)
Definition MONTH_MS : Q := 1000 * 60 * 60 * 24 * 30.

(** [p.excerpt && p.excerpt.length > 50] *)
Definition long_excerpt (p : BlogPost) : bool :=
  match excerpt p with
  | Some e => Nat.ltb 50 (String.length e)
  | None => false
  end.

(** The score formulas, each over the local values it reads. *)
Definition contentQualityScore_of (avgReadingTime coverRatio excerptRatio
                                   count : Q) : Q :=
  Math_min ((if geb avgReadingTime 3 then 30 else avgReadingTime * 10)
            + coverRatio * 20 + excerptRatio * 20
            + Math_min (count / 20) 1 * 30) 100.

Definition consistencyScore_of (postsPerMonth : Q) : Q :=
  Math_min (if geb postsPerMonth 4 then 100 else postsPerMonth * 25) 100.

Definition engagementScore_of (reactionsPerPost commentsPerPost followers : Q)
  : Q :=
  Math_min ((if geb reactionsPerPost 10 then 40 else reactionsPerPost * 4)
            + (if geb commentsPerPost 5 then 30 else commentsPerPost * 6)
            + (if geb followers 100 then 30 else followers * 0.3)) 100.

Definition topicDiversityScore_of (uniqueTags : Q) : Q :=
  Math_min (uniqueTags / 10 * 100) 100.

Definition overallScore_of (contentQualityScore consistencyScore
                            engagementScore topicDiversityScore : Q) : Q :=
  Math_round (contentQualityScore * 0.3 + consistencyScore * 0.25
              + engagementScore * 0.3 + topicDiversityScore * 0.15).

(** Months between the first and the last post, at least one. *)
Definition monthsActive_of (posts : list BlogPost) : Res Q :=
  let sortedPosts :=
    sort_by (fun a b => inject_Z (publishedAt a) - inject_Z (publishedAt b))
            posts in
  firstPost <- at_ sortedPosts 0 ;;
  lastPost <- at_ sortedPosts (List.length sortedPosts - 1) ;;
  Ok (Math_max 1 ((inject_Z (publishedAt lastPost)
                   - inject_Z (publishedAt firstPost)) / MONTH_MS)).

Definition calculateMetrics (profile : BlogProfile) (posts : list BlogPost)
  : Res BlogMetrics :=
  if Qeq_bool (len posts) 0 then
    Ok {| contentQualityScore := 0;
          consistencyScore := 0;
          engagementScore := 0;
          topicDiversityScore := 0;
          overallScore := 0;
          breakdown := {| totalPosts := 0;
                          totalReactions := 0;
                          totalComments := 0;
                          avgReadingTime := 0;
                          postsPerMonth := 0;
                          topTags := [];
                          bd_followers := followers profile |};
          recommendations :=
            ["Start writing blog posts to build your content portfolio"%string]
       |}
  else
    let totalReactions := sum_by reactions posts in
    let totalComments := sum_by comments posts in
    avgReadingTime <- div (sum_by readingTime posts) (len posts) ;;
    monthsActive <- monthsActive_of posts ;;
    postsPerMonth <- div (len posts) monthsActive ;;
    let tagCounts :=
      fold_left (fun m tag => record_add tag 1 m) (flat_map tags posts) [] in
    let topTags :=
      map fst (slice0 5 (sort_by (fun a b => snd b - snd a) tagCounts)) in
    let uniqueTags := len tagCounts in
    let withCover := len (filter (fun p => truthy (coverImage p)) posts) in
    coverRatio <- div withCover (len posts) ;;
    excerptRatio <- div (len (filter long_excerpt posts)) (len posts) ;;
    let contentQualityScore :=
      contentQualityScore_of avgReadingTime coverRatio excerptRatio
                             (len posts) in
    let consistencyScore := consistencyScore_of postsPerMonth in
    reactionsPerPost <- div totalReactions (len posts) ;;
    commentsPerPost <- div totalComments (len posts) ;;
    let engagementScore :=
      engagementScore_of reactionsPerPost commentsPerPost
                         (followers profile) in
    let topicDiversityScore := topicDiversityScore_of uniqueTags in
    let overallScore :=
      overallScore_of contentQualityScore consistencyScore engagementScore
                      topicDiversityScore in
    let recommendations :=
      push_if (ltb postsPerMonth 2)
        "Write more frequently to maintain reader engagement"
      ++ push_if (ltb avgReadingTime 3)
        "Write longer, more in-depth articles"
      ++ push_if (ltb uniqueTags 5)
        "Cover more diverse topics to reach a wider audience"
      ++ push_if (ltb withCover (len posts * 0.8))
        "Add cover images to more of your posts"
      ++ push_if (ltb reactionsPerPost 5)
        "Engage with the community to increase your reactions" in
    Ok {| contentQualityScore := Math_round contentQualityScore;
          consistencyScore := Math_round consistencyScore;
          engagementScore := Math_round engagementScore;
          topicDiversityScore := Math_round topicDiversityScore;
          overallScore := overallScore;
          breakdown := {| totalPosts := len posts;
                          totalReactions := totalReactions;
                          totalComments := totalComments;
                          avgReadingTime := Math_round (avgReadingTime * 10) / 10;
                          postsPerMonth := Math_round (postsPerMonth * 10) / 10;
                          topTags := topTags;
                          bd_followers := followers profile |};
          recommendations := recommendations |}.

End Blog.

(** ** Aggregation and scoring service *)

Module Aggregation.

Inductive Platform : Type :=
| GITHUB | LINKEDIN | TWITTER | DEVTO | HASHNODE | MEDIUM.

(** [DigitalProfile['platforms']]: an absent key is [None]. *)
Record Platforms : Type := {
  pf_github : option GitHub.GitHubData;
  pf_linkedin : option LinkedIn.LinkedInData;
  pf_twitter : option Twitter.TwitterData;
  pf_devto : option Blog.BlogData;
  pf_hashnode : option Blog.BlogData;
  pf_medium : option Blog.BlogData
}.

Record DigitalProfile : Type := {
  candidateId : nat;
  userId : string;
  name : string;
  platforms : Platforms;
  aggregatedAt : Z
}.

Record ScoringWeights : Type := {
  github : Q;
  linkedin : Q;
  twitter : Q;
  blog : Q
}.

Definition DEFAULT_WEIGHTS : ScoringWeights :=
  {| github := 0.35; linkedin := 0.30; twitter := 0.15; blog := 0.20 |}.

(** [Partial<ScoringWeights>]: a field that is not named is [None]. *)
Record PartialWeights : Type := {
  opt_github : option Q;
  opt_linkedin : option Q;
  opt_twitter : option Q;
  opt_blog : option Q
}.

Record ScoreBreakdown : Type := {
  platformScores : list (string * Q);
  bd_weights : ScoringWeights;
  platformsConnected : list string;
  platformsMissing : list string
}.

Record CompositeScore : Type := {
  overallScore : Q;
  githubScore : option Q;
  linkedinScore : option Q;
  blogScore : option Q;
  socialScore : option Q;
  breakdown : ScoreBreakdown;
  strengths : list string;
  improvements : list string;
  recommendations : list string;
  calculatedAt : Z
}.

Record ScoreUpdateResult : Type := {
  previous : option CompositeScore;
  current : CompositeScore;
  changed : bool;
  changeAmount : Q
}.

(** The service object: its only state is [this.weights]. *)
Record AggregationService : Type := {
  weights : ScoringWeights
}.

Definition aggregationService : AggregationService :=
  {| weights := DEFAULT_WEIGHTS |}.

(** *** calculateCompositeScore *)

(** The pushes of one family, present with score [s] or absent. *)
Definition pushed {A} (present : option A) (f : A -> list string)
  : list string :=
  match present with
  | Some a => f a
  | None => []
  end.

Definition missing {A} (present : option A) (key : string) : list string :=
  match present with
  | Some _ => []
  | None => [key]
  end.

Definition scored {A} (present : option A) (key : string) (score : A -> Q)
  : list (string * Q) :=
  match present with
  | Some a => [(key, score a)]
  | None => []
  end.

(** [if (score !== null) { weightedSum += score * w; totalWeight += w }]
    on the pair [(weightedSum, totalWeight)]. *)
Definition add_family (score : option Q) (w : Q) (acc : Q * Q) : Q * Q :=
  match score with
  | Some s => (fst acc + s * w, snd acc + w)
  | None => acc
  end.

Definition gh_score (d : GitHub.GitHubData) : Q :=
  GitHub.overallScore (GitHub.metrics d).
Definition li_score (d : LinkedIn.LinkedInData) : Q :=
  LinkedIn.overallScore (LinkedIn.metrics d).
Definition tw_score (d : Twitter.TwitterData) : Q :=
  Twitter.overallScore (Twitter.metrics d).
Definition blog_score (d : Blog.BlogData) : Q :=
  Blog.overallScore (Blog.metrics d).
Definition gh_recs (d : GitHub.GitHubData) : list string :=
  GitHub.recommendations (GitHub.metrics d).
Definition li_recs (d : LinkedIn.LinkedInData) : list string :=
  LinkedIn.recommendations (LinkedIn.metrics d).
Definition tw_recs (d : Twitter.TwitterData) : list string :=
  Twitter.recommendations (Twitter.metrics d).
Definition blog_recs (d : Blog.BlogData) : list string :=
  Blog.recommendations (Blog.metrics d).

(** The array [blogScores] after the three blog providers. *)
Definition provider (present : option Blog.BlogData) : list Q :=
  match present with
  | Some d => [blog_score d]
  | None => []
  end.

Definition blogScores_of (p : Platforms) : list Q :=
  provider (pf_devto p) ++ provider (pf_hashnode p) ++ provider (pf_medium p).

(** [blogScore]: null without a provider, else the rounded mean. *)
Definition blogScore_of (blogScores : list Q) : option Q :=
  if gtb (len blogScores) 0
  then Some (Math_round (fold_left Qplus blogScores 0 / len blogScores))
  else None.

(** The family recommendations, in the order they are pushed. *)
Definition family_recommendations (p : Platforms) : list string :=
  pushed (pf_github p) gh_recs ++ pushed (pf_linkedin p) li_recs
  ++ pushed (pf_twitter p) tw_recs ++ pushed (pf_devto p) blog_recs
  ++ pushed (pf_hashnode p) blog_recs ++ pushed (pf_medium p) blog_recs.

Definition platformsMissing_of (p : Platforms) : list string :=
  missing (pf_github p) "github" ++ missing (pf_linkedin p) "linkedin"
  ++ missing (pf_twitter p) "twitter"
  ++ (if gtb (len (blogScores_of p)) 0 then [] else ["blog"%string]).

(** The entry pushed when [platformsMissing.length > 0]. *)
Definition connect_more (platformsMissing : list string) : string :=
  ("Connect more platforms: " ++ join ", " platformsMissing)%string.

(** [if (score >= 70) allStrengths.push(s)] and
    [if (score < 50) allImprovements.push(s)], inside the branch where the
    family is present. *)
Definition strength (score : option Q) (s : string) : list string :=
  pushed score (fun v => push_if (geb v 70) s).
Definition improvement (score : option Q) (s : string) : list string :=
  pushed score (fun v => push_if (ltb v 50) s).

(** [now] is the value of [new Date()]. *)
Definition calculateCompositeScore (this : AggregationService) (now : Z)
           (profile : DigitalProfile) : CompositeScore :=
  let p := platforms profile in
  let githubScore := option_map gh_score (pf_github p) in
  let linkedinScore := option_map li_score (pf_linkedin p) in
  let socialScore := option_map tw_score (pf_twitter p) in
  let blogScores := blogScores_of p in
  let blogScore := blogScore_of blogScores in
  let platformScores :=
    scored (pf_github p) "github" gh_score
    ++ scored (pf_linkedin p) "linkedin" li_score
    ++ scored (pf_twitter p) "twitter" tw_score
    ++ scored (pf_devto p) "devto" blog_score
    ++ scored (pf_hashnode p) "hashnode" blog_score
    ++ scored (pf_medium p) "medium" blog_score in
  (* every push to [platformsConnected] goes with one to [platformScores] *)
  let platformsConnected := map fst platformScores in
  let platformsMissing := platformsMissing_of p in
  let allStrengths :=
    strength githubScore "Strong GitHub presence with quality code"
    ++ strength linkedinScore "Well-developed professional network"
    ++ strength socialScore "Strong social media engagement"
    ++ strength blogScore "Active content creator with quality blogs" in
  let allImprovements :=
    improvement githubScore "Improve GitHub activity and project quality"
    ++ improvement linkedinScore "Enhance LinkedIn profile and connections"
    ++ improvement socialScore "Increase technical content on social media"
    ++ improvement blogScore "Write more technical blog content" in
  let sums :=
    add_family blogScore (blog (weights this))
      (add_family socialScore (twitter (weights this))
        (add_family linkedinScore (linkedin (weights this))
          (add_family githubScore (github (weights this)) (0, 0)))) in
  let weightedSum := fst sums in
  let totalWeight := snd sums in
  let overallScore :=
    if gtb totalWeight 0 then Math_round (weightedSum / totalWeight) else 0 in
  let allRecommendations :=
    family_recommendations p
    ++ push_if (gtb (len platformsMissing) 0) (connect_more platformsMissing) in
  let uniqueRecommendations := uniq allRecommendations in
  {| overallScore := overallScore;
     githubScore := githubScore;
     linkedinScore := linkedinScore;
     blogScore := blogScore;
     socialScore := socialScore;
     breakdown := {| platformScores := platformScores;
                     bd_weights := weights this;
                     platformsConnected := platformsConnected;
                     platformsMissing := platformsMissing |};
     strengths := allStrengths;
     improvements := allImprovements;
     recommendations := slice0 10 uniqueRecommendations;
     calculatedAt := now |}.

(** *** Persistence: the rows the service reads and writes

    The generated row ids are numbers here; the cached platform data of a
    candidate, which the connectors' [getCachedData] rebuild from the
    platform-data rows, is kept with the candidate. *)

Record PlatformConnection : Type := {
  platform : Platform;
  conn_username : string
}.

Record CandidateProfileRow : Type := {
  cp_id : nat;
  cp_userId : string;
  cp_userName : string;
  platformConnections : list PlatformConnection;
  cachedData : Platforms
}.

Record CandidateScoreRow : Type := {
  id : nat;
  cs_candidateId : nat;
  compositeScore : Q;
  cs_githubScore : option Q;
  cs_linkedinScore : option Q;
  cs_blogScore : option Q;
  cs_socialScore : option Q;
  cs_strengths : list string;
  cs_improvements : list string;
  createdAt : Z;
  updatedAt : Z
}.

Record Db : Type := {
  candidateProfile : list CandidateProfileRow;
  candidateScore : list CandidateScoreRow
}.

(** [prisma.candidateProfile.findUnique({ where: { userId } })] *)
Definition findUnique (db : Db) (userId : string)
  : option CandidateProfileRow :=
  find (fun cp => String.eqb (cp_userId cp) userId) (candidateProfile db).

(** [where: { candidateId }, orderBy: { createdAt: 'desc' }] *)
Definition scores_desc (db : Db) (candidateId : nat)
  : list CandidateScoreRow :=
  sort_by (fun a b => inject_Z (createdAt b) - inject_Z (createdAt a))
          (filter (fun r => Nat.eqb (cs_candidateId r) candidateId)
                  (candidateScore db)).

(** [prisma.candidateScore.findFirst] *)
Definition findFirst (db : Db) (candidateId : nat)
  : option CandidateScoreRow :=
  hd_error (scores_desc db candidateId).

(** [prisma.candidateScore.findMany] with [take: limit] *)
Definition findMany (db : Db) (candidateId : nat) (limit : nat)
  : list CandidateScoreRow :=
  slice0 limit (scores_desc db candidateId).

(** An id no row has yet. *)
Definition fresh_id (rows : list CandidateScoreRow) : nat :=
  S (fold_right Nat.max 0%nat (map id rows)).

(** [prisma.candidateScore.upsert({ where: { id }, create, update })]:
    the row with that id is updated in place if there is one, else a row is
    created.  [where_id = None] stands for the id [''], which no row has. *)
Definition upsert (now : Z) (where_id : option nat) (candidateId : nat)
           (c : CompositeScore) (rows : list CandidateScoreRow)
  : list CandidateScoreRow :=
  let matches (r : CandidateScoreRow) :=
    match where_id with
    | Some i => Nat.eqb (id r) i
    | None => false
    end in
  if existsb matches rows then
    map (fun r =>
           if matches r then
             {| id := id r;
                cs_candidateId := cs_candidateId r;
                compositeScore := overallScore c;
                cs_githubScore := githubScore c;
                cs_linkedinScore := linkedinScore c;
                cs_blogScore := blogScore c;
                cs_socialScore := socialScore c;
                cs_strengths := strengths c;
                cs_improvements := improvements c;
                createdAt := createdAt r;
                updatedAt := now |}
           else r) rows
  else
    rows ++ [ {| id := fresh_id rows;
                 cs_candidateId := candidateId;
                 compositeScore := overallScore c;
                 cs_githubScore := githubScore c;
                 cs_linkedinScore := linkedinScore c;
                 cs_blogScore := blogScore c;
                 cs_socialScore := socialScore c;
                 cs_strengths := strengths c;
                 cs_improvements := improvements c;
                 createdAt := now;
                 updatedAt := now |} ].

(** The [CompositeScore] the service rebuilds from a stored row. *)
Definition of_row (this : AggregationService) (r : CandidateScoreRow)
  : CompositeScore :=
  {| overallScore := compositeScore r;
     githubScore := cs_githubScore r;
     linkedinScore := cs_linkedinScore r;
     blogScore := cs_blogScore r;
     socialScore := cs_socialScore r;
     breakdown := {| platformScores := [];
                     bd_weights := weights this;
                     platformsConnected := [];
                     platformsMissing := [] |};
     strengths := cs_strengths r;
     improvements := cs_improvements r;
     recommendations := [];
     calculatedAt := createdAt r |}.

Definition no_platforms : Platforms :=
  {| pf_github := None; pf_linkedin := None; pf_twitter := None;
     pf_devto := None; pf_hashnode := None; pf_medium := None |}.

(** One turn of the loop over the platform connections: the key of the
    connected platform receives the cached data, or stays unset. *)
Definition aggregate_connection (cache : Platforms) (platforms : Platforms)
           (connection : PlatformConnection) : Platforms :=
  match platform connection with
  | GITHUB =>
      {| pf_github := pf_github cache; pf_linkedin := pf_linkedin platforms;
         pf_twitter := pf_twitter platforms; pf_devto := pf_devto platforms;
         pf_hashnode := pf_hashnode platforms;
         pf_medium := pf_medium platforms |}
  | LINKEDIN =>
      {| pf_github := pf_github platforms; pf_linkedin := pf_linkedin cache;
         pf_twitter := pf_twitter platforms; pf_devto := pf_devto platforms;
         pf_hashnode := pf_hashnode platforms;
         pf_medium := pf_medium platforms |}
  | TWITTER =>
      {| pf_github := pf_github platforms;
         pf_linkedin := pf_linkedin platforms;
         pf_twitter := pf_twitter cache; pf_devto := pf_devto platforms;
         pf_hashnode := pf_hashnode platforms;
         pf_medium := pf_medium platforms |}
  | DEVTO =>
      {| pf_github := pf_github platforms;
         pf_linkedin := pf_linkedin platforms;
         pf_twitter := pf_twitter platforms; pf_devto := pf_devto cache;
         pf_hashnode := pf_hashnode platforms;
         pf_medium := pf_medium platforms |}
  | HASHNODE =>
      {| pf_github := pf_github platforms;
         pf_linkedin := pf_linkedin platforms;
         pf_twitter := pf_twitter platforms; pf_devto := pf_devto platforms;
         pf_hashnode := pf_hashnode cache;
         pf_medium := pf_medium platforms |}
  | MEDIUM =>
      {| pf_github := pf_github platforms;
         pf_linkedin := pf_linkedin platforms;
         pf_twitter := pf_twitter platforms; pf_devto := pf_devto platforms;
         pf_hashnode := pf_hashnode platforms;
         pf_medium := pf_medium cache |}
  end.

Definition aggregateProfile (now : Z) (userId : string) (db : Db)
  : Res DigitalProfile :=
  match findUnique db userId with
  | None => Throw (NotFound "Candidate profile not found")
  | Some candidateProfile =>
      Ok {| candidateId := cp_id candidateProfile;
            userId := cp_userId candidateProfile;
            name := cp_userName candidateProfile;
            platforms :=
              fold_left (aggregate_connection (cachedData candidateProfile))
                        (platformConnections candidateProfile) no_platforms;
            aggregatedAt := now |}
  end.

(** *** calculateAndStoreScore, getScoreHistory, setWeights, getWeights

    The state is the database; [now] is the reading of the clock during
    the call. *)
Definition calculateAndStoreScore (this : AggregationService) (now : Z)
           (userId : string) (db : Db) : Res (ScoreUpdateResult * Db) :=
  match findUnique db userId with
  | None => Throw (NotFound "Candidate profile not found")
  | Some candidateProfile =>
      let previousScoreRecord := findFirst db (cp_id candidateProfile) in
      let previous := option_map (of_row this) previousScoreRecord in
      profile <- aggregateProfile now userId db ;;
      let current := calculateCompositeScore this now profile in
      let db' :=
        {| candidateProfile := Aggregation.candidateProfile db;
           candidateScore :=
             upsert now (option_map id previousScoreRecord)
                    (cp_id candidateProfile) current (candidateScore db) |} in
      let changed :=
        match previous with
        | Some prev => neqb (overallScore prev) (overallScore current)
        | None => false
        end in
      let changeAmount :=
        match previous with
        | Some prev => overallScore current - overallScore prev
        | None => overallScore current
        end in
      Ok ({| previous := previous; current := current;
             changed := changed; changeAmount := changeAmount |}, db')
  end.

Definition getScoreHistory (this : AggregationService) (userId : string)
           (limit : nat) (db : Db) : list CompositeScore :=
  match findUnique db userId with
  | None => []
  | Some candidateProfile =>
      map (of_row this) (findMany db (cp_id candidateProfile) limit)
  end.

(** [{ ...this.weights, ...weights }]: a key of the second object wins. *)
Definition spread (base : ScoringWeights) (over : PartialWeights)
  : ScoringWeights :=
  let pick (o : option Q) (b : Q) := match o with Some v => v | None => b end in
  {| github := pick (opt_github over) (github base);
     linkedin := pick (opt_linkedin over) (linkedin base);
     twitter := pick (opt_twitter over) (twitter base);
     blog := pick (opt_blog over) (blog base) |}.

Definition setWeights (weights : PartialWeights) (this : AggregationService)
  : AggregationService :=
  {| Aggregation.weights := spread (Aggregation.weights this) weights |}.

Definition no_weights : PartialWeights :=
  {| opt_github := None; opt_linkedin := None;
     opt_twitter := None; opt_blog := None |}.

(** [{ ...this.weights }]: a copy. *)
Definition getWeights (this : AggregationService) : ScoringWeights :=
  spread (weights this) no_weights.

End Aggregation.

(** ** Score update hook of the notification service *)

Module Notification.

Import Aggregation.

Inductive NotificationType : Type :=
| SCORE_UPDATE | SCORE_IMPROVEMENT | SCORE_DECLINE | PLATFORM_CONNECTED
| PLATFORM_DATA_REFRESHED | NEW_RECOMMENDATION | PROFILE_VIEW.

Record ScoreChangeData : Type := {
  previousScore : Q;
  currentScore : Q;
  sc_changeAmount : Q;
  affectedPlatforms : list string;
  sc_recommendations : list string
}.

(** The [data] of a notification; title and message, which only render
    it as text, are left out. *)
Inductive Payload : Type :=
| ScoreChange (d : ScoreChangeData)
| Recommendations (recommendations : list string).

Record Notification : Type := {
  n_userId : string;
  type : NotificationType;
  data : Payload;
  read : bool;
  n_createdAt : Z
}.

(** [notificationStore]: a map from user id to the user's notifications,
    newest first. *)
Definition Store : Type := list (string * list Notification).

Fixpoint store_get (store : Store) (userId : string) : list Notification :=
  match store with
  | [] => []
  | (u, ns) :: rest => if String.eqb u userId then ns else store_get rest userId
  end.

Fixpoint store_set (store : Store) (userId : string) (ns : list Notification)
  : Store :=
  match store with
  | [] => [(userId, ns)]
  | (u, old) :: rest => if String.eqb u userId then (u, ns) :: rest
                        else (u, old) :: store_set rest userId ns
  end.

(** [unshift], then keep the first hundred. *)
Definition createNotification (now : Z) (userId : string)
           (type : NotificationType) (data : Payload) (store : Store)
  : Store :=
  let notification :=
    {| n_userId := userId; type := type; data := data;
       read := false; n_createdAt := now |} in
  store_set store userId
            (slice0 100 (notification :: store_get store userId)).

Definition notifyScoreUpdate (now : Z) (userId : string)
           (scoreResult : ScoreUpdateResult) (store : Store) : Store :=
  if negb (changed scoreResult) then store
  else
    let isImprovement := gtb (changeAmount scoreResult) 0 in
    let type := if isImprovement then SCORE_IMPROVEMENT else SCORE_DECLINE in
    let data :=
      {| previousScore :=
           match previous scoreResult with
           | Some prev => overallScore prev
           | None => 0
           end;
         currentScore := overallScore (current scoreResult);
         sc_changeAmount := changeAmount scoreResult;
         affectedPlatforms :=
           platformsConnected (breakdown (current scoreResult));
         sc_recommendations :=
           slice0 3 (recommendations (current scoreResult)) |} in
    createNotification now userId type (ScoreChange data) store.

Definition notifyNewRecommendations (now : Z) (userId : string)
           (recommendations : list string) (store : Store) : Store :=
  if Qeq_bool (len recommendations) 0 then store
  else createNotification now userId NEW_RECOMMENDATION
                          (Recommendations recommendations) store.

(** [newRecs] of [onPlatformDataChanged]. *)
Definition newRecs_of (result : ScoreUpdateResult) : list string :=
  match previous result with
  | Some prev =>
      filter (fun r => negb (mem r (recommendations prev)))
             (recommendations (current result))
  | None => recommendations (current result)
  end.

(** [ScoreUpdateService.onPlatformDataChanged]; the state is the database
    and the notification store. *)
Definition onPlatformDataChanged (this : AggregationService) (now : Z)
           (userId : string) (platform : Platform) (st : Db * Store)
  : Res (ScoreUpdateResult * (Db * Store)) :=
  r <- calculateAndStoreScore this now userId (fst st) ;;
  let result := fst r in
  let store1 := notifyScoreUpdate now userId result (snd st) in
  let store2 :=
    if gtb (len (recommendations (current result))) 0 then
      let newRecs := newRecs_of result in
      if gtb (len newRecs) 0
      then notifyNewRecommendations now userId newRecs store1
      else store1
    else store1 in
  Ok (result, (snd r, store2)).

End Notification.

(** ** The claims as the specification words them, and sample data *)

Module Samples.

Import Aggregation.

Definition gh_profile : GitHub.GitHubUserProfile :=
  {| GitHub.login := "octo"; GitHub.bio := None; GitHub.followers := 0;
     GitHub.following := 0; GitHub.publicRepos := 0;
     GitHub.publicGists := 0 |}.

Definition gh_stats : GitHub.GitHubContributionStats :=
  {| GitHub.totalCommits := 0; GitHub.totalPRs := 0; GitHub.totalIssues := 0;
     GitHub.totalReviews := 0; GitHub.currentStreak := 0;
     GitHub.longestStreak := 0 |}.

(** Cached GitHub data whose stored metrics carry the given overall score
    and recommendations. *)
Definition gh_data (score : Q) (recs : list string) : GitHub.GitHubData :=
  {| GitHub.profile := gh_profile;
     GitHub.data_repositories := [];
     GitHub.contributionStats := gh_stats;
     GitHub.metrics :=
       {| GitHub.codeQualityScore := score; GitHub.languageDiversity := score;
          GitHub.commitFrequency := score; GitHub.collaborationScore := score;
          GitHub.projectImpactScore := score; GitHub.overallScore := score;
          GitHub.breakdown :=
            {| GitHub.repositories := 0; GitHub.stars := 0; GitHub.forks := 0;
               GitHub.bd_followers := 0; GitHub.bd_languages := [];
               GitHub.topLanguage := None; GitHub.avgCommitsPerRepo := 0;
               GitHub.activeRepos := 0 |};
          GitHub.recommendations := recs |};
     GitHub.fetchedAt := 0 |}.

Definition li_data (score : Q) (recs : list string) : LinkedIn.LinkedInData :=
  {| LinkedIn.profile :=
       {| LinkedIn.username := "octo"; LinkedIn.headline := None;
          LinkedIn.bio := None; LinkedIn.connections := 0;
          LinkedIn.isManualEntry := true |};
     LinkedIn.experiences := []; LinkedIn.education := [];
     LinkedIn.skills := []; LinkedIn.certifications := [];
     LinkedIn.metrics :=
       {| LinkedIn.experienceScore := score; LinkedIn.educationScore := score;
          LinkedIn.skillsScore := score; LinkedIn.networkScore := score;
          LinkedIn.overallScore := score;
          LinkedIn.breakdown :=
            {| LinkedIn.yearsOfExperience := 0; LinkedIn.numberOfPositions := 0;
               LinkedIn.numberOfEducation := 0; LinkedIn.numberOfSkills := 0;
               LinkedIn.topSkills := []; LinkedIn.bd_connections := 0;
               LinkedIn.hasCertifications := false |};
          LinkedIn.recommendations := recs |};
     LinkedIn.fetchedAt := 0 |}.

Definition tw_profile (followers : Q) : Twitter.TwitterProfile :=
  {| Twitter.username := "octo"; Twitter.bio := None;
     Twitter.followers := followers; Twitter.following := 0;
     Twitter.tweetCount := 1; Twitter.listedCount := 0;
     Twitter.verified := false |}.

Definition tw_data (score : Q) (recs : list string) : Twitter.TwitterData :=
  {| Twitter.profile := tw_profile 0;
     Twitter.tweets := [];
     Twitter.metrics :=
       {| Twitter.engagementScore := score;
          Twitter.technicalContentScore := score;
          Twitter.influenceScore := score; Twitter.consistencyScore := score;
          Twitter.overallScore := score;
          Twitter.breakdown :=
            {| Twitter.bd_followers := 0; Twitter.bd_following := 0;
               Twitter.totalTweets := 0; Twitter.avgLikes := 0;
               Twitter.avgRetweets := 0; Twitter.engagementRate := 0;
               Twitter.technicalTweetRatio := 0; Twitter.topHashtags := [] |};
          Twitter.recommendations := recs |};
     Twitter.fetchedAt := 0 |}.

Definition blog_profile (followers : Q) : Blog.BlogProfile :=
  {| Blog.username := "octo"; Blog.bio := None; Blog.followers := followers;
     Blog.following := 0; Blog.bp_totalPosts := 0 |}.

Definition blog_data (score : Q) (recs : list string) : Blog.BlogData :=
  {| Blog.profile := blog_profile 0;
     Blog.posts := [];
     Blog.metrics :=
       {| Blog.contentQualityScore := score; Blog.consistencyScore := score;
          Blog.engagementScore := score; Blog.topicDiversityScore := score;
          Blog.overallScore := score;
          Blog.breakdown :=
            {| Blog.totalPosts := 0; Blog.totalReactions := 0;
               Blog.totalComments := 0; Blog.avgReadingTime := 0;
               Blog.postsPerMonth := 0; Blog.topTags := [];
               Blog.bd_followers := 0 |};
          Blog.recommendations := recs |};
     Blog.fetchedAt := 0 |}.

Definition sample_repo (stars : Q) : GitHub.GitHubRepository :=
  {| GitHub.name := "spec"; GitHub.description := Some "A library"%string;
     GitHub.languages := [("Coq"%string, 1200); ("OCaml"%string, 300)];
     GitHub.stargazersCount := stars; GitHub.forksCount := 10;
     GitHub.watchersCount := 5; GitHub.openIssuesCount := 2;
     GitHub.pushedAt := 5000; GitHub.isForked := false;
     GitHub.topics := ["proofs"%string]; GitHub.license := Some "MIT"%string |}.

Definition sample_tweet (likes : Q) : Twitter.TwitterTweet :=
  {| Twitter.text := "hello"; Twitter.createdAt := 0; Twitter.likes := likes;
     Twitter.retweets := 0; Twitter.replies := 0; Twitter.quotes := 0;
     Twitter.impressions := None; Twitter.isRetweet := false;
     Twitter.isReply := false; Twitter.hashtags := [] |}.

Definition sample_post : Blog.BlogPost :=
  {| Blog.title := "On proofs"; Blog.excerpt := None;
     Blog.tags := ["coq"%string]; Blog.publishedAt := 0;
     Blog.readingTime := 4; Blog.reactions := 12; Blog.comments := 3;
     Blog.views := None; Blog.coverImage := None |}.

Definition li_profile (connections : Q) : LinkedIn.LinkedInProfile :=
  {| LinkedIn.username := "octo"; LinkedIn.headline := None;
     LinkedIn.bio := None; LinkedIn.connections := connections;
     LinkedIn.isManualEntry := true |}.

Definition sample_skill (endorsements : Q) : LinkedIn.LinkedInSkill :=
  {| LinkedIn.skill_name := "proof"; LinkedIn.endorsements := endorsements |}.

Definition sample_date : LinkedIn.JsDate :=
  {| LinkedIn.getFullYear := 2024; LinkedIn.getMonth := 0 |}.

Definition profile_of (p : Platforms) : DigitalProfile :=
  {| candidateId := 1; userId := "u1"; name := "Octo";
     platforms := p; aggregatedAt := 0 |}.

(** Only GitHub connected, scoring 82. *)
Definition github_only_82 : DigitalProfile :=
  profile_of {| pf_github := Some (gh_data 82 []); pf_linkedin := None;
                pf_twitter := None; pf_devto := None; pf_hashnode := None;
                pf_medium := None |}.

(** GitHub at 80 and LinkedIn at 60. *)
Definition github_80_linkedin_60 : DigitalProfile :=
  profile_of {| pf_github := Some (gh_data 80 []);
                pf_linkedin := Some (li_data 60 []);
                pf_twitter := None; pf_devto := None; pf_hashnode := None;
                pf_medium := None |}.

Definition nothing_connected : DigitalProfile := profile_of no_platforms.

(** dev.to at 50 and Hashnode at 51. *)
Definition two_blogs : DigitalProfile :=
  profile_of {| pf_github := None; pf_linkedin := None; pf_twitter := None;
                pf_devto := Some (blog_data 50 []);
                pf_hashnode := Some (blog_data 51 []);
                pf_medium := None |}.

(** Every family connected, no calculator recommendation. *)
Definition all_connected : DigitalProfile :=
  profile_of {| pf_github := Some (gh_data 80 []);
                pf_linkedin := Some (li_data 80 []);
                pf_twitter := Some (tw_data 80 []);
                pf_devto := Some (blog_data 80 []);
                pf_hashnode := None; pf_medium := None |}.

(** GitHub and LinkedIn connected with five recommendations each. *)
Definition ten_recommendations : DigitalProfile :=
  profile_of {| pf_github :=
                  Some (gh_data 40 ["g1"; "g2"; "g3"; "g4"; "g5"]%string);
                pf_linkedin :=
                  Some (li_data 40 ["l1"; "l2"; "l3"; "l4"; "l5"]%string);
                pf_twitter := None; pf_devto := None; pf_hashnode := None;
                pf_medium := None |}.

(** A database with one candidate, user ["u1"], connected to GitHub, with
    the given cached platform data and stored score rows. *)
Definition github_cache (score : Q) (recs : list string) : Platforms :=
  {| pf_github := Some (gh_data score recs); pf_linkedin := None;
     pf_twitter := None; pf_devto := None; pf_hashnode := None;
     pf_medium := None |}.

Definition db_with (cache : Platforms) (rows : list CandidateScoreRow) : Db :=
  {| candidateProfile :=
       [ {| cp_id := 1; cp_userId := "u1"; cp_userName := "Octo";
            platformConnections :=
              [ {| platform := GITHUB; conn_username := "octo" |} ];
            cachedData := cache |} ];
     candidateScore := rows |}.

Definition bio_advice : list string :=
  ["Add a bio to your GitHub profile"%string].

Definition db_50 : Db := db_with (github_cache 50 bio_advice) [].

(** A refresh of the cached GitHub data; the stored scores stay. *)
Definition refreshed (score : Q) (db : Db) : Db :=
  db_with (github_cache score bio_advice) (candidateScore db).

(** Three recalculations for ["u1"]: at 50, again at 50, then, after a
    refresh, at 70. *)
Definition three_calls
  : Res (ScoreUpdateResult * ScoreUpdateResult * ScoreUpdateResult * Db) :=
  r1 <- calculateAndStoreScore aggregationService 1000 "u1" db_50 ;;
  r2 <- calculateAndStoreScore aggregationService 2000 "u1" (snd r1) ;;
  r3 <- calculateAndStoreScore aggregationService 3000 "u1"
          (refreshed 70 (snd r2)) ;;
  Ok (fst r1, fst r2, fst r3, snd r3).

(** The same data recalculated twice through the score-update hook. *)
Definition two_updates
  : Res (ScoreUpdateResult * ScoreUpdateResult
         * (Db * Notification.Store)) :=
  r1 <- Notification.onPlatformDataChanged aggregationService 1000 "u1"
          GITHUB (db_50, []) ;;
  r2 <- Notification.onPlatformDataChanged aggregationService 2000 "u1"
          GITHUB (snd r1) ;;
  Ok (fst r1, fst r2, snd r2).

End Samples.

(** The families of a composite score whose score is not null, each with
    its weight. *)
Definition with_weight (score : option Q) (w : Q) : list (Q * Q) :=
  match score with
  | Some s => [(s, w)]
  | None => []
  end.

Definition present_families (w : Aggregation.ScoringWeights)
           (c : Aggregation.CompositeScore) : list (Q * Q) :=
  with_weight (Aggregation.githubScore c) (Aggregation.github w)
  ++ with_weight (Aggregation.linkedinScore c) (Aggregation.linkedin w)
  ++ with_weight (Aggregation.socialScore c) (Aggregation.twitter w)
  ++ with_weight (Aggregation.blogScore c) (Aggregation.blog w).

Definition weighted_sum (fs : list (Q * Q)) : Q :=
  fold_right (fun f acc => fst f * snd f + acc) 0 fs.

Definition total_weight (fs : list (Q * Q)) : Q :=
  fold_right (fun f acc => snd f + acc) 0 fs.

(** The mean of the connected blog providers' overall scores. *)
Definition blog_mean (p : Aggregation.Platforms) : Q :=
  fold_right Qplus 0 (Aggregation.blogScores_of p)
  / len (Aggregation.blogScores_of p).

Definition blog_family_is_mean (this : Aggregation.AggregationService)
           (profile : Aggregation.DigitalProfile) : Prop :=
  exists s,
    Aggregation.blogScore (Aggregation.calculateCompositeScore this 0 profile)
    = Some s
    /\ s == blog_mean (Aggregation.platforms profile).

(** The recommendation list as the specification states it: the entry
    naming the missing families always closes the list that is then
    deduplicated and cut. *)
Definition recommendations_as_stated (this : Aggregation.AggregationService)
           (profile : Aggregation.DigitalProfile) : Prop :=
  let c := Aggregation.calculateCompositeScore this 0 profile in
  let p := Aggregation.platforms profile in
  NoDup (Aggregation.recommendations c)
  /\ (List.length (Aggregation.recommendations c) <= 10)%nat
  /\ Aggregation.recommendations c
     = firstn 10 (uniq (Aggregation.family_recommendations p
                        ++ [Aggregation.connect_more
                              (Aggregation.platformsMissing_of p)])).


(** The score rows of a candidate are the same in two databases. *)
Definition same_scores (userId : string) (db db' : Aggregation.Db) : Prop :=
  Aggregation.candidateScore db' = Aggregation.candidateScore db
  /\ option_map Aggregation.cp_id (Aggregation.findUnique db' userId)
     = option_map Aggregation.cp_id (Aggregation.findUnique db userId).

(** The update of a stored row by [upsert]. *)
Definition updated_row (now : Z) (c : Aggregation.CompositeScore)
           (r : Aggregation.CandidateScoreRow) : Aggregation.CandidateScoreRow :=
  {| Aggregation.id := Aggregation.id r;
     Aggregation.cs_candidateId := Aggregation.cs_candidateId r;
     Aggregation.compositeScore := Aggregation.overallScore c;
     Aggregation.cs_githubScore := Aggregation.githubScore c;
     Aggregation.cs_linkedinScore := Aggregation.linkedinScore c;
     Aggregation.cs_blogScore := Aggregation.blogScore c;
     Aggregation.cs_socialScore := Aggregation.socialScore c;
     Aggregation.cs_strengths := Aggregation.strengths c;
     Aggregation.cs_improvements := Aggregation.improvements c;
     Aggregation.createdAt := Aggregation.createdAt r;
     Aggregation.updatedAt := now |}.

(** *** Valid inputs and scores in range *)













(** *** One input against a larger one

    Two inputs of a calculator are related when every numeric field of the
    second is at least that of the first and everything else is the same;
    raising a single numeric input is the special case where all other
    fields are equal. *)

Definition opt_le (a b : option Q) : Prop :=
  match a, b with
  | Some x, Some y => x <= y
  | None, None => True
  | _, _ => False
  end.

Definition github_profile_le (a b : GitHub.GitHubUserProfile) : Prop :=
  GitHub.login a = GitHub.login b /\ GitHub.bio a = GitHub.bio b
  /\ GitHub.followers a <= GitHub.followers b
  /\ GitHub.following a <= GitHub.following b
  /\ GitHub.publicRepos a <= GitHub.publicRepos b
  /\ GitHub.publicGists a <= GitHub.publicGists b.

Definition github_repo_le (a b : GitHub.GitHubRepository) : Prop :=
  GitHub.name a = GitHub.name b
  /\ GitHub.description a = GitHub.description b
  /\ map fst (GitHub.languages a) = map fst (GitHub.languages b)
  /\ Forall2 (fun x y => snd x <= snd y)
             (GitHub.languages a) (GitHub.languages b)
  /\ GitHub.stargazersCount a <= GitHub.stargazersCount b
  /\ GitHub.forksCount a <= GitHub.forksCount b
  /\ GitHub.watchersCount a <= GitHub.watchersCount b
  /\ GitHub.openIssuesCount a <= GitHub.openIssuesCount b
  /\ GitHub.pushedAt a = GitHub.pushedAt b
  /\ GitHub.isForked a = GitHub.isForked b
  /\ GitHub.topics a = GitHub.topics b
  /\ GitHub.license a = GitHub.license b.

Definition github_stats_le (a b : GitHub.GitHubContributionStats) : Prop :=
  GitHub.totalCommits a <= GitHub.totalCommits b
  /\ GitHub.totalPRs a <= GitHub.totalPRs b
  /\ GitHub.totalIssues a <= GitHub.totalIssues b
  /\ GitHub.totalReviews a <= GitHub.totalReviews b
  /\ GitHub.currentStreak a <= GitHub.currentStreak b
  /\ GitHub.longestStreak a <= GitHub.longestStreak b.

Definition linkedin_profile_le (a b : LinkedIn.LinkedInProfile) : Prop :=
  LinkedIn.username a = LinkedIn.username b
  /\ LinkedIn.headline a = LinkedIn.headline b
  /\ LinkedIn.bio a = LinkedIn.bio b
  /\ LinkedIn.connections a <= LinkedIn.connections b
  /\ LinkedIn.isManualEntry a = LinkedIn.isManualEntry b.

Definition linkedin_education_le (a b : LinkedIn.LinkedInEducation) : Prop :=
  LinkedIn.school a = LinkedIn.school b
  /\ LinkedIn.degree a = LinkedIn.degree b
  /\ LinkedIn.fieldOfStudy a = LinkedIn.fieldOfStudy b
  /\ opt_le (LinkedIn.startYear a) (LinkedIn.startYear b)
  /\ opt_le (LinkedIn.endYear a) (LinkedIn.endYear b).

Definition linkedin_skill_le (a b : LinkedIn.LinkedInSkill) : Prop :=
  LinkedIn.skill_name a = LinkedIn.skill_name b
  /\ LinkedIn.endorsements a <= LinkedIn.endorsements b.

(** The follower count is held fixed. *)
Definition twitter_profile_le (a b : Twitter.TwitterProfile) : Prop :=
  Twitter.username a = Twitter.username b /\ Twitter.bio a = Twitter.bio b
  /\ Twitter.followers a = Twitter.followers b
  /\ Twitter.following a <= Twitter.following b
  /\ Twitter.tweetCount a <= Twitter.tweetCount b
  /\ Twitter.listedCount a <= Twitter.listedCount b
  /\ Twitter.verified a = Twitter.verified b.

Definition twitter_tweet_le (a b : Twitter.TwitterTweet) : Prop :=
  Twitter.text a = Twitter.text b
  /\ Twitter.createdAt a = Twitter.createdAt b
  /\ Twitter.likes a <= Twitter.likes b
  /\ Twitter.retweets a <= Twitter.retweets b
  /\ Twitter.replies a <= Twitter.replies b
  /\ Twitter.quotes a <= Twitter.quotes b
  /\ opt_le (Twitter.impressions a) (Twitter.impressions b)
  /\ Twitter.isRetweet a = Twitter.isRetweet b
  /\ Twitter.isReply a = Twitter.isReply b
  /\ Twitter.hashtags a = Twitter.hashtags b.

Definition blog_profile_le (a b : Blog.BlogProfile) : Prop :=
  Blog.username a = Blog.username b /\ Blog.bio a = Blog.bio b
  /\ Blog.followers a <= Blog.followers b
  /\ Blog.following a <= Blog.following b
  /\ Blog.bp_totalPosts a <= Blog.bp_totalPosts b.

Definition blog_post_le (a b : Blog.BlogPost) : Prop :=
  Blog.title a = Blog.title b /\ Blog.excerpt a = Blog.excerpt b
  /\ Blog.tags a = Blog.tags b /\ Blog.publishedAt a = Blog.publishedAt b
  /\ Blog.readingTime a <= Blog.readingTime b
  /\ Blog.reactions a <= Blog.reactions b
  /\ Blog.comments a <= Blog.comments b
  /\ opt_le (Blog.views a) (Blog.views b)
  /\ Blog.coverImage a = Blog.coverImage b.

(** Monotonicity in the follower count of the Twitter calculator, as the
    specification states it for every single input. *)
Definition twitter_monotone_in_followers : Prop :=
  forall followers followers' tweets m m',
    followers <= followers' ->
    Twitter.calculateMetrics (Samples.tw_profile followers) tweets = Ok m ->
    Twitter.calculateMetrics (Samples.tw_profile followers') tweets = Ok m' ->
    Twitter.overallScore m <= Twitter.overallScore m'.

(** *** Proof steps *)

(** Division by a literal, for [lra]. *)
Ltac qconst :=
  unfold Qdiv in *;
  repeat match goal with
         | |- context [ / inject_Z ?z ] =>
             let v := eval vm_compute in (/ inject_Z z) in
             change (/ inject_Z z) with v
         | |- context [ / (?n # ?d) ] =>
             let v := eval vm_compute in (/ (n # d)) in
             change (/ (n # d)) with v
         | H : context [ / (?n # ?d) ] |- _ =>
             let v := eval vm_compute in (/ (n # d)) in
             change (/ (n # d)) with v in H
         end.

Ltac qarith := qconst; lra.

(** * The overall score in double arithmetic *)

(** A JavaScript [number] is an IEEE 754 binary64 value, and none of the
    weights 0.35, 0.30, 0.15, 0.20 is one exactly: the quotient
    [weightedSum / totalWeight] of [calculateCompositeScore] is the result
    of rounded operations, and can fall just below a half where the exact
    weighted mean sits on it or above it.  What the function returns as
    [overallScore] is therefore stated over the doubles themselves.  The
    modules below embed that part of the function over Rocq's primitive
    binary64 floats, one operation of the source for one operation here; a
    decimal literal denotes the double nearest to it, as in JavaScript. *)

Set Warnings "-inexact-float".

Module Double.

(** The double of an integer below 2^53 in absolute value; [negative]
    chooses the sign of a zero. *)
Definition of_Z (negative : bool) (n : Z) : float :=
  match n with
  | Z0 => if negative then (-0)%float else 0%float
  | Zpos _ => PrimFloat.of_uint63 (Uint63.of_Z n)
  | Zneg _ => PrimFloat.opp (PrimFloat.of_uint63 (Uint63.of_Z (- n)))
  end.

Definition of_nat (n : nat) : float := of_Z false (Z.of_nat n).

(** [Math.round]: the integer nearest to [x], the greater one at a tie;
    an integral [x], a zero, an infinity and NaN are returned unchanged,
    and a negative [x] that rounds to zero gives [-0].  For a finite
    [x = m * 2^e] with [e < 0] the result is the floor of
    [(2 * m + 2^(-e)) / 2^(1 - e)], which is the floor of [x + 1/2] taken
    exactly. *)
Definition Math_round (x : float) : float :=
  match Prim2SF x with
  | S754_finite s m e =>
      if (0 <=? e)%Z then x
      else
        let twice := (if s then - (2 * Z.pos m) else 2 * Z.pos m)%Z in
        of_Z s ((twice + 2 ^ (- e)) / 2 ^ (1 - e))%Z
  | _ => x
  end.

(** [x > y]. *)
Definition gtb (x y : float) : bool := PrimFloat.ltb y x.

(** The rational a finite double denotes. *)
Definition to_Q (x : float) : Q :=
  match Prim2SF x with
  | S754_finite s m e =>
      (if s then -1 else 1) * inject_Z (Z.pos m) * 2 ^ e
  | _ => 0
  end.

End Double.

Module AggregationDouble.
Import Double.

Record ScoringWeights : Type := {
  github : float;
  linkedin : float;
  twitter : float;
  blog : float
}.

Definition DEFAULT_WEIGHTS : ScoringWeights :=
  {| github := 0.35%float; linkedin := 0.30%float;
     twitter := 0.15%float; blog := 0.20%float |}.

(** What [calculateCompositeScore] reads of [profile.platforms] for the
    scores: [metrics.overallScore] of each platform that is there. *)
Record Platforms : Type := {
  pf_github : option float;
  pf_linkedin : option float;
  pf_twitter : option float;
  pf_devto : option float;
  pf_hashnode : option float;
  pf_medium : option float
}.

(** The array [blogScores] after the three blog providers. *)
Definition provider (present : option float) : list float :=
  match present with
  | Some s => [s]
  | None => []
  end.

Definition blogScores_of (p : Platforms) : list float :=
  provider (pf_devto p) ++ provider (pf_hashnode p) ++ provider (pf_medium p).

(** [blogScore]: null without a provider, else
    [Math.round(blogScores.reduce((a, b) => a + b, 0) / blogScores.length)]. *)
Definition blogScore_of (blogScores : list float) : option float :=
  if (0 <? List.length blogScores)%nat
  then Some (Math_round
               (PrimFloat.div (fold_left PrimFloat.add blogScores 0%float)
                              (of_nat (List.length blogScores))))
  else None.

(** [if (score !== null) { weightedSum += score * w; totalWeight += w }]
    on the pair [(weightedSum, totalWeight)]. *)
Definition add_family (score : option float) (w : float)
           (acc : float * float) : float * float :=
  match score with
  | Some s =>
      (PrimFloat.add (fst acc) (PrimFloat.mul s w), PrimFloat.add (snd acc) w)
  | None => acc
  end.

(** The four family scores, in the order the sums take them. *)
Definition githubScore (p : Platforms) : option float := pf_github p.
Definition linkedinScore (p : Platforms) : option float := pf_linkedin p.
Definition socialScore (p : Platforms) : option float := pf_twitter p.
Definition blogScore (p : Platforms) : option float :=
  blogScore_of (blogScores_of p).

(** [(weightedSum, totalWeight)] after the four tests. *)
Definition sums (weights : ScoringWeights) (p : Platforms) : float * float :=
  add_family (blogScore p) (blog weights)
    (add_family (socialScore p) (twitter weights)
      (add_family (linkedinScore p) (linkedin weights)
        (add_family (githubScore p) (github weights) (0%float, 0%float)))).

(** [totalWeight > 0 ? Math.round(weightedSum / totalWeight) : 0]. *)
Definition overallScore (weights : ScoringWeights) (p : Platforms) : float :=
  let weightedSum := fst (sums weights p) in
  let totalWeight := snd (sums weights p) in
  if gtb totalWeight 0%float
  then Math_round (PrimFloat.div weightedSum totalWeight)
  else 0%float.

End AggregationDouble.

Module DoubleSamples.
Import Double AggregationDouble.

Definition nothing : Platforms :=
  {| pf_github := None; pf_linkedin := None; pf_twitter := None;
     pf_devto := None; pf_hashnode := None; pf_medium := None |}.

(** One platform connected, scoring [s]. *)
Definition github_only (s : float) : Platforms :=
  {| pf_github := Some s; pf_linkedin := None; pf_twitter := None;
     pf_devto := None; pf_hashnode := None; pf_medium := None |}.
Definition linkedin_only (s : float) : Platforms :=
  {| pf_github := None; pf_linkedin := Some s; pf_twitter := None;
     pf_devto := None; pf_hashnode := None; pf_medium := None |}.
Definition twitter_only (s : float) : Platforms :=
  {| pf_github := None; pf_linkedin := None; pf_twitter := Some s;
     pf_devto := None; pf_hashnode := None; pf_medium := None |}.
Definition devto_only (s : float) : Platforms :=
  {| pf_github := None; pf_linkedin := None; pf_twitter := None;
     pf_devto := Some s; pf_hashnode := None; pf_medium := None |}.
Definition hashnode_only (s : float) : Platforms :=
  {| pf_github := None; pf_linkedin := None; pf_twitter := None;
     pf_devto := None; pf_hashnode := Some s; pf_medium := None |}.
Definition medium_only (s : float) : Platforms :=
  {| pf_github := None; pf_linkedin := None; pf_twitter := None;
     pf_devto := None; pf_hashnode := None; pf_medium := Some s |}.

(** GitHub at 80 and LinkedIn at 60. *)
Definition github_80_linkedin_60 : Platforms :=
  {| pf_github := Some 80%float; pf_linkedin := Some 60%float;
     pf_twitter := None; pf_devto := None; pf_hashnode := None;
     pf_medium := None |}.

(** GitHub at 1 and Twitter at 36: the exact weighted mean of 1 and 36
    under 0.35 and 0.15 is 11.5. *)
Definition github_1_twitter_36 : Platforms :=
  {| pf_github := Some 1%float; pf_linkedin := None;
     pf_twitter := Some 36%float; pf_devto := None; pf_hashnode := None;
     pf_medium := None |}.

(** Only Twitter, at 15.5: the Twitter overall score is not rounded when
    there is no tweet, and 3100 followers give 3100 / 1000 * 5. *)
Definition twitter_15_5 : Platforms := twitter_only 15.5%float.

(** The weights after [setWeights({ github: 0 })]. *)
Definition zero_github_weights : ScoringWeights :=
  {| github := 0%float; linkedin := linkedin DEFAULT_WEIGHTS;
     twitter := twitter DEFAULT_WEIGHTS; blog := blog DEFAULT_WEIGHTS |}.

End DoubleSamples.

(** The families whose score is not null, each with its weight, in the
    order github, linkedin, twitter, blog. *)
Definition double_with_weight (score : option float) (w : float)
  : list (float * float) :=
  match score with
  | Some s => [(s, w)]
  | None => []
  end.

Definition double_families (w : AggregationDouble.ScoringWeights)
           (p : AggregationDouble.Platforms) : list (float * float) :=
  double_with_weight (AggregationDouble.githubScore p)
                     (AggregationDouble.github w)
  ++ double_with_weight (AggregationDouble.linkedinScore p)
                        (AggregationDouble.linkedin w)
  ++ double_with_weight (AggregationDouble.socialScore p)
                        (AggregationDouble.twitter w)
  ++ double_with_weight (AggregationDouble.blogScore p)
                        (AggregationDouble.blog w).

(** The two sums over a list of families, accumulated from 0 in double
    arithmetic, first family first. *)
Definition double_weighted_sum (fs : list (float * float)) : float :=
  fold_left (fun acc f => PrimFloat.add acc (PrimFloat.mul (fst f) (snd f)))
            fs 0%float.

Definition double_total_weight (fs : list (float * float)) : float :=
  fold_left (fun acc f => PrimFloat.add acc (snd f)) fs 0%float.

(** The families read as the rationals they denote. *)
Definition exact_families (fs : list (float * float)) : list (Q * Q) :=
  map (fun f => (Double.to_Q (fst f), Double.to_Q (snd f))) fs.

(** Renormalization as the specification states it: the overall score is
    the rounding of the weighted mean of the present families, with no
    condition on the weights, it is 0 without a family, and it is the
    rounding of [s] for a single family scoring [s].  The mean and the
    roundings are the exact ones, of the rationals the doubles denote. *)
Definition renormalization_as_stated (w : AggregationDouble.ScoringWeights)
           (p : AggregationDouble.Platforms) : Prop :=
  let fs := double_families w p in
  let overall := Double.to_Q (AggregationDouble.overallScore w p) in
  (fs <> [] ->
   overall
   == Math_round (weighted_sum (exact_families fs)
                  / total_weight (exact_families fs)))
  /\ (fs = [] -> overall == 0)
  /\ (forall s v, fs = [(s, v)] -> overall == Math_round (Double.to_Q s)).

(** ** More of the aggregation service

    The remaining methods of the service, over the same database; as
    before, a query of the database does not fail. *)

Module AggregationMore.

Import Aggregation.

(** [getCurrentScore]: null without a candidate or without a stored score;
    else the score is computed afresh from the aggregated profile. *)
Definition getCurrentScore (this : AggregationService) (now : Z)
           (userId : string) (db : Db) : Res (option CompositeScore) :=
  match findUnique db userId with
  | None => Ok None
  | Some candidateProfile =>
      match findFirst db (cp_id candidateProfile) with
      | None => Ok None
      | Some _ =>
          profile <- aggregateProfile now userId db ;;
          Ok (Some (calculateCompositeScore this now profile))
      end
  end.

(** What the connectors fetch over the network: [fetchAllData] of the
    GitHub and Twitter connectors and [fetchData] of the blog connector,
    each returning the data or throwing. *)
Record Fetchers : Type := {
  fetch_github : string -> Res GitHub.GitHubData;
  fetch_twitter : string -> Res Twitter.TwitterData;
  fetch_blog : Platform -> string -> Res Blog.BlogData
}.

(** Assignment to one key of a platforms object. *)
Definition with_github (v : option GitHub.GitHubData) (p : Platforms)
  : Platforms :=
  {| pf_github := v; pf_linkedin := pf_linkedin p;
     pf_twitter := pf_twitter p; pf_devto := pf_devto p;
     pf_hashnode := pf_hashnode p; pf_medium := pf_medium p |}.
Definition with_linkedin (v : option LinkedIn.LinkedInData) (p : Platforms)
  : Platforms :=
  {| pf_github := pf_github p; pf_linkedin := v;
     pf_twitter := pf_twitter p; pf_devto := pf_devto p;
     pf_hashnode := pf_hashnode p; pf_medium := pf_medium p |}.
Definition with_twitter (v : option Twitter.TwitterData) (p : Platforms)
  : Platforms :=
  {| pf_github := pf_github p; pf_linkedin := pf_linkedin p;
     pf_twitter := v; pf_devto := pf_devto p;
     pf_hashnode := pf_hashnode p; pf_medium := pf_medium p |}.
Definition with_devto (v : option Blog.BlogData) (p : Platforms)
  : Platforms :=
  {| pf_github := pf_github p; pf_linkedin := pf_linkedin p;
     pf_twitter := pf_twitter p; pf_devto := v;
     pf_hashnode := pf_hashnode p; pf_medium := pf_medium p |}.
Definition with_hashnode (v : option Blog.BlogData) (p : Platforms)
  : Platforms :=
  {| pf_github := pf_github p; pf_linkedin := pf_linkedin p;
     pf_twitter := pf_twitter p; pf_devto := pf_devto p;
     pf_hashnode := v; pf_medium := pf_medium p |}.
Definition with_medium (v : option Blog.BlogData) (p : Platforms)
  : Platforms :=
  {| pf_github := pf_github p; pf_linkedin := pf_linkedin p;
     pf_twitter := pf_twitter p; pf_devto := pf_devto p;
     pf_hashnode := pf_hashnode p; pf_medium := v |}.

(** What [getCachedData] returns for data that [fetchAndStoreData] has
    stored: the stored profile, items and metrics, and as [fetchedAt] the
    time of the store. *)
Definition stored_github (now : Z) (d : GitHub.GitHubData)
  : GitHub.GitHubData :=
  {| GitHub.profile := GitHub.profile d;
     GitHub.data_repositories := GitHub.data_repositories d;
     GitHub.contributionStats := GitHub.contributionStats d;
     GitHub.metrics := GitHub.metrics d;
     GitHub.fetchedAt := now |}.
Definition stored_twitter (now : Z) (d : Twitter.TwitterData)
  : Twitter.TwitterData :=
  {| Twitter.profile := Twitter.profile d;
     Twitter.tweets := Twitter.tweets d;
     Twitter.metrics := Twitter.metrics d;
     Twitter.fetchedAt := now |}.
Definition stored_blog (now : Z) (d : Blog.BlogData) : Blog.BlogData :=
  {| Blog.profile := Blog.profile d;
     Blog.posts := Blog.posts d;
     Blog.metrics := Blog.metrics d;
     Blog.fetchedAt := now |}.

(** [platforms.key = await connector.fetchAndStoreData(...)] inside
    [try]: the fetch, then the store into the cache and the assignment of
    the fetched data; when the fetch throws, the [catch] leaves both as
    they are. *)
Definition fetched {A} (result : Res A) (stored : A -> A)
           (assign : option A -> Platforms -> Platforms)
           (st : Platforms * Platforms) : Platforms * Platforms :=
  match result with
  | Ok data =>
      (assign (Some data) (fst st), assign (Some (stored data)) (snd st))
  | Throw _ => st
  end.

(** One turn of the loop of [refreshAllPlatformData], on the pair of the
    platforms object and the candidate's cache.  LinkedIn is read from
    the cache. *)
Definition refresh_connection (f : Fetchers) (now : Z)
           (st : Platforms * Platforms) (connection : PlatformConnection)
  : Platforms * Platforms :=
  let username := conn_username connection in
  match platform connection with
  | GITHUB =>
      fetched (fetch_github f username) (stored_github now) with_github st
  | TWITTER =>
      fetched (fetch_twitter f username) (stored_twitter now) with_twitter st
  | DEVTO =>
      fetched (fetch_blog f DEVTO username) (stored_blog now) with_devto st
  | HASHNODE =>
      fetched (fetch_blog f HASHNODE username) (stored_blog now)
              with_hashnode st
  | MEDIUM =>
      fetched (fetch_blog f MEDIUM username) (stored_blog now) with_medium st
  | LINKEDIN => (with_linkedin (pf_linkedin (snd st)) (fst st), snd st)
  end.

(** The candidate's cache replaced. *)
Definition with_cache (candidateId : nat) (cache : Platforms) (db : Db) : Db :=
  {| candidateProfile :=
       map (fun cp =>
              if Nat.eqb (cp_id cp) candidateId
              then {| cp_id := cp_id cp; cp_userId := cp_userId cp;
                      cp_userName := cp_userName cp;
                      platformConnections := platformConnections cp;
                      cachedData := cache |}
              else cp) (candidateProfile db);
     candidateScore := candidateScore db |}.

Definition refreshAllPlatformData (f : Fetchers) (now : Z) (userId : string)
           (db : Db) : Res (DigitalProfile * Db) :=
  match findUnique db userId with
  | None => Throw (NotFound "Candidate profile not found")
  | Some candidateProfile =>
      let st :=
        fold_left (refresh_connection f now)
                  (platformConnections candidateProfile)
                  (no_platforms, cachedData candidateProfile) in
      Ok ({| candidateId := cp_id candidateProfile;
             userId := cp_userId candidateProfile;
             name := cp_userName candidateProfile;
             platforms := fst st;
             aggregatedAt := now |},
          with_cache (cp_id candidateProfile) (snd st) db)
  end.

Definition refreshAndRecalculate (this : AggregationService) (f : Fetchers)
           (now : Z) (userId : string) (db : Db)
  : Res (ScoreUpdateResult * Db) :=
  refreshed <- refreshAllPlatformData f now userId db ;;
  calculateAndStoreScore this now userId (snd refreshed).

(** The data under one key of a platforms object, whatever the
    platform. *)
Inductive PlatformData : Type :=
| GitHubOf (d : GitHub.GitHubData)
| LinkedInOf (d : LinkedIn.LinkedInData)
| TwitterOf (d : Twitter.TwitterData)
| BlogOf (d : Blog.BlogData).

Definition data_at (platform : Platform) (p : Platforms)
  : option PlatformData :=
  match platform with
  | GITHUB => option_map GitHubOf (pf_github p)
  | LINKEDIN => option_map LinkedInOf (pf_linkedin p)
  | TWITTER => option_map TwitterOf (pf_twitter p)
  | DEVTO => option_map BlogOf (pf_devto p)
  | HASHNODE => option_map BlogOf (pf_hashnode p)
  | MEDIUM => option_map BlogOf (pf_medium p)
  end.

Definition stored (now : Z) (d : PlatformData) : PlatformData :=
  match d with
  | GitHubOf d => GitHubOf (stored_github now d)
  | LinkedInOf d => LinkedInOf d
  | TwitterOf d => TwitterOf (stored_twitter now d)
  | BlogOf d => BlogOf (stored_blog now d)
  end.

(** The right-hand side of the assignment in the loop of
    [refreshAllPlatformData] for a connection of the given platform: the
    value the key receives, or the exception. *)
Definition assigned (f : Fetchers) (cache : Platforms) (platform : Platform)
           (username : string) : Res (option PlatformData) :=
  match platform with
  | GITHUB => d <- fetch_github f username ;; Ok (Some (GitHubOf d))
  | TWITTER => d <- fetch_twitter f username ;; Ok (Some (TwitterOf d))
  | DEVTO => d <- fetch_blog f DEVTO username ;; Ok (Some (BlogOf d))
  | HASHNODE => d <- fetch_blog f HASHNODE username ;; Ok (Some (BlogOf d))
  | MEDIUM => d <- fetch_blog f MEDIUM username ;; Ok (Some (BlogOf d))
  | LINKEDIN => Ok (data_at LINKEDIN cache)
  end.

(** The platforms a candidate is connected to. *)
Definition connected (platform : Platform) (cp : CandidateProfileRow) : bool :=
  existsb (fun c => match Aggregation.platform c, platform with
                    | GITHUB, GITHUB | LINKEDIN, LINKEDIN | TWITTER, TWITTER
                    | DEVTO, DEVTO | HASHNODE, HASHNODE | MEDIUM, MEDIUM => true
                    | _, _ => false
                    end) (platformConnections cp).

(** The second partial object over the first, key by key. *)
Definition over (first second : PartialWeights) : PartialWeights :=
  let pick (a b : option Q) := match b with Some _ => b | None => a end in
  {| opt_github := pick (opt_github first) (opt_github second);
     opt_linkedin := pick (opt_linkedin first) (opt_linkedin second);
     opt_twitter := pick (opt_twitter first) (opt_twitter second);
     opt_blog := pick (opt_blog first) (opt_blog second) |}.

(** The rows of one candidate. *)
Definition rows_of (candidateId : nat) (db : Db) : list CandidateScoreRow :=
  filter (fun r => Nat.eqb (cs_candidateId r) candidateId) (candidateScore db).

End AggregationMore.

(** ** The notification service

    The whole of [NotificationService], with the ids of the notifications;
    the notification types and the score change data are those of the
    hook above.
    The id of a new notification ([notif-<time>-<random>]) is an argument;
    title and message, which render the data as text, are left out.  The
    store outlives an exception, so a method of [ScoreUpdateService]
    returns its result, or the exception, beside the state. *)

Module NotificationService.

Import Aggregation AggregationMore.

Record PlatformConnectionData : Type := {
  pc_platform : Platform;
  pc_username : string;
  isVerified : bool
}.

Inductive Data : Type :=
| ScoreChangeOf (d : Notification.ScoreChangeData)
| PlatformConnectionOf (d : PlatformConnectionData)
| PlatformsOf (platforms : list Platform)
| RecommendationsOf (recommendations : list string).

Record Notification : Type := {
  id : string;
  userId : string;
  type : Notification.NotificationType;
  data : Data;
  read : bool;
  createdAt : Z
}.

(** [notificationStore]: a [Map] from user id to the user's array of
    notifications, newest first. *)
Definition Store : Type := list (string * list Notification).

Fixpoint lookup (store : Store) (userId : string)
  : option (list Notification) :=
  match store with
  | [] => None
  | (u, ns) :: rest => if String.eqb u userId then Some ns
                       else lookup rest userId
  end.

(** [notificationStore.get(userId) || []] *)
Definition get (store : Store) (userId : string) : list Notification :=
  match lookup store userId with
  | Some ns => ns
  | None => []
  end.

(** [notificationStore.set(userId, ns)] *)
Fixpoint set (store : Store) (userId : string) (ns : list Notification)
  : Store :=
  match store with
  | [] => [(userId, ns)]
  | (u, old) :: rest => if String.eqb u userId then (u, ns) :: rest
                        else (u, old) :: set rest userId ns
  end.

(** A change made in place to the array of a user: it is seen in the
    store when the array is the stored one, and lost when the array is
    the fresh [[]] of a user without an entry. *)
Definition in_place (store : Store) (userId : string)
           (ns : list Notification) : Store :=
  match lookup store userId with
  | Some _ => set store userId ns
  | None => store
  end.

(** [unshift], then [splice(100)] when the array is longer than 100. *)
Definition createNotification (id : string) (now : Z) (userId : string)
           (type : Notification.NotificationType) (data : Data) (store : Store)
  : Notification * Store :=
  let notification :=
    {| id := id; userId := userId; type := type; data := data;
       read := false; createdAt := now |} in
  let userNotifications := notification :: get store userId in
  let userNotifications :=
    if gtb (len userNotifications) 100 then slice0 100 userNotifications
    else userNotifications in
  (notification, set store userId userNotifications).

(** [limit] is a count; the defaults are [20] and [false]. *)
Definition getNotifications (store : Store) (userId : string) (limit : nat)
           (unreadOnly : bool) : list Notification :=
  let notifications := get store userId in
  let filtered :=
    if unreadOnly then filter (fun n => negb (read n)) notifications
    else notifications in
  slice0 limit filtered.

Definition mark (n : Notification) : Notification :=
  {| id := id n; userId := userId n; type := type n; data := data n;
     read := true; createdAt := createdAt n |}.

(** [find] returns the first notification with the id; it is marked in
    place. *)
Fixpoint mark_first (notificationId : string) (ns : list Notification)
  : list Notification :=
  match ns with
  | [] => []
  | n :: rest => if String.eqb (id n) notificationId then mark n :: rest
                 else n :: mark_first notificationId rest
  end.

Definition markAsRead (store : Store) (userId : string)
           (notificationId : string) : bool * Store :=
  let notifications := get store userId in
  match find (fun n => String.eqb (id n) notificationId) notifications with
  | Some _ => (true, in_place store userId
                              (mark_first notificationId notifications))
  | None => (false, store)
  end.

(** The loop of [markAllAsRead] on the pair of the notifications already
    passed (in reverse) and the count. *)
Definition mark_counting (acc : list Notification * Q) (n : Notification)
  : list Notification * Q :=
  if negb (read n) then (mark n :: fst acc, snd acc + 1)
  else (n :: fst acc, snd acc).

Definition markAllAsRead (store : Store) (userId : string) : Q * Store :=
  let notifications := get store userId in
  let done := fold_left mark_counting notifications ([], 0) in
  (snd done, in_place store userId (rev (fst done))).

Definition getUnreadCount (store : Store) (userId : string) : Q :=
  len (filter (fun n => negb (read n)) (get store userId)).

Definition notifyScoreUpdate (id : string) (now : Z) (userId : string)
           (scoreResult : ScoreUpdateResult) (store : Store)
  : option Notification * Store :=
  if negb (changed scoreResult) then (None, store)
  else
    let isImprovement := gtb (changeAmount scoreResult) 0 in
    let type := if isImprovement then Notification.SCORE_IMPROVEMENT
                else Notification.SCORE_DECLINE in
    let data :=
      {| Notification.previousScore :=
           match previous scoreResult with
           | Some prev => overallScore prev
           | None => 0
           end;
         Notification.currentScore := overallScore (current scoreResult);
         Notification.sc_changeAmount := changeAmount scoreResult;
         Notification.affectedPlatforms :=
           platformsConnected (breakdown (current scoreResult));
         Notification.sc_recommendations :=
           slice0 3 (recommendations (current scoreResult)) |} in
    let created :=
      createNotification id now userId type (ScoreChangeOf data) store in
    (Some (fst created), snd created).

Definition notifyPlatformConnected (id : string) (now : Z) (userId : string)
           (platform : Platform) (username : string) (isVerified : bool)
           (store : Store) : Notification * Store :=
  createNotification id now userId Notification.PLATFORM_CONNECTED
    (PlatformConnectionOf {| pc_platform := platform;
                             pc_username := username;
                             isVerified := isVerified |}) store.

Definition notifyDataRefreshed (id : string) (now : Z) (userId : string)
           (platforms : list Platform) (store : Store)
  : Notification * Store :=
  createNotification id now userId Notification.PLATFORM_DATA_REFRESHED
                     (PlatformsOf platforms) store.

Definition notifyNewRecommendations (id : string) (now : Z)
           (userId : string) (recommendations : list string) (store : Store)
  : option Notification * Store :=
  if Qeq_bool (len recommendations) 0 then (None, store)
  else
    let created :=
      createNotification id now userId Notification.NEW_RECOMMENDATION
                         (RecommendationsOf recommendations) store in
    (Some (fst created), snd created).

(** [findIndex], then [splice(index, 1)]: the first notification with the
    id goes. *)
Fixpoint remove_first (notificationId : string) (ns : list Notification)
  : list Notification :=
  match ns with
  | [] => []
  | n :: rest => if String.eqb (id n) notificationId then rest
                 else n :: remove_first notificationId rest
  end.

Definition deleteNotification (store : Store) (userId : string)
           (notificationId : string) : bool * Store :=
  let notifications := get store userId in
  if existsb (fun n => String.eqb (id n) notificationId) notifications
  then (true, set store userId (remove_first notificationId notifications))
  else (false, store).

Definition clearAllNotifications (store : Store) (userId : string) : Store :=
  set store userId [].

End NotificationService.

(** ** The score update service

    [onPlatformDataChanged] is modelled with the hook above; here are
    [onPlatformConnected] and [refreshAndNotify], over the database and
    the notification store.  [ids] are the ids of the notifications the
    call may create, in order. *)

Module ScoreUpdateService.

Import Aggregation AggregationMore NotificationService.

Definition onPlatformConnected (this : AggregationService)
           (ids : string * string) (now : Z) (userId : string)
           (platform : Platform) (username : string) (st : Db * Store)
  : Res ScoreUpdateResult * (Db * Store) :=
  let store1 :=
    snd (notifyPlatformConnected (fst ids) now userId platform username false
                                 (snd st)) in
  match calculateAndStoreScore this now userId (fst st) with
  | Throw e => (Throw e, (fst st, store1))
  | Ok r =>
      let result := fst r in
      let store2 := snd (notifyScoreUpdate (snd ids) now userId result store1) in
      (Ok result, (snd r, store2))
  end.

(** [refreshAndRecalculate] throws only on the lookup of the candidate,
    before it has written anything, so the state on an exception is the
    state before the call. *)
Definition refreshAndNotify (this : AggregationService) (f : Fetchers)
           (ids : string * string) (now : Z) (userId : string)
           (st : Db * Store)
  : Res ScoreUpdateResult * (Db * Store) :=
  match findUnique (fst st) userId with
  | None => (Throw (NotFound "Candidate profile not found"), st)
  | Some candidateProfile =>
      let platforms := map platform (platformConnections candidateProfile) in
      match refreshAndRecalculate this f now userId (fst st) with
      | Throw e => (Throw e, st)
      | Ok r =>
          let result := fst r in
          let store1 :=
            if gtb (len platforms) 0
            then snd (notifyDataRefreshed (fst ids) now userId platforms
                                          (snd st))
            else snd st in
          let store2 :=
            snd (notifyScoreUpdate (snd ids) now userId result store1) in
          (Ok result, (snd r, store2))
      end
  end.

End ScoreUpdateService.

(** ** The connectors around the calculators *)

(** *** GitHub: the contribution statistics (github.connector.ts) *)

Module GitHubConnector.

Import GitHub.

Record ContributionDay : Type := {
  contributionCount : Q;
  date : string
}.

Record ContributionsCollection : Type := {
  totalCommitContributions : Q;
  totalPullRequestContributions : Q;
  totalIssueContributions : Q;
  totalPullRequestReviewContributions : Q;
  weeks : list (list ContributionDay)
}.

(** [m[k] = v] on a [Record<string, number>]: own keys in insertion
    order. *)
Fixpoint record_set (k : string) (v : Q) (m : list (string * Q))
  : list (string * Q) :=
  match m with
  | [] => [(k, v)]
  | (k', v') :: m' => if String.eqb k k' then (k', v) :: m'
                      else (k', v') :: record_set k v m'
  end.

(** [m[k]] *)
Fixpoint record_get (m : list (string * Q)) (k : string) : option Q :=
  match m with
  | [] => None
  | (k', v) :: m' => if String.eqb k k' then Some v else record_get m' k
  end.

(** [arr.sort()] on strings: by code units. *)
Fixpoint insert_string (x : string) (l : list string) : list string :=
  match l with
  | [] => [x]
  | y :: ys => if String.leb x y then x :: y :: ys
               else y :: insert_string x ys
  end.
Fixpoint sort_strings (l : list string) : list string :=
  match l with
  | [] => []
  | x :: xs => insert_string x (sort_strings xs)
  end.

(** The stats returned without a token and on an error. *)
Definition empty_stats : GitHubContributionStats :=
  {| totalCommits := 0; totalPRs := 0; totalIssues := 0; totalReviews := 0;
     currentStreak := 0; longestStreak := 0 |}.

(** The state of the loop over the days of the calendar. *)
Record Streaks : Type := {
  contributionsByDay : list (string * Q);
  longest : Q;
  tempStreak : Q
}.

Definition day_step (st : Streaks) (day : ContributionDay) : Streaks :=
  let contributionsByDay :=
    record_set (date day) (contributionCount day) (contributionsByDay st) in
  if gtb (contributionCount day) 0 then
    let tempStreak := tempStreak st + 1 in
    {| contributionsByDay := contributionsByDay;
       longest := if gtb tempStreak (longest st) then tempStreak
                  else longest st;
       tempStreak := tempStreak |}
  else
    {| contributionsByDay := contributionsByDay;
       longest := longest st;
       tempStreak := 0 |}.

(** [contributionsByDay = {}], [longestStreak = 0], [tempStreak = 0] *)
Definition no_streaks : Streaks :=
  {| contributionsByDay := []; longest := 0; tempStreak := 0 |}.

Definition calendar_loop (weeks : list (list ContributionDay)) : Streaks :=
  fold_left (fun st week => fold_left day_step week st) weeks no_streaks.

(** The loop over the sorted dates, left by [break] at the first day
    without a contribution. *)
Fixpoint streak_from (contributionsByDay : list (string * Q))
         (sortedDates : list string) (currentStreak : Q) : Q :=
  match sortedDates with
  | [] => currentStreak
  | date :: rest =>
      match record_get contributionsByDay date with
      | Some count =>
          if gtb count 0
          then streak_from contributionsByDay rest (currentStreak + 1)
          else currentStreak
      | None => currentStreak
      end
  end.

(** [token] is the token of the connector, [graphql] what the GraphQL
    request returns: the contributions collection of the user, or an
    exception. *)
Definition fetchContributionStats (token : option string)
           (graphql : Res ContributionsCollection)
  : GitHubContributionStats :=
  if negb (truthy token) then empty_stats
  else
    match graphql with
    | Ok contributions =>
        let st := calendar_loop (weeks contributions) in
        let sortedDates :=
          rev (sort_strings (map fst (contributionsByDay st))) in
        {| totalCommits := totalCommitContributions contributions;
           totalPRs := totalPullRequestContributions contributions;
           totalIssues := totalIssueContributions contributions;
           totalReviews := totalPullRequestReviewContributions contributions;
           currentStreak := streak_from (contributionsByDay st) sortedDates 0;
           longestStreak := longest st |}
    | Throw _ => empty_stats
    end.

(** [fetchAllData]: [fetched_profile] and [fetched_repositories] are what
    [fetchUserProfile] and [fetchRepositories] return. *)
Definition fetchAllData (sixMonthsAgo now : Z) (token : option string)
           (fetched_profile : Res GitHubUserProfile)
           (fetched_repositories : Res (list GitHubRepository))
           (graphql : Res ContributionsCollection) : Res GitHubData :=
  profile <- fetched_profile ;;
  repositories <- fetched_repositories ;;
  let contributionStats := fetchContributionStats token graphql in
  metrics <- calculateMetrics sixMonthsAgo profile repositories
                              contributionStats ;;
  Ok {| GitHub.profile := profile;
        data_repositories := repositories;
        GitHub.contributionStats := contributionStats;
        GitHub.metrics := metrics;
        fetchedAt := now |}.

(** The rows of the [platformData] table.  [rawData] is a JSON column:
    it holds whatever was stored, and [getCachedData] hands it back
    without a check. *)
Inductive RawData : Type :=
| ProfileOf (profile : GitHubUserProfile)
| RepositoriesOf (repositories : list GitHubRepository)
| ContributionsOf (contributionStats : GitHubContributionStats)
| MetricsOf (metrics : GitHubMetrics).

Record PlatformDataRow : Type := {
  pd_id : nat;
  pd_candidateId : nat;
  pd_platform : Aggregation.Platform;
  dataType : string;
  rawData : RawData;
  processedData : option Q;
  pd_fetchedAt : Z;
  expiresAt : Z
}.

Definition is_github (platform : Aggregation.Platform) : bool :=
  match platform with
  | Aggregation.GITHUB => true
  | _ => false
  end.

(** [where: { candidateId, platform: Platform.GITHUB, dataType }] *)
Definition of_type (candidateId : nat) (type : string)
           (r : PlatformDataRow) : bool :=
  (Nat.eqb (pd_candidateId r) candidateId && is_github (pd_platform r)
   && String.eqb (dataType r) type)%bool.


(** Milliseconds in a day. *)
Definition DAY_MS : Z := 24 * 60 * 60 * 1000.

Definition fresh_row_id (rows : list PlatformDataRow) : nat :=
  S (fold_right Nat.max 0%nat (map pd_id rows)).

(** [storePlatformData]: the first row of the candidate, platform and
    data type is updated through its id; without one a row is created. *)
Definition storePlatformData (now : Z) (candidateId : nat)
           (type : string) (raw : RawData) (processed : option Q)
           (rows : list PlatformDataRow) : list PlatformDataRow :=
  match find (of_type candidateId type) rows with
  | Some existing =>
      map (fun r =>
             if Nat.eqb (pd_id r) (pd_id existing) then
               {| pd_id := pd_id r;
                  pd_candidateId := pd_candidateId r;
                  pd_platform := pd_platform r;
                  dataType := dataType r;
                  rawData := raw;
                  processedData := processed;
                  pd_fetchedAt := now;
                  expiresAt := now + DAY_MS |}
             else r) rows
  | None =>
      rows ++ [ {| pd_id := fresh_row_id rows;
                   pd_candidateId := candidateId;
                   pd_platform := Aggregation.GITHUB;
                   dataType := type;
                   rawData := raw;
                   processedData := processed;
                   pd_fetchedAt := now;
                   expiresAt := now + DAY_MS |} ]
  end.

(** The four stores of [fetchAndStoreData]. *)
Definition storeData (now : Z) (candidateId : nat) (data : GitHubData)
           (rows : list PlatformDataRow) : list PlatformDataRow :=
  let rows :=
    storePlatformData now candidateId "profile"
                      (ProfileOf (GitHub.profile data)) None rows in
  let rows :=
    storePlatformData now candidateId "repositories"
                      (RepositoriesOf (data_repositories data)) None rows in
  let rows :=
    storePlatformData now candidateId "contributions"
                      (ContributionsOf (GitHub.contributionStats data)) None
                      rows in
  storePlatformData now candidateId "metrics"
                    (MetricsOf (GitHub.metrics data))
                    (Some (overallScore (GitHub.metrics data))) rows.

(** [fetchAndStoreData]; the sync time of the platform connection, which
    nothing here reads, is left out. *)
Definition fetchAndStoreData (sixMonthsAgo now : Z) (token : option string)
           (fetched_profile : Res GitHubUserProfile)
           (fetched_repositories : Res (list GitHubRepository))
           (graphql : Res ContributionsCollection)
           (candidateId : nat) (rows : list PlatformDataRow)
  : Res (GitHubData * list PlatformDataRow) :=
  data <- fetchAllData sixMonthsAgo now token fetched_profile
                       fetched_repositories graphql ;;
  Ok (data, storeData now candidateId data rows).




End GitHubConnector.

(** *** LinkedIn: manual entry (linkedin.connector.ts) *)

Module LinkedInConnector.

Import LinkedIn.

(** What is left of [s] after the prefix [p], if [s] starts with it. *)
Fixpoint drop_prefix (p s : string) : option string :=
  match p with
  | EmptyString => Some s
  | String c p' =>
      match s with
      | String d s' => if Ascii.eqb c d then drop_prefix p' s' else None
      | EmptyString => None
      end
  end.

(** The longest prefix matched by [[^/?]*]. *)
Fixpoint segment (s : string) : string :=
  match s with
  | EmptyString => EmptyString
  | String c s' =>
      if (Ascii.eqb c "/" || Ascii.eqb c "?")%bool then EmptyString
      else String c (segment s')
  end.

(** [s.match(/<literal>([^/?]+)/)]: the group of the leftmost match. *)
Fixpoint match_after (literal s : string) : option string :=
  let here :=
    match drop_prefix literal s with
    | Some rest => if String.eqb (segment rest) "" then None
                   else Some (segment rest)
    | None => None
    end in
  match here with
  | Some name => Some name
  | None => match s with
            | EmptyString => None
            | String _ s' => match_after literal s'
            end
  end.

(** [s.split('/')] *)
Fixpoint split_slash (s : string) : list string :=
  match s with
  | EmptyString => [EmptyString]
  | String c s' =>
      if Ascii.eqb c "/" then EmptyString :: split_slash s'
      else match split_slash s' with
           | x :: xs => String c x :: xs
           | [] => [String c EmptyString]
           end
  end.

Definition extractUsername (profileUrl : string) : string :=
  match match_after "linkedin.com/in/" profileUrl with
  | Some name => name
  | None =>
      match match_after "linkedin.com/pub/" profileUrl with
      | Some name => name
      | None =>
          let segments :=
            filter (fun s => negb (String.eqb s ""))
                   (split_slash profileUrl) in
          match last (map Some segments) None with
          | Some s => s
          | None => profileUrl
          end
      end
  end.

(** A date string of the input, by what [new Date(s)] makes of it: a
    calendar date, or the Invalid Date when the string does not parse.
    The input is not validated, so either can be entered. *)
Inductive DateString : Type :=
| ValidDate (d : JsDate)
| InvalidDate.

(** [me_endDate] is [None] when the end date is left out or is the empty
    string, the two cases where [exp.endDate || null] is null. *)
Record ManualExperience : Type := {
  me_title : string;
  me_company : string;
  me_startDate : DateString;
  me_endDate : option DateString;
  me_isCurrent : option bool;
  me_description : option string
}.

Record ManualEducation : Type := {
  me_school : string;
  me_degree : option string;
  me_fieldOfStudy : option string;
  me_startYear : option Q;
  me_endYear : option Q
}.

Record ManualCertification : Type := {
  mc_name : string;
  mc_authority : string
}.

(** An optional field is [None] when it is left out. *)
Record ManualLinkedInInput : Type := {
  profileUrl : string;
  mi_headline : option string;
  mi_bio : option string;
  mi_connections : option Q;
  mi_experiences : option (list ManualExperience);
  mi_education : option (list ManualEducation);
  mi_skills : option (list string);
  mi_certifications : option (list ManualCertification)
}.

(** [s || null] on a string and [n || null] on a number. *)
Definition string_or_null (s : option string) : option string :=
  if truthy s then s else None.
Definition number_or_null (n : option Q) : option Q :=
  match n with
  | Some v => if Qeq_bool v 0 then None else Some v
  | None => None
  end.

(** [arr || []] *)
Definition or_empty {A} (l : option (list A)) : list A :=
  match l with
  | Some l => l
  | None => []
  end.

(** [new Date(s)], read for [getFullYear] and [getMonth].  On the Invalid
    Date both are NaN, and so are [months], [totalMonths],
    [yearsOfExperience], [experienceScore] and [overallScore] after them:
    the metrics hold no score, which is [NotFinite] here. *)
Definition new_Date (s : DateString) : Res JsDate :=
  match s with
  | ValidDate d => Ok d
  | InvalidDate => Throw NotFinite
  end.

(** One element of [experiences].  The source copies the two strings and
    [calculateMetrics] reads them with [new Date]; the reading is placed
    here, where the strings are last seen. *)
Definition read_experience (exp : ManualExperience) : Res LinkedInExperience :=
  start <- new_Date (me_startDate exp) ;;
  finish <- match me_endDate exp with
            | Some s => d <- new_Date s ;; Ok (Some d)
            | None => Ok None
            end ;;
  Ok {| title := me_title exp;
        company := me_company exp;
        startDate := start;
        endDate := finish;
        isCurrent := match me_isCurrent exp with
                     | Some b => b
                     | None => false
                     end;
        description := string_or_null (me_description exp) |}.

Fixpoint read_experiences (l : list ManualExperience)
  : Res (list LinkedInExperience) :=
  match l with
  | [] => Ok []
  | exp :: rest =>
      e <- read_experience exp ;;
      es <- read_experiences rest ;;
      Ok (e :: es)
  end.

(** Every date string of the input parses. *)
Definition date_parses (s : DateString) : bool :=
  match s with
  | ValidDate _ => true
  | InvalidDate => false
  end.

Definition dates_parse (input : ManualLinkedInInput) : bool :=
  forallb (fun exp =>
             date_parses (me_startDate exp)
             && match me_endDate exp with
                | Some s => date_parses s
                | None => true
                end)
          (or_empty (mi_experiences input)).

(** [now] is the value of [new Date()], as a calendar date and as an
    instant. *)
Definition createFromManualInput (now : JsDate) (instant : Z)
           (input : ManualLinkedInInput) : Res LinkedInData :=
  let username := extractUsername (profileUrl input) in
  let profile :=
    {| username := username;
       headline := string_or_null (mi_headline input);
       bio := string_or_null (mi_bio input);
       connections := match mi_connections input with
                      | Some n => n
                      | None => 0
                      end;
       isManualEntry := true |} in
  let education :=
    map (fun edu =>
           {| school := me_school edu;
              degree := string_or_null (me_degree edu);
              fieldOfStudy := string_or_null (me_fieldOfStudy edu);
              startYear := number_or_null (me_startYear edu);
              endYear := number_or_null (me_endYear edu) |})
        (or_empty (mi_education input)) in
  let skills :=
    map (fun skill => {| skill_name := skill; endorsements := 0 |})
        (or_empty (mi_skills input)) in
  let certifications :=
    map (fun cert => {| cert_name := mc_name cert;
                        authority := mc_authority cert |})
        (or_empty (mi_certifications input)) in
  experiences <- read_experiences (or_empty (mi_experiences input)) ;;
  metrics <- calculateMetrics now profile experiences education skills
                              certifications ;;
  Ok {| LinkedIn.profile := profile;
        LinkedIn.experiences := experiences;
        LinkedIn.education := education;
        LinkedIn.skills := skills;
        LinkedIn.certifications := certifications;
        LinkedIn.metrics := metrics;
        fetchedAt := instant |}.

End LinkedInConnector.

(** *** Blog: the Medium placeholder (blog connector) *)

Module BlogConnector.

Import Blog.

(** Medium has no public API: the profile is empty and there are no
    posts. *)
Definition fetchMediumData (now : Z) (username : string) : Res BlogData :=
  let profile :=
    {| username := username; bio := None; followers := 0; following := 0;
       bp_totalPosts := 0 |} in
  let posts : list BlogPost := [] in
  metrics <- calculateMetrics profile posts ;;
  Ok {| Blog.profile := profile; Blog.posts := posts;
        Blog.metrics := metrics; fetchedAt := now |}.

End BlogConnector.

Module MoreSamples.

Import Aggregation AggregationMore Samples.

(** A candidate connected to GitHub and Twitter, with cached data for
    GitHub and LinkedIn. *)
Definition partly_cached : Db :=
  {| candidateProfile :=
       [ {| cp_id := 1; cp_userId := "u1"; cp_userName := "Octo";
            platformConnections :=
              [ {| platform := GITHUB; conn_username := "octo" |};
                {| platform := TWITTER; conn_username := "octo_t" |} ];
            cachedData :=
              {| pf_github := Some (gh_data 50 bio_advice);
                 pf_linkedin := Some (li_data 60 []);
                 pf_twitter := None; pf_devto := None; pf_hashnode := None;
                 pf_medium := None |} |} ];
     candidateScore := [] |}.

(** The network as seen by the connectors: GitHub is down, Twitter
    answers. *)
Definition github_down : Fetchers :=
  {| fetch_github := fun _ => Throw (NotFound "GitHub API rate limit exceeded");
     fetch_twitter := fun _ => Ok (tw_data 40 []);
     fetch_blog := fun _ _ => Throw (NotFound "Dev.to API error: 500") |}.

End MoreSamples.

(** A store with an inbox of two notifications for ["u1"], the newer one
    unread. *)
Definition two_notifications : NotificationService.Store :=
  [ ("u1"%string,
     [ {| NotificationService.id := "n2";
          NotificationService.userId := "u1";
          NotificationService.type := Notification.NEW_RECOMMENDATION;
          NotificationService.data :=
            NotificationService.RecommendationsOf Samples.bio_advice;
          NotificationService.read := false;
          NotificationService.createdAt := 2000 |};
       {| NotificationService.id := "n1";
          NotificationService.userId := "u1";
          NotificationService.type := Notification.PLATFORM_CONNECTED;
          NotificationService.data :=
            NotificationService.PlatformConnectionOf
              {| NotificationService.pc_platform := Aggregation.GITHUB;
                 NotificationService.pc_username := "octo";
                 NotificationService.isVerified := false |};
          NotificationService.read := true;
          NotificationService.createdAt := 1000 |} ]) ].

(** A retweet with many likes. *)
Definition a_retweet : Twitter.TwitterTweet :=
  {| Twitter.text := "RT: a new release of rust";
     Twitter.createdAt := 1000; Twitter.likes := 1000;
     Twitter.retweets := 500; Twitter.replies := 0; Twitter.quotes := 0;
     Twitter.impressions := None; Twitter.isRetweet := true;
     Twitter.isReply := false; Twitter.hashtags := ["rust"%string] |}.

(** A manual LinkedIn entry that has everything the calculator rewards:
    three described positions over more than five years, a master's
    degree with a field of study, ten skills and 500 connections. *)
Definition a_position (year : Z) : LinkedInConnector.ManualExperience :=
  {| LinkedInConnector.me_title := "Engineer";
     LinkedInConnector.me_company := "Acme";
     LinkedInConnector.me_startDate :=
       LinkedInConnector.ValidDate
         {| LinkedIn.getFullYear := year; LinkedIn.getMonth := 0 |};
     LinkedInConnector.me_endDate :=
       Some (LinkedInConnector.ValidDate
               {| LinkedIn.getFullYear := year + 2;
                  LinkedIn.getMonth := 0 |});
     LinkedInConnector.me_isCurrent := None;
     LinkedInConnector.me_description := Some "Built things"%string |}.

Definition full_manual_input : LinkedInConnector.ManualLinkedInInput :=
  {| LinkedInConnector.profileUrl := "https://www.linkedin.com/in/octo/";
     LinkedInConnector.mi_headline := Some "Engineer"%string;
     LinkedInConnector.mi_bio := Some "Proofs and programs"%string;
     LinkedInConnector.mi_connections := Some 500;
     LinkedInConnector.mi_experiences :=
       Some [a_position 2015; a_position 2017; a_position 2019];
     LinkedInConnector.mi_education :=
       Some [ {| LinkedInConnector.me_school := "MIT";
                 LinkedInConnector.me_degree :=
                   Some "Master of Science"%string;
                 LinkedInConnector.me_fieldOfStudy :=
                   Some "Computer Science"%string;
                 LinkedInConnector.me_startYear := Some 2010;
                 LinkedInConnector.me_endYear := Some 2012 |} ];
     LinkedInConnector.mi_skills :=
       Some [ "a"; "b"; "c"; "d"; "e"; "f"; "g"; "h"; "i"; "j" ]%string;
     LinkedInConnector.mi_certifications := None |}.

(** The same entry with a first position whose start date does not
    parse. *)
Definition undated_position : LinkedInConnector.ManualExperience :=
  {| LinkedInConnector.me_title := "Engineer";
     LinkedInConnector.me_company := "Acme";
     LinkedInConnector.me_startDate := LinkedInConnector.InvalidDate;
     LinkedInConnector.me_endDate := None;
     LinkedInConnector.me_isCurrent := Some true;
     LinkedInConnector.me_description := None |}.

Definition undated_manual_input : LinkedInConnector.ManualLinkedInInput :=
  {| LinkedInConnector.profileUrl :=
       LinkedInConnector.profileUrl full_manual_input;
     LinkedInConnector.mi_headline :=
       LinkedInConnector.mi_headline full_manual_input;
     LinkedInConnector.mi_bio := LinkedInConnector.mi_bio full_manual_input;
     LinkedInConnector.mi_connections :=
       LinkedInConnector.mi_connections full_manual_input;
     LinkedInConnector.mi_experiences :=
       Some [undated_position; a_position 2017; a_position 2019];
     LinkedInConnector.mi_education :=
       LinkedInConnector.mi_education full_manual_input;
     LinkedInConnector.mi_skills :=
       LinkedInConnector.mi_skills full_manual_input;
     LinkedInConnector.mi_certifications :=
       LinkedInConnector.mi_certifications full_manual_input |}.

(** A week of the contribution calendar, and the answer of GraphQL that
    holds two of them. *)
Definition a_day (date : string) (count : Q)
  : GitHubConnector.ContributionDay :=
  {| GitHubConnector.contributionCount := count;
     GitHubConnector.date := date |}.

Definition a_calendar : GitHubConnector.ContributionsCollection :=
  {| GitHubConnector.totalCommitContributions := 6;
     GitHubConnector.totalPullRequestContributions := 0;
     GitHubConnector.totalIssueContributions := 0;
     GitHubConnector.totalPullRequestReviewContributions := 0;
     GitHubConnector.weeks :=
       [ [a_day "2024-01-06" 2; a_day "2024-01-07" 0];
         [a_day "2024-01-08" 1; a_day "2024-01-09" 3] ] |}.

(** * Properties

    ** Numbers and lists *)


Lemma Math_round_comp x y : x == y -> Math_round x = Math_round y.
Proof.
  intros H. unfold Math_round. f_equal. apply Qfloor_comp.
  rewrite H. reflexivity.
Qed.

Lemma Math_round_le x y : x <= y -> Math_round x <= Math_round y.
Proof.
  intros H. unfold Math_round. rewrite <- Zle_Qle. apply Qfloor_resp_le. lra.
Qed.

Lemma Math_round_Z z : Math_round (inject_Z z) = inject_Z z.
Proof.
  unfold Math_round. f_equal.
  assert (H1 := Qfloor_le (inject_Z z + (1#2))).
  assert (H2 := Qlt_floor (inject_Z z + (1#2))).
  set (f := Qfloor (inject_Z z + (1 # 2))) in *.
  rewrite inject_Z_plus in H2. change (inject_Z 1) with 1 in H2.
  assert (Ha : inject_Z f < inject_Z (z + 1)).
  { rewrite inject_Z_plus. change (inject_Z 1) with 1. lra. }
  assert (Hb : inject_Z z < inject_Z (f + 1)).
  { rewrite inject_Z_plus. change (inject_Z 1) with 1. lra. }
  rewrite <- Zlt_Qlt in Ha, Hb. lia.
Qed.


Lemma gtb_true x y : gtb x y = true <-> y < x.
Proof.
  unfold gtb, ltb. rewrite negb_true_iff. split; intros H.
  - apply Qnot_le_lt. intros H'. apply Qle_bool_iff in H'. congruence.
  - destruct (Qle_bool x y) eqn:E; [|reflexivity]. apply Qle_bool_iff in E. lra.
Qed.
Lemma ltb_true x y : ltb x y = true <-> x < y.
Proof. apply (gtb_true y x). Qed.
Lemma geb_true x y : geb x y = true <-> y <= x.
Proof. apply Qle_bool_iff. Qed.
Lemma geb_false x y : geb x y = false <-> x < y.
Proof.
  unfold geb. split; intros H.
  - apply Qnot_le_lt. intros H'. apply Qle_bool_iff in H'. congruence.
  - destruct (Qle_bool y x) eqn:E; [|reflexivity]. apply Qle_bool_iff in E. lra.
Qed.
Lemma gtb_false x y : gtb x y = false <-> x <= y.
Proof.
  unfold gtb, ltb. rewrite negb_false_iff. apply Qle_bool_iff. Qed.

Lemma len_nonneg {A} (l : list A) : 0 <= len l.
Proof. unfold len. change 0 with (inject_Z 0). rewrite <- Zle_Qle. lia. Qed.

Lemma len_pos {A} (l : list A) : gtb (len l) 0 = true <-> l <> [].
Proof.
  rewrite gtb_true. unfold len. change 0 with (inject_Z 0). rewrite <- Zlt_Qlt.
  destruct l; simpl; split; intros; try lia; congruence.
Qed.

(** ** The composite score *)

Import Aggregation Samples.





(** Without tweets [Twitter.calculateMetrics] returns
    [Math.min(followers / 1000 * 5, 25)] as the overall score: 3100
    followers give 15.5, in the doubles as in the rationals. *)
Example twitter_15_5_reached :
  (3100 / 1000 * 5)%float = 15.5%float
  /\ match Twitter.calculateMetrics (tw_profile 3100) [] with
     | Ok r => Twitter.overallScore r == 31 # 2
     | Throw _ => False
     end.
Proof.
  split; vm_compute; reflexivity.
Qed.

Lemma double_sums_families weights p :
  AggregationDouble.sums weights p
  = (double_weighted_sum (double_families weights p),
     double_total_weight (double_families weights p)).
Proof.
  unfold AggregationDouble.sums, double_families.
  destruct (AggregationDouble.githubScore p),
    (AggregationDouble.linkedinScore p),
    (AggregationDouble.socialScore p),
    (AggregationDouble.blogScore p); reflexivity.
Qed.

(** C1, as the code has it: the overall score is
    [Math.round(weightedSum / totalWeight)] when [totalWeight > 0] and 0
    otherwise, where both sums are accumulated from 0 in double arithmetic
    over the families whose score is not null, in the order github,
    linkedin, twitter, blog; so it is 0 when no family is present.  With
    the default weights, one connected platform with an integer score [s]
    from 0 to 100 gives exactly [s], whichever platform it is. *)
Theorem composite_renormalizes (weights : AggregationDouble.ScoringWeights)
        (p : AggregationDouble.Platforms) :
  let fs := double_families weights p in
  AggregationDouble.overallScore weights p
  = (if Double.gtb (double_total_weight fs) 0%float
     then Double.Math_round
            (PrimFloat.div (double_weighted_sum fs) (double_total_weight fs))
     else 0%float)
  /\ (fs = [] -> AggregationDouble.overallScore weights p = 0%float)
  /\ (forall s : nat, (s <= 100)%nat ->
      forall only,
        In only [DoubleSamples.github_only; DoubleSamples.linkedin_only;
                 DoubleSamples.twitter_only; DoubleSamples.devto_only;
                 DoubleSamples.hashnode_only; DoubleSamples.medium_only] ->
        AggregationDouble.overallScore AggregationDouble.DEFAULT_WEIGHTS
                                       (only (Double.of_nat s))
        = Double.of_nat s).
Proof.
  intros fs.
  assert (H : AggregationDouble.overallScore weights p
              = (if Double.gtb (double_total_weight fs) 0%float
                 then Double.Math_round
                        (PrimFloat.div (double_weighted_sum fs)
                                       (double_total_weight fs))
                 else 0%float)).
  { unfold AggregationDouble.overallScore.
    rewrite double_sums_families. reflexivity. }
  split; [exact H|]. split.
  - intros Hnil. rewrite H, Hnil. reflexivity.
  - intros s Hs only Hin.
    assert (Hall : forall f, In f [DoubleSamples.github_only;
                                   DoubleSamples.linkedin_only;
                                   DoubleSamples.twitter_only;
                                   DoubleSamples.devto_only;
                                   DoubleSamples.hashnode_only;
                                   DoubleSamples.medium_only] ->
                   AggregationDouble.overallScore
                     AggregationDouble.DEFAULT_WEIGHTS (f (Double.of_nat s))
                   = Double.of_nat s);
      [|exact (Hall only Hin)].
    apply Forall_forall.
    do 101 (destruct s as [|s];
            [repeat constructor; vm_compute; reflexivity|]).
    lia.
Qed.

Lemma composite_renormalizes_witness :
  AggregationDouble.overallScore AggregationDouble.DEFAULT_WEIGHTS
                                 DoubleSamples.github_80_linkedin_60
  = 71%float
  /\ AggregationDouble.overallScore AggregationDouble.DEFAULT_WEIGHTS
                                    (DoubleSamples.github_only 82%float)
     = 82%float.
Proof.
  split.
  - destruct (composite_renormalizes AggregationDouble.DEFAULT_WEIGHTS
                                     DoubleSamples.github_80_linkedin_60)
      as [H _].
    rewrite H. vm_compute. reflexivity.
  - destruct (composite_renormalizes AggregationDouble.DEFAULT_WEIGHTS
                                     DoubleSamples.nothing)
      as (_ & _ & H).
    exact (H 82%nat ltac:(lia) DoubleSamples.github_only (or_introl eq_refl)).
Defined.

(** C1, counterexample.  The rounding of the exact weighted mean is not
    what the code returns: with the default weights a profile with only
    Twitter connected, scoring 15.5, gets 15 where the rounding of 15.5 is
    16, and GitHub at 1 with Twitter at 36 gets 11 where the mean of the
    present families rounds to 12; after [setWeights({ github: 0 })] a
    profile with only GitHub connected, scoring 82, gets 0. *)
Lemma renormalization_counterexample :
  (AggregationDouble.overallScore AggregationDouble.DEFAULT_WEIGHTS
                                  DoubleSamples.twitter_15_5 = 15%float
   /\ ~ renormalization_as_stated AggregationDouble.DEFAULT_WEIGHTS
                                  DoubleSamples.twitter_15_5)
  /\ (AggregationDouble.overallScore AggregationDouble.DEFAULT_WEIGHTS
                                     DoubleSamples.github_1_twitter_36
      = 11%float
      /\ ~ renormalization_as_stated AggregationDouble.DEFAULT_WEIGHTS
                                     DoubleSamples.github_1_twitter_36)
  /\ (AggregationDouble.overallScore DoubleSamples.zero_github_weights
                                     (DoubleSamples.github_only 82%float)
      = 0%float
      /\ ~ renormalization_as_stated DoubleSamples.zero_github_weights
                                     (DoubleSamples.github_only 82%float)).
Proof.
  split; [|split]; (split; [vm_compute; reflexivity|]).
  - intros (_ & _ & H).
    specialize (H 15.5%float 0.15%float eq_refl).
    vm_compute in H. discriminate.
  - intros (H & _).
    assert (Hfs : double_families AggregationDouble.DEFAULT_WEIGHTS
                                  DoubleSamples.github_1_twitter_36 <> [])
      by (vm_compute; discriminate).
    specialize (H Hfs). vm_compute in H. discriminate.
  - intros (_ & _ & H).
    specialize (H 82%float 0%float eq_refl).
    vm_compute in H. discriminate.
Qed.

Lemma fold_left_Qplus (l : list Q) (a : Q) :
  fold_left Qplus l a == a + fold_right Qplus 0 l.
Proof.
  revert a. induction l as [|x l IH]; intros a; simpl.
  - ring.
  - rewrite IH. ring.
Qed.

(** C7, as the code has it: with at least one blog provider connected,
    the blog score that enters the weighted combination is the mean of the
    providers' overall scores rounded by [Math.round], and it is paired
    with the blog weight in the families that are combined. *)
Theorem blog_family_rounded_mean this now profile :
  blogScores_of (platforms profile) <> [] ->
  let c := calculateCompositeScore this now profile in
  blogScore c = Some (Math_round (blog_mean (platforms profile)))
  /\ In (Math_round (blog_mean (platforms profile)), blog (weights this))
        (present_families (weights this) c).
Proof.
  intros Hne c.
  assert (Hb : blogScore c = Some (Math_round (blog_mean (platforms profile)))).
  { unfold c. cbn [calculateCompositeScore blogScore]. unfold blogScore_of.
    apply len_pos in Hne. rewrite Hne. f_equal. apply Math_round_comp.
    unfold blog_mean. rewrite fold_left_Qplus. rewrite Qplus_0_l. reflexivity. }
  split; [exact Hb|].
  unfold present_families. rewrite Hb.
  rewrite !in_app_iff. right; right; right. left. reflexivity.
Qed.

Lemma blog_family_rounded_mean_witness :
  blogScore (calculateCompositeScore aggregationService 0 two_blogs) = Some 51.
Proof.
  destruct (blog_family_rounded_mean aggregationService 0 two_blogs) as [H _].
  - discriminate.
  - rewrite H. reflexivity.
Defined.

(** C7, counterexample: with dev.to at 50 and Hashnode at 51 the blog score
    is 51, which is not their mean 50.5. *)
Lemma blog_mean_counterexample :
  ~ blog_family_is_mean aggregationService two_blogs.
Proof.
  intros (s & Hs & Hm). vm_compute in Hs. injection Hs as <-.
  vm_compute in Hm. discriminate.
Qed.

(** *** Recommendations *)

Lemma mem_true x l : mem x l = true <-> In x l.
Proof.
  unfold mem. rewrite existsb_exists. split.
  - intros (y & Hy & E). apply String.eqb_eq in E. subst. exact Hy.
  - intros H. exists x. split; [exact H | apply String.eqb_refl].
Qed.

Lemma mem_false x l : mem x l = false <-> ~ In x l.
Proof.
  rewrite <- mem_true. destruct (mem x l); split; intros; congruence.
Qed.

Lemma set_from_in seen l x :
  In x (set_from seen l) <-> In x l /\ ~ In x seen.
Proof.
  revert seen. induction l as [|y l IH]; intros seen; simpl.
  - tauto.
  - destruct (mem y seen) eqn:E.
    + apply mem_true in E. rewrite IH. split.
      * tauto.
      * intros [[->|H] Hn]; tauto.
    + apply mem_false in E. simpl. rewrite IH. simpl. split.
      * intros [->|[H Hn]]; tauto.
      * intros [[->|H] Hn]; [tauto|].
        destruct (string_dec y x) as [->|Hne]; [tauto|]. right. tauto.
Qed.

Lemma set_from_NoDup seen l : NoDup (set_from seen l).
Proof.
  revert seen. induction l as [|y l IH]; intros seen; simpl.
  - constructor.
  - destruct (mem y seen) eqn:E; [apply IH|].
    constructor; [|apply IH].
    rewrite set_from_in. simpl. tauto.
Qed.

Lemma uniq_NoDup l : NoDup (uniq l).
Proof. apply set_from_NoDup. Qed.

Lemma uniq_in l x : In x (uniq l) <-> In x l.
Proof. unfold uniq. rewrite set_from_in. simpl. tauto. Qed.

Lemma NoDup_firstn_of {A} n (l : list A) : NoDup l -> NoDup (firstn n l).
Proof.
  revert n. induction l as [|x l IH]; intros [|n] H; simpl; try constructor.
  - inversion H; subst. intros Hin. apply H2.
    rewrite <- (firstn_skipn n l). apply in_or_app. left. exact Hin.
  - apply IH. inversion H; assumption.
Qed.

Lemma push_if_missing (missing : list string) (s : string) :
  push_if (gtb (len missing) 0) s
  = match missing with [] => [] | _ :: _ => [s] end.
Proof.
  destruct missing as [|m ms]; [reflexivity|].
  assert (H : gtb (len (m :: ms)) 0 = true) by (apply len_pos; discriminate).
  rewrite H. reflexivity.
Qed.

Lemma set_from_same_seen s1 s2 l :
  (forall y, mem y s1 = mem y s2) -> set_from s1 l = set_from s2 l.
Proof.
  revert s1 s2. induction l as [|x l IH]; intros s1 s2 H; simpl;
    [reflexivity|].
  rewrite <- (H x). destruct (mem x s1) eqn:E.
  - apply IH, H.
  - f_equal. apply IH. intros y. unfold mem. simpl.
    fold (mem y s1) (mem y s2). rewrite H. reflexivity.
Qed.

Lemma mem_app y s t : mem y (s ++ t) = (mem y s || mem y t)%bool.
Proof. unfold mem. apply existsb_app. Qed.

Lemma set_from_more_seen s t l :
  set_from (s ++ t) l = filter (fun y => negb (mem y t)) (set_from s l).
Proof.
  revert s. induction l as [|x l IH]; intros s; simpl; [reflexivity|].
  rewrite mem_app. destruct (mem x s) eqn:Es; simpl.
  - apply IH.
  - destruct (mem x t) eqn:Et; simpl.
    + rewrite <- (IH (x :: s)). apply set_from_same_seen.
      intros y. unfold mem at 2. simpl. fold (mem y (s ++ t)).
      destruct (String.eqb y x) eqn:E; [|reflexivity].
      apply String.eqb_eq in E. subst y. rewrite mem_app, Et.
      apply orb_true_r.
    + f_equal. apply (IH (x :: s)).
Qed.

Lemma set_from_app s a b :
  set_from s (a ++ b) = set_from s a ++ set_from (rev a ++ s) b.
Proof.
  revert s. induction a as [|x a IH]; intros s; simpl; [reflexivity|].
  destruct (mem x s) eqn:E.
  - rewrite IH. f_equal. apply set_from_same_seen. intros y.
    rewrite !mem_app. unfold mem at 3. simpl. fold (mem y (rev a)).
    destruct (String.eqb y x) eqn:Ey; simpl.
    + apply String.eqb_eq in Ey. subst y. rewrite E.
      rewrite !orb_true_r. reflexivity.
    + rewrite orb_false_r. reflexivity.
  - simpl. f_equal. rewrite IH. f_equal. apply set_from_same_seen.
    intros y. rewrite !mem_app. unfold mem at 2 4. simpl.
    fold (mem y s) (mem y (rev a)).
    destruct (String.eqb y x), (mem y (rev a)), (mem y s); reflexivity.
Qed.

Lemma mem_rev y l : mem y (rev l) = mem y l.
Proof.
  destruct (mem y l) eqn:E.
  - apply mem_true. apply mem_true in E. apply in_rev in E. exact E.
  - apply mem_false. apply mem_false in E. intros H. apply E.
    apply in_rev. exact H.
Qed.

(** Deduplication keeps the earlier list whole and lets the later list
    add what the earlier one does not have. *)
Lemma uniq_app a b :
  uniq (a ++ b) = uniq a ++ filter (fun y => negb (mem y a)) (uniq b).
Proof.
  unfold uniq. rewrite set_from_app. f_equal.
  etransitivity; [exact (set_from_more_seen [] (rev a ++ []) b)|].
  apply filter_ext. intros y.
  rewrite mem_app, mem_rev. simpl. rewrite orb_false_r. reflexivity.
Qed.

(** C8, as the code has it: the recommendations are the first ten entries
    of the list made of the family recommendations in family order,
    followed, only when some family is missing, by the one entry that names
    the missing families, each string kept at its first occurrence; so the
    family recommendations come first and the entry, if any and if no
    family recommendation is the same string, comes after all of them; the
    result has no duplicate and at most ten entries. *)
Theorem recommendations_dedup_cap this now profile :
  let c := calculateCompositeScore this now profile in
  let p := platforms profile in
  let missing := platformsMissing (breakdown c) in
  let entry := match missing with
               | [] => []
               | _ :: _ => [connect_more missing]
               end in
  recommendations c = firstn 10 (uniq (family_recommendations p ++ entry))
  /\ recommendations c
     = firstn 10 (uniq (family_recommendations p)
                  ++ filter (fun s => negb (mem s (family_recommendations p)))
                            entry)
  /\ missing = platformsMissing_of p
  /\ NoDup (recommendations c)
  /\ (List.length (recommendations c) <= 10)%nat.
Proof.
  intros c p missing entry.
  assert (E : recommendations c
              = firstn 10 (uniq (family_recommendations p ++ entry))).
  { unfold c, entry, missing.
    cbn [calculateCompositeScore recommendations breakdown platformsMissing].
    rewrite push_if_missing. reflexivity. }
  split; [exact E|]. split.
  { rewrite E, uniq_app. do 2 f_equal. unfold entry.
    destruct missing; reflexivity. }
  split; [reflexivity|]. rewrite E. split.
  - apply NoDup_firstn_of, uniq_NoDup.
  - apply firstn_le_length.
Qed.

(** C8, counterexample: with every family connected nothing is missing and
    no entry is added, where the statement has one. *)
Lemma recommendations_counterexample :
  ~ recommendations_as_stated aggregationService all_connected.
Proof.
  intros (_ & _ & H). vm_compute in H. discriminate.
Qed.

(** *** Weights *)

(** C10: [setWeights] gives every named field the value of the argument
    and keeps every other field, [getWeights] returns that configuration,
    and the weights are not rescaled to sum to one. *)
Theorem setWeights_merges this p :
  let w := getWeights (setWeights p this) in
  github w = match opt_github p with
             | Some v => v
             | None => github (weights this)
             end
  /\ linkedin w = match opt_linkedin p with
                  | Some v => v
                  | None => linkedin (weights this)
                  end
  /\ twitter w = match opt_twitter p with
                 | Some v => v
                 | None => twitter (weights this)
                 end
  /\ blog w = match opt_blog p with
              | Some v => v
              | None => blog (weights this)
              end
  /\ w = weights (setWeights p this)
  /\ (forall v,
        p = {| opt_github := Some v; opt_linkedin := None;
               opt_twitter := None; opt_blog := None |} ->
        github w + linkedin w + twitter w + blog w
        == v + linkedin (weights this) + twitter (weights this)
           + blog (weights this)).
Proof.
  cbv zeta. split; [reflexivity|]. split; [reflexivity|].
  split; [reflexivity|]. split; [reflexivity|]. split; [reflexivity|].
  intros v ->. simpl. reflexivity.
Qed.

Lemma setWeights_merges_witness :
  let w := getWeights (setWeights
                         {| opt_github := Some 1; opt_linkedin := None;
                            opt_twitter := None; opt_blog := None |}
                         aggregationService) in
  github w + linkedin w + twitter w + blog w == 1.65.
Proof.
  intros w.
  destruct (setWeights_merges aggregationService
              {| opt_github := Some 1; opt_linkedin := None;
                 opt_twitter := None; opt_blog := None |})
    as (_ & _ & _ & _ & _ & H).
  unfold w. rewrite (H 1 eq_refl). reflexivity.
Defined.

(** *** The scenarios of the specification *)

Example scenario_single_family :
  overallScore (calculateCompositeScore aggregationService 0 github_only_82)
  = 82.
Proof. reflexivity. Qed.

Example scenario_two_families :
  overallScore (calculateCompositeScore aggregationService 0
                                        github_80_linkedin_60) = 71.
Proof. reflexivity. Qed.

Example scenario_nothing_connected :
  let c := calculateCompositeScore aggregationService 0 nothing_connected in
  overallScore c = 0
  /\ recommendations c
     = ["Connect more platforms: github, linkedin, twitter, blog"%string].
Proof. split; reflexivity. Qed.

Example scenario_cap_cuts_entry :
  recommendations (calculateCompositeScore aggregationService 0
                                           ten_recommendations)
  = ["g1"; "g2"; "g3"; "g4"; "g5"; "l1"; "l2"; "l3"; "l4"; "l5"]%string.
Proof. reflexivity. Qed.

(** ** Stored scores and change detection *)

Section Sorting.

Context {A : Type} (cmp : A -> A -> Q).

Lemma insert_by_in x y (l : list A) :
  In x (insert_by cmp y l) <-> x = y \/ In x l.
Proof.
  induction l as [|z l IH]; simpl.
  - intuition congruence.
  - destruct (Qle_bool (cmp y z) 0); simpl; rewrite ?IH; intuition congruence.
Qed.

Lemma sort_by_in x (l : list A) : In x (sort_by cmp l) <-> In x l.
Proof.
  induction l as [|z l IH]; simpl; [tauto|].
  rewrite insert_by_in, IH. intuition congruence.
Qed.

Lemma insert_by_length y (l : list A) :
  List.length (insert_by cmp y l) = S (List.length l).
Proof.
  induction l as [|z l IH]; simpl; [reflexivity|].
  destruct (Qle_bool (cmp y z) 0); simpl; congruence.
Qed.

Lemma sort_by_length (l : list A) :
  List.length (sort_by cmp l) = List.length l.
Proof.
  induction l as [|z l IH]; simpl; [reflexivity|].
  rewrite insert_by_length. congruence.
Qed.

Lemma sort_by_nil (l : list A) : sort_by cmp l = [] -> l = [].
Proof.
  intros H. apply (f_equal (@List.length A)) in H.
  rewrite sort_by_length in H. destruct l; [reflexivity | discriminate].
Qed.

(** A map that does not change what the comparator sees goes through the
    sort. *)
Lemma sort_by_map (f : A -> A) (l : list A) :
  (forall a b, cmp (f a) (f b) = cmp a b) ->
  sort_by cmp (map f l) = map f (sort_by cmp l).
Proof.
  intros Hf. induction l as [|x l IH]; simpl; [reflexivity|].
  rewrite IH. generalize (sort_by cmp l). intros s.
  induction s as [|y s IHs]; simpl; [reflexivity|].
  rewrite Hf. destruct (Qle_bool (cmp x y) 0); simpl; congruence.
Qed.

End Sorting.

Lemma filter_map_commute {A} (p : A -> bool) (f : A -> A) (l : list A) :
  (forall a, p (f a) = p a) -> filter p (map f l) = map f (filter p l).
Proof.
  intros Hp. induction l as [|x l IH]; simpl; [reflexivity|].
  rewrite Hp. destruct (p x); simpl; congruence.
Qed.

(** [upsert] on an id that some row has rewrites the rows in place. *)
Lemma upsert_update now i cid c rows :
  existsb (fun r => Nat.eqb (id r) i) rows = true ->
  upsert now (Some i) cid c rows
  = map (fun r => if Nat.eqb (id r) i then updated_row now c r else r) rows.
Proof.
  intros H. unfold upsert. rewrite H. reflexivity.
Qed.

(** [upsert] on the empty id appends a row. *)
Lemma upsert_create now cid c rows :
  exists row,
    upsert now None cid c rows = rows ++ [row]
    /\ cs_candidateId row = cid
    /\ compositeScore row = overallScore c
    /\ createdAt row = now.
Proof.
  unfold upsert.
  assert (H : existsb (fun _ : CandidateScoreRow => false) rows = false).
  { induction rows; simpl; auto. }
  rewrite H. eexists. split; [reflexivity|]. simpl. auto.
Qed.

Lemma aggregateProfile_found now userId db cp :
  findUnique db userId = Some cp ->
  exists profile, aggregateProfile now userId db = Ok profile.
Proof.
  intros H. unfold aggregateProfile. rewrite H. eexists. reflexivity.
Qed.

(** What a call returns and stores, for a candidate that exists. *)
Lemma calculateAndStoreScore_found this now userId db cp :
  findUnique db userId = Some cp ->
  exists profile,
    aggregateProfile now userId db = Ok profile
    /\ calculateAndStoreScore this now userId db
       = let prev := findFirst db (cp_id cp) in
         let cur := calculateCompositeScore this now profile in
         Ok ({| previous := option_map (of_row this) prev;
                current := cur;
                changed :=
                  match option_map (of_row this) prev with
                  | Some p => neqb (overallScore p) (overallScore cur)
                  | None => false
                  end;
                changeAmount :=
                  match option_map (of_row this) prev with
                  | Some p => overallScore cur - overallScore p
                  | None => overallScore cur
                  end |},
             {| candidateProfile := candidateProfile db;
                candidateScore :=
                  upsert now (option_map id prev) (cp_id cp) cur
                         (candidateScore db) |}).
Proof.
  intros H. destruct (aggregateProfile_found now userId db cp H) as [pr Hp].
  exists pr. split; [exact Hp|].
  unfold calculateAndStoreScore. rewrite H, Hp. reflexivity.
Qed.

(** After a call the newest row of the candidate carries the overall score
    that the call computed. *)
Lemma stored_latest now cid c rows :
  let prev := hd_error (sort_by (fun a b => inject_Z (createdAt b)
                                            - inject_Z (createdAt a))
                                (filter (fun r => Nat.eqb (cs_candidateId r) cid)
                                        rows)) in
  exists row,
    hd_error (sort_by (fun a b => inject_Z (createdAt b)
                                  - inject_Z (createdAt a))
                      (filter (fun r => Nat.eqb (cs_candidateId r) cid)
                              (upsert now (option_map id prev) cid c rows)))
    = Some row
    /\ compositeScore row = overallScore c.
Proof.
  intros prev.
  set (cmp := fun a b => inject_Z (createdAt b) - inject_Z (createdAt a)) in *.
  set (mine := fun r => Nat.eqb (cs_candidateId r) cid) in *.
  destruct prev as [p|] eqn:Ep; unfold prev in Ep; simpl.
  - assert (Hin : In p rows).
    { assert (H : In p (sort_by cmp (filter mine rows))).
      { destruct (sort_by cmp (filter mine rows)); simpl in Ep;
          [discriminate | injection Ep as ->; left; reflexivity]. }
      apply sort_by_in, filter_In in H. tauto. }
    rewrite upsert_update.
    2:{ apply existsb_exists. exists p. split; [exact Hin | apply Nat.eqb_refl]. }
    set (upd := fun r => if Nat.eqb (id r) (id p) then updated_row now c r else r).
    rewrite filter_map_commute.
    2:{ intros a. unfold upd, mine. destruct (Nat.eqb (id a) (id p)); reflexivity. }
    rewrite sort_by_map.
    2:{ intros a b. unfold upd, cmp.
        destruct (Nat.eqb (id a) (id p)), (Nat.eqb (id b) (id p)); reflexivity. }
    destruct (sort_by cmp (filter mine rows)) as [|q s]; simpl in Ep;
      [discriminate|]. injection Ep as ->. simpl.
    eexists. split; [reflexivity|].
    unfold upd. rewrite Nat.eqb_refl. reflexivity.
  - assert (Hnil : filter mine rows = []).
    { apply (sort_by_nil cmp). destruct (sort_by cmp (filter mine rows));
        [reflexivity | discriminate]. }
    destruct (upsert_create now cid c rows) as (row & -> & Hc & Hs & _).
    rewrite filter_app, Hnil. simpl. unfold mine at 1. rewrite Hc, Nat.eqb_refl.
    simpl. exists row. split; [reflexivity | exact Hs].
Qed.

Lemma findFirst_same_scores userId db db' cp cp' :
  same_scores userId db db' ->
  findUnique db userId = Some cp -> findUnique db' userId = Some cp' ->
  findFirst db' (cp_id cp') = findFirst db (cp_id cp).
Proof.
  intros [Hs Hc] H H'. rewrite H, H' in Hc. simpl in Hc.
  injection Hc as Hc. unfold findFirst, scores_desc. rewrite Hs, Hc.
  reflexivity.
Qed.

Lemma neqb_true x y : neqb x y = true <-> ~ x == y.
Proof.
  unfold neqb. rewrite negb_true_iff. split.
  - intros H E. apply Qeq_bool_iff in E. congruence.
  - intros H. destruct (Qeq_bool x y) eqn:E; [|reflexivity].
    apply Qeq_bool_iff in E. contradiction.
Qed.

Lemma neqb_false x y : neqb x y = false <-> x == y.
Proof.
  unfold neqb. rewrite negb_false_iff. apply Qeq_bool_iff.
Qed.

(** One call, seen from the next one. *)
Lemma next_call_previous this now userId db cp r db' :
  findUnique db userId = Some cp ->
  calculateAndStoreScore this now userId db = Ok (r, db') ->
  findUnique db' userId = Some cp
  /\ exists row, findFirst db' (cp_id cp) = Some row
                 /\ compositeScore row = overallScore (current r).
Proof.
  intros Hcp Hcall.
  destruct (calculateAndStoreScore_found this now userId db cp Hcp)
    as (pr & _ & E).
  rewrite E in Hcall. cbv zeta in Hcall. injection Hcall as <- <-.
  split; [exact Hcp|].
  unfold findFirst, scores_desc. simpl.
  apply (stored_latest now (cp_id cp) (calculateCompositeScore this now pr)
                       (candidateScore db)).
Qed.

Lemma call_after this now now' userId db cp r db' db1 r' db1' :
  findUnique db userId = Some cp ->
  calculateAndStoreScore this now userId db = Ok (r, db') ->
  same_scores userId db' db1 ->
  calculateAndStoreScore this now' userId db1 = Ok (r', db1') ->
  (exists cp1, findUnique db1 userId = Some cp1)
  /\ changed r' = neqb (overallScore (current r)) (overallScore (current r'))
  /\ changeAmount r' = overallScore (current r') - overallScore (current r).
Proof.
  intros Hcp Hcall Hsame Hcall'.
  destruct (next_call_previous _ _ _ _ _ _ _ Hcp Hcall) as (Hcp' & row & Hrow & Hsc).
  destruct (findUnique db1 userId) as [cp1|] eqn:Hcp1.
  2:{ unfold calculateAndStoreScore in Hcall'. rewrite Hcp1 in Hcall'.
      discriminate. }
  split; [eauto|].
  pose proof (findFirst_same_scores userId db' db1 cp cp1 Hsame Hcp' Hcp1) as Hf.
  destruct (calculateAndStoreScore_found this now' userId db1 cp1 Hcp1)
    as (pr & _ & E).
  rewrite E in Hcall'. cbv zeta in Hcall'. injection Hcall' as <- _.
  rewrite Hf, Hrow. simpl. rewrite Hsc. split; reflexivity.
Qed.

(** C3: for a candidate that exists the call returns; [changed] holds
    exactly when a previous snapshot (the newest stored row) exists and its
    overall score is not the current one; [changeAmount] is the current
    overall score minus the previous one, or the current one without a
    previous snapshot; and over three calls whose overall scores are 50, 50
    and 70 the second reports no change and amount 0, the third a change
    and amount 20. *)
Theorem change_detection :
  (forall this now userId db cp,
      findUnique db userId = Some cp ->
      exists r db',
        calculateAndStoreScore this now userId db = Ok (r, db')
        /\ previous r = option_map (of_row this) (findFirst db (cp_id cp))
        /\ (changed r = true <->
            exists prev, previous r = Some prev
                         /\ ~ overallScore prev == overallScore (current r))
        /\ (forall prev, previous r = Some prev ->
                         changeAmount r
                         = overallScore (current r) - overallScore prev)
        /\ (previous r = None -> changeAmount r = overallScore (current r)))
  /\ (forall this t1 t2 t3 userId db0 cp r1 db1 db1' r2 db2 db2' r3 db3,
         findUnique db0 userId = Some cp ->
         calculateAndStoreScore this t1 userId db0 = Ok (r1, db1) ->
         same_scores userId db1 db1' ->
         calculateAndStoreScore this t2 userId db1' = Ok (r2, db2) ->
         same_scores userId db2 db2' ->
         calculateAndStoreScore this t3 userId db2' = Ok (r3, db3) ->
         overallScore (current r1) == 50 ->
         overallScore (current r2) == 50 ->
         overallScore (current r3) == 70 ->
         changed r2 = false /\ changeAmount r2 == 0
         /\ changed r3 = true /\ changeAmount r3 == 20).
Proof.
  split.
  - intros this now userId db cp Hcp.
    destruct (calculateAndStoreScore_found this now userId db cp Hcp)
      as (pr & _ & E).
    rewrite E. cbv zeta. eexists. eexists. split; [reflexivity|].
    cbn [previous current changed changeAmount].
    split; [reflexivity|].
    destruct (option_map (of_row this) (findFirst db (cp_id cp))) as [p|].
    + split; [|split].
      * rewrite neqb_true. split.
        -- intros H. exists p. split; [reflexivity | exact H].
        -- intros (prev & Hprev & H). injection Hprev as ->. exact H.
      * intros prev Hprev. injection Hprev as ->. reflexivity.
      * discriminate.
    + split; [|split].
      * split; [discriminate|]. intros (prev & Hprev & _). discriminate.
      * discriminate.
      * reflexivity.
  - intros this t1 t2 t3 userId db0 cp r1 db1 db1' r2 db2 db2' r3 db3
           Hcp H1 S1 H2 S2 H3 E1 E2 E3.
    destruct (call_after _ _ _ _ _ _ _ _ _ _ _ Hcp H1 S1 H2)
      as ((cp1 & Hcp1) & Hc2 & Ha2).
    destruct (call_after _ _ _ _ _ _ _ _ _ _ _ Hcp1 H2 S2 H3)
      as (_ & Hc3 & Ha3).
    rewrite Hc2, Ha2, Hc3, Ha3. repeat split.
    + apply neqb_false. rewrite E1, E2. reflexivity.
    + rewrite E1, E2. reflexivity.
    + apply neqb_true. rewrite E2, E3. discriminate.
    + rewrite E2, E3. reflexivity.
Qed.

Lemma change_detection_witness :
  (exists r db',
      calculateAndStoreScore aggregationService 1000 "u1" db_50 = Ok (r, db')
      /\ previous r = None)
  /\ match three_calls with
     | Ok (_, r2, r3, _) =>
         changed r2 = false /\ changeAmount r2 == 0
         /\ changed r3 = true /\ changeAmount r3 == 20
     | Throw _ => False
     end.
Proof.
  split.
  - destruct (proj1 change_detection aggregationService 1000%Z "u1"%string db_50
                _ eq_refl) as (r & db' & H & Hp & _).
    exists r, db'. split; [exact H | exact Hp].
  - pose (c1 := calculateAndStoreScore aggregationService 1000 "u1" db_50).
    pose (c2 := r1 <- c1 ;;
                calculateAndStoreScore aggregationService 2000 "u1" (snd r1)).
    pose (c3 := r2 <- c2 ;;
                calculateAndStoreScore aggregationService 3000 "u1"
                  (refreshed 70 (snd r2))).
    let v1 := eval vm_compute in c1 in
    let v2 := eval vm_compute in c2 in
    let v3 := eval vm_compute in c3 in
    match constr:((v1, v2, v3)) with
    | (Ok (?r1, ?db1), Ok (?r2, ?db2), Ok (?r3, ?db3)) =>
        exact (proj2 change_detection aggregationService 1000%Z 2000%Z 3000%Z
                 "u1"%string db_50 _ r1 db1 db1 r2 db2 (refreshed 70 db2)
                 r3 db3 eq_refl eq_refl (conj eq_refl eq_refl) eq_refl
                 (conj eq_refl eq_refl) eq_refl eq_refl eq_refl eq_refl)
    end.
Defined.

(** A call for a candidate that has a stored score leaves the number of
    stored rows as it was: the newest row is rewritten. *)
Lemma score_rows_do_not_grow this now userId db cp row r db' :
  findUnique db userId = Some cp ->
  findFirst db (cp_id cp) = Some row ->
  calculateAndStoreScore this now userId db = Ok (r, db') ->
  List.length (candidateScore db') = List.length (candidateScore db).
Proof.
  intros Hcp Hrow Hcall.
  destruct (calculateAndStoreScore_found this now userId db cp Hcp)
    as (pr & _ & E).
  rewrite E in Hcall. cbv zeta in Hcall. injection Hcall as _ <-.
  rewrite Hrow. simpl. rewrite upsert_update.
  - apply length_map.
  - apply existsb_exists. exists row. split; [|apply Nat.eqb_refl].
    unfold findFirst, scores_desc in Hrow.
    assert (H : In row (sort_by (fun a b => inject_Z (createdAt b)
                                            - inject_Z (createdAt a))
                         (filter (fun r => Nat.eqb (cs_candidateId r) (cp_id cp))
                                 (candidateScore db)))).
    { destruct (sort_by _ _); simpl in Hrow;
        [discriminate | injection Hrow as ->; left; reflexivity]. }
    apply sort_by_in, filter_In in H. tauto.
Qed.

(** C2, the code at the failing input: three calls for the same candidate
    leave one stored row, so the history has one entry and not three; the
    row keeps the id and creation time of the first call and carries the
    score of the last one. *)
Theorem history_after_three_calls :
  match three_calls with
  | Ok (r1, _, r3, db3) =>
      List.length (getScoreHistory aggregationService "u1" 10 db3) = 1%nat
      /\ map overallScore (getScoreHistory aggregationService "u1" 10 db3)
         = [overallScore (current r3)]
      /\ map (fun row => (id row, createdAt row, updatedAt row))
             (candidateScore db3) = [(1%nat, 1000%Z, 3000%Z)]
      /\ overallScore (current r1) == 50
      /\ overallScore (current r3) == 70
  | Throw _ => False
  end.
Proof.
  vm_compute. repeat split; reflexivity.
Qed.

Lemma filter_none_seen (l : list string) :
  filter (fun s => negb (mem s [])) l = l.
Proof.
  induction l as [|x l IH]; [reflexivity|].
  cbn [filter mem existsb negb]. f_equal. exact IH.
Qed.

(** The previous score that the service hands over never carries
    recommendations, so the hook finds every current one new. *)
Lemma newRecs_all_current this now userId db r db' :
  calculateAndStoreScore this now userId db = Ok (r, db') ->
  Notification.newRecs_of r = recommendations (current r).
Proof.
  intros Hcall. unfold calculateAndStoreScore in Hcall.
  destruct (findUnique db userId) as [cp|]; [|discriminate].
  destruct (aggregateProfile now userId db) as [pr|]; [|discriminate].
  simpl in Hcall. injection Hcall as <- _.
  unfold Notification.newRecs_of. simpl.
  destruct (findFirst db (cp_id cp)); simpl; [|reflexivity].
  apply filter_none_seen.
Qed.

(** C9, the code at the failing input: the same data recalculated twice.
    The second run has the recommendations of the first, none is new; the
    previous score handed to the hook carries an empty list, and a second
    new-recommendations notification goes out, with all of them. *)
Theorem new_recommendations_repeat :
  match two_updates with
  | Ok (r1, r2, (_, store)) =>
      recommendations (current r2) = recommendations (current r1)
      /\ option_map recommendations (previous r2) = Some []
      /\ filter (fun s => negb (mem s (recommendations (current r1))))
                (recommendations (current r2)) = []
      /\ map (fun n => (Notification.type n, Notification.data n,
                        Notification.n_createdAt n))
             (Notification.store_get store "u1")
         = [ (Notification.NEW_RECOMMENDATION,
              Notification.Recommendations (recommendations (current r2)),
              2000%Z);
             (Notification.NEW_RECOMMENDATION,
              Notification.Recommendations (recommendations (current r1)),
              1000%Z) ]
  | Throw _ => False
  end.
Proof.
  vm_compute. repeat split; reflexivity.
Qed.

(** ** The calculators *)

Lemma div_ok a b : ~ b == 0 -> div a b = Ok (a / b).
Proof.
  intros H. unfold div. destruct (Qeq_bool b 0) eqn:E; [|reflexivity].
  apply Qeq_bool_iff in E. contradiction.
Qed.

Lemma max_1_nonzero x : ~ Math_max x 1 == 0.
Proof.
  intros H. pose proof (Q.le_max_r x 1) as Hm. unfold Math_max in H.
  rewrite H in Hm. apply (Qle_not_lt _ _ Hm). reflexivity.
Qed.


Lemma max_1_l x : 0 < Math_max 1 x.
Proof.
  apply Qlt_le_trans with 1; [reflexivity | apply Q.le_max_l].
Qed.

Lemma len_filter_le {A} (p : A -> bool) (l : list A) : len (filter p l) <= len l.
Proof.
  unfold len. rewrite <- Zle_Qle. apply inj_le. apply filter_length_le.
Qed.

Lemma len_nonzero {A} (l : list A) : Qeq_bool (len l) 0 = false -> 0 < len l.
Proof.
  intros H. destruct l; [discriminate|].
  unfold len. change 0 with (inject_Z 0). rewrite <- Zlt_Qlt. simpl. lia.
Qed.

Lemma len_ge_1 {A} (l : list A) : 0 < len l -> 1 <= len l.
Proof.
  unfold len. change 0 with (inject_Z 0). change 1 with (inject_Z 1).
  rewrite <- Zlt_Qlt, <- Zle_Qle. lia.
Qed.


Lemma div_nonneg a b : 0 <= a -> 0 < b -> 0 <= a / b.
Proof.
  intros Ha Hb. apply Qle_shift_div_l; [exact Hb|]. lra.
Qed.

Lemma div_le_compat a a' b : a <= a' -> 0 < b -> a / b <= a' / b.
Proof.
  intros H Hb. unfold Qdiv. apply Qmult_le_compat_r; [exact H|].
  apply Qlt_le_weak, Qinv_lt_0_compat, Hb.
Qed.

Lemma sum_by_acc {A} (f : A -> Q) (l : list A) (a : Q) :
  fold_left (fun sum x => sum + f x) l a == a + sum_by f l.
Proof.
  unfold sum_by. revert a. induction l as [|x l IH]; intros a; simpl.
  - ring.
  - rewrite IH, (IH (0 + f x)). ring.
Qed.

Lemma sum_by_cons {A} (f : A -> Q) (x : A) (l : list A) :
  sum_by f (x :: l) == f x + sum_by f l.
Proof.
  unfold sum_by at 1. simpl. rewrite sum_by_acc. ring.
Qed.


Lemma sum_by_le {A} (f : A -> Q) (l1 l2 : list A) :
  Forall2 (fun x y => f x <= f y) l1 l2 -> sum_by f l1 <= sum_by f l2.
Proof.
  induction 1 as [|x y l1 l2 Hxy Hl IH].
  - apply Qle_refl.
  - rewrite !sum_by_cons. lra.
Qed.


Lemma min_le_compat x y c : x <= y -> Math_min x c <= Math_min y c.
Proof. apply Q.min_le_compat_r. Qed.



Lemma sat_mono x y c m fx fy :
  x <= y -> fx <= fy -> (x < c -> fx <= m) ->
  (if geb x c then m else fx) <= (if geb y c then m else fy).
Proof.
  intros Hxy Hf Hm. destruct (geb x c) eqn:Ex, (geb y c) eqn:Ey.
  - apply Qle_refl.
  - apply geb_true in Ex. apply geb_false in Ey. lra.
  - apply Hm. apply geb_false. exact Ex.
  - exact Hf.
Qed.

Lemma at_ok {A} (l : list A) (i : nat) :
  (i < List.length l)%nat -> exists a, at_ l i = Ok a /\ In a l.
Proof.
  intros H. unfold at_. destruct (nth_error l i) as [a|] eqn:E.
  - exists a. split; [reflexivity|]. eapply nth_error_In. exact E.
  - apply nth_error_None in E. lia.
Qed.


Lemma avgCommitsPerRepo_ok commits count :
  exists avg, GitHub.avgCommitsPerRepo_of commits count = Ok avg.
Proof.
  unfold GitHub.avgCommitsPerRepo_of. destruct (gtb count 0) eqn:E.
  - rewrite div_ok; [eexists; reflexivity|].
    apply gtb_true in E. intros H. rewrite H in E. discriminate.
  - eexists; reflexivity.
Qed.

(** *** GitHub *)








Lemma gh_overall_mono cq ld cf cs pi cq' ld' cf' cs' pi' :
  cq <= cq' -> ld <= ld' -> cf <= cf' -> cs <= cs' -> pi <= pi' ->
  GitHub.overallScore_of cq ld cf cs pi
  <= GitHub.overallScore_of cq' ld' cf' cs' pi'.
Proof.
  intros. unfold GitHub.overallScore_of. apply Math_round_le. lra.
Qed.

Lemma gh_codeQuality_mono r1 r2 r3 stars stars' :
  stars <= stars' ->
  GitHub.codeQualityScore_of r1 r2 r3 stars
  <= GitHub.codeQualityScore_of r1 r2 r3 stars'.
Proof.
  intros H. unfold GitHub.codeQualityScore_of. apply min_le_compat.
  assert (Math_min (stars / 100) 1 <= Math_min (stars' / 100) 1).
  { apply min_le_compat. qarith. }
  lra.
Qed.

Lemma gh_commitFrequency_mono c c' :
  c <= c' -> GitHub.commitFrequency_of c <= GitHub.commitFrequency_of c'.
Proof.
  intros H. unfold GitHub.commitFrequency_of. apply min_le_compat. qarith.
Qed.

Lemma gh_collaboration_mono a b c a' b' c' :
  a <= a' -> b <= b' -> c <= c' ->
  GitHub.collaborationScore_of a b c <= GitHub.collaborationScore_of a' b' c'.
Proof.
  intros. unfold GitHub.collaborationScore_of. apply min_le_compat. qarith.
Qed.

Lemma gh_projectImpact_mono a b c a' b' c' :
  a <= a' -> b <= b' -> c <= c' ->
  GitHub.projectImpactScore_of a b c <= GitHub.projectImpactScore_of a' b' c'.
Proof.
  intros. unfold GitHub.projectImpactScore_of. apply min_le_compat. qarith.
Qed.




(** *** LinkedIn *)









(** *** Twitter *)

Lemma pos_nonzero x : 0 < x -> ~ x == 0.
Proof. intros H E. rewrite E in H. discriminate. Qed.

Lemma engagementRate_ok followers te n :
  0 < n ->
  exists rate,
    Twitter.engagementRate_of followers te n = Ok rate
    /\ rate = (if gtb followers 0 then te / n / followers * 100 else 0)
    /\ (0 <= te -> 0 <= rate).
Proof.
  intros Hn. unfold Twitter.engagementRate_of.
  destruct (gtb followers 0) eqn:E.
  - apply gtb_true in E.
    rewrite (div_ok _ n) by (apply pos_nonzero; exact Hn). cbn [Js.bind].
    rewrite div_ok by (apply pos_nonzero; exact E). cbn [Js.bind].
    eexists. split; [reflexivity|]. split; [reflexivity|].
    intros Hte.
    assert (0 <= te / n / followers).
    { apply div_nonneg; [apply div_nonneg; assumption | exact E]. }
    lra.
  - eexists. split; [reflexivity|]. split; [reflexivity|]. intros; lra.
Qed.

Lemma tweetsPerWeek_ok (originalTweets : list Twitter.TwitterTweet) :
  exists tpw, Twitter.tweetsPerWeek_of originalTweets = Ok tpw /\ 0 <= tpw.
Proof.
  unfold Twitter.tweetsPerWeek_of. cbv zeta.
  set (sorted := sort_by _ originalTweets).
  destruct (geb (len sorted) 2) eqn:E.
  - apply geb_true in E. unfold len in E. change 2 with (inject_Z 2) in E.
    rewrite <- Zle_Qle in E.
    destruct (at_ok sorted 0) as (a & -> & _); [lia|].
    destruct (at_ok sorted (List.length sorted - 1)) as (b & -> & _); [lia|].
    cbn [Js.bind]. rewrite div_ok by (apply pos_nonzero, max_1_l).
    eexists. split; [reflexivity|].
    apply div_nonneg; [apply len_nonneg | apply max_1_l].
  - eexists. split; [reflexivity | lra].
Qed.









(** *** Blog *)

Lemma monthsActive_ok (posts : list Blog.BlogPost) :
  posts <> [] ->
  exists months, Blog.monthsActive_of posts = Ok months /\ 0 < months.
Proof.
  intros Hne. unfold Blog.monthsActive_of. cbv zeta.
  set (sorted := sort_by _ posts).
  assert (Hlen : (0 < List.length sorted)%nat).
  { unfold sorted. rewrite sort_by_length. destruct posts; simpl;
      [congruence | lia]. }
  destruct (at_ok sorted 0) as (a & -> & _); [lia|].
  destruct (at_ok sorted (List.length sorted - 1)) as (b & -> & _); [lia|].
  cbn [Js.bind]. eexists. split; [reflexivity | apply max_1_l].
Qed.







(** ** Bounds (C4) *)










(** ** Empty activity (C5) *)

(** C5: with no repository, no experience entry, no tweet or no post the
    calculator returns metrics: no division by zero and no read of a
    missing element is met; the recommendations hold an entry that asks
    for activity. *)
Theorem empty_activity_safe :
  (forall sixMonthsAgo profile stats,
      exists m,
        GitHub.calculateMetrics sixMonthsAgo profile [] stats = Ok m
        /\ In "Keep more projects actively maintained"%string
              (GitHub.recommendations m))
  /\ (forall now profile education skills certifications,
         exists m,
           LinkedIn.calculateMetrics now profile [] education skills
                                     certifications = Ok m
           /\ In "Gain more professional experience"%string
                 (LinkedIn.recommendations m))
  /\ (forall profile,
         exists m,
           Twitter.calculateMetrics profile [] = Ok m
           /\ Twitter.recommendations m
              = ["Tweet more to build your social presence"%string])
  /\ (forall profile,
         exists m,
           Blog.calculateMetrics profile [] = Ok m
           /\ Blog.recommendations m
              = ["Start writing blog posts to build your content portfolio"
                   %string]).
Proof.
  split; [|split; [|split]].
  - intros six profile stats. unfold GitHub.calculateMetrics. cbv zeta.
    cbn [filter]. rewrite !div_ok by apply max_1_nonzero. cbn [Js.bind].
    destruct (avgCommitsPerRepo_ok (GitHub.totalCommits stats)
                (len (@nil GitHub.GitHubRepository))) as [avg ->].
    cbn [Js.bind]. eexists. split; [reflexivity|].
    cbn [GitHub.recommendations]. rewrite !in_app_iff.
    do 5 right. left. left. reflexivity.
  - intros now profile education skills certifications.
    unfold LinkedIn.calculateMetrics. cbv zeta. cbn [filter fold_left].
    rewrite div_ok by apply max_1_nonzero. cbn [Js.bind].
    eexists. split; [reflexivity|].
    cbn [LinkedIn.recommendations]. rewrite !in_app_iff.
    left. left. reflexivity.
  - intros profile. eexists. split; reflexivity.
  - intros profile. eexists. split; reflexivity.
Qed.

(** ** Monotonicity (C6) *)

Section Related.

Context {A : Type} (R : A -> A -> Prop).

Lemma Forall2_filter (p : A -> bool) (l l' : list A) :
  (forall a b, R a b -> p a = p b) ->
  Forall2 R l l' -> Forall2 R (filter p l) (filter p l').
Proof.
  intros Hp. induction 1 as [|a b l l' Hab _ IH]; simpl; [constructor|].
  rewrite <- (Hp a b Hab). destruct (p a); [constructor|]; assumption.
Qed.

Lemma Forall2_len (l l' : list A) : Forall2 R l l' -> len l = len l'.
Proof.
  intros H. unfold len. rewrite (Forall2_length H). reflexivity.
Qed.

Lemma Forall2_filter_len (p : A -> bool) (l l' : list A) :
  (forall a b, R a b -> p a = p b) ->
  Forall2 R l l' -> len (filter p l) = len (filter p l').
Proof.
  intros Hp H. apply Forall2_len, Forall2_filter; assumption.
Qed.

Lemma Forall2_sum_by (f : A -> Q) (l l' : list A) :
  (forall a b, R a b -> f a <= f b) ->
  Forall2 R l l' -> sum_by f l <= sum_by f l'.
Proof.
  intros Hf H. apply sum_by_le. eapply Forall2_impl; [|exact H].
  exact Hf.
Qed.

Lemma Forall2_flat_map {B} (f : A -> list B) (l l' : list A) :
  (forall a b, R a b -> f a = f b) ->
  Forall2 R l l' -> flat_map f l = flat_map f l'.
Proof.
  intros Hf. induction 1 as [|a b l l' Hab _ IH]; simpl; [reflexivity|].
  rewrite (Hf a b Hab), IH. reflexivity.
Qed.

Lemma Forall2_existsb (p : A -> bool) (l l' : list A) :
  (forall a b, R a b -> p a = p b) ->
  Forall2 R l l' -> existsb p l = existsb p l'.
Proof.
  intros Hp. induction 1 as [|a b l l' Hab _ IH]; simpl; [reflexivity|].
  rewrite (Hp a b Hab), IH. reflexivity.
Qed.

Lemma Forall2_insert_by (cmp : A -> A -> Q) x x' (l l' : list A) :
  (forall a a' b b', R a a' -> R b b' -> cmp a b = cmp a' b') ->
  R x x' -> Forall2 R l l' ->
  Forall2 R (insert_by cmp x l) (insert_by cmp x' l').
Proof.
  intros Hc Hx. induction 1 as [|a b l l' Hab Hl IH]; simpl.
  - constructor; [exact Hx | constructor].
  - rewrite <- (Hc x x' a b Hx Hab).
    destruct (Qle_bool (cmp x a) 0); repeat constructor; assumption.
Qed.

Lemma Forall2_sort_by (cmp : A -> A -> Q) (l l' : list A) :
  (forall a a' b b', R a a' -> R b b' -> cmp a b = cmp a' b') ->
  Forall2 R l l' -> Forall2 R (sort_by cmp l) (sort_by cmp l').
Proof.
  intros Hc. induction 1 as [|a b l l' Hab _ IH]; simpl; [constructor|].
  apply Forall2_insert_by; assumption.
Qed.

Lemma Forall2_at (l l' : list A) (i : nat) :
  Forall2 R l l' ->
  match at_ l i, at_ l' i with
  | Ok a, Ok a' => R a a'
  | Throw e, Throw e' => e = e'
  | _, _ => False
  end.
Proof.
  intros H. revert i. unfold at_.
  induction H as [|a b l l' Hab _ IH]; intros [|i]; simpl; auto.
  apply IH.
Qed.

End Related.

(** *** GitHub *)

Lemma github_language_names (own own' : list GitHub.GitHubRepository) :
  Forall2 github_repo_le own own' ->
  map fst (GitHub.language_entries own)
  = map fst (GitHub.language_entries own').
Proof.
  unfold GitHub.language_entries.
  induction 1 as [|a b l l' Hab _ IH]; simpl; [reflexivity|].
  rewrite !map_app, IH. destruct Hab as (_ & _ & -> & _). reflexivity.
Qed.

(** The GitHub overall score does not drop when numeric inputs grow. *)
Lemma github_monotone sixMonthsAgo profile profile' repositories repositories'
      stats stats' :
  github_profile_le profile profile' ->
  Forall2 github_repo_le repositories repositories' ->
  github_stats_le stats stats' ->
  exists m m',
    GitHub.calculateMetrics sixMonthsAgo profile repositories stats = Ok m
    /\ GitHub.calculateMetrics sixMonthsAgo profile' repositories' stats'
       = Ok m'
    /\ GitHub.overallScore m <= GitHub.overallScore m'.
Proof.
  intros (_ & _ & Hfol & _) Hrepos (Hc & Hp & Hi & Hv & _).
  unfold GitHub.calculateMetrics. cbv zeta.
  set (own := filter (fun r => negb (GitHub.isForked r)) repositories).
  set (own' := filter (fun r => negb (GitHub.isForked r)) repositories').
  assert (Hown : Forall2 github_repo_le own own').
  { apply Forall2_filter; [|exact Hrepos].
    intros a b (_ & _ & _ & _ & _ & _ & _ & _ & _ & -> & _). reflexivity. }
  rewrite !div_ok by apply max_1_nonzero. cbn [Js.bind].
  destruct (avgCommitsPerRepo_ok (GitHub.totalCommits stats) (len own))
    as [avg ->].
  destruct (avgCommitsPerRepo_ok (GitHub.totalCommits stats') (len own'))
    as [avg' ->].
  cbn [Js.bind]. eexists. eexists. split; [reflexivity|].
  split; [reflexivity|]. cbn [GitHub.overallScore].
  rewrite <- (Forall2_len _ _ _ Hown).
  rewrite <- (github_language_names _ _ Hown).
  rewrite <- (Forall2_filter_len github_repo_le
                (fun r => truthy (GitHub.description r)) own own').
  2:{ intros a b (_ & -> & _). reflexivity. }
  2:{ exact Hown. }
  rewrite <- (Forall2_filter_len github_repo_le
                (fun r => truthy (GitHub.license r)) own own').
  2:{ intros a b (_ & _ & _ & _ & _ & _ & _ & _ & _ & _ & _ & ->).
      reflexivity. }
  2:{ exact Hown. }
  rewrite <- (Forall2_filter_len github_repo_le
                (fun r => gtb (len (GitHub.topics r)) 0) own own').
  2:{ intros a b (_ & _ & _ & _ & _ & _ & _ & _ & _ & _ & -> & _).
      reflexivity. }
  2:{ exact Hown. }
  assert (Hstars : sum_by GitHub.stargazersCount own
                   <= sum_by GitHub.stargazersCount own').
  { apply (Forall2_sum_by github_repo_le); [|exact Hown].
    intros a b H. apply H. }
  assert (Hforks : sum_by GitHub.forksCount own
                   <= sum_by GitHub.forksCount own').
  { apply (Forall2_sum_by github_repo_le); [|exact Hown].
    intros a b H. apply H. }
  apply gh_overall_mono.
  - apply gh_codeQuality_mono, Hstars.
  - apply Qle_refl.
  - apply gh_commitFrequency_mono, Hc.
  - apply gh_collaboration_mono; assumption.
  - apply gh_projectImpact_mono; assumption.
Qed.

(** *** LinkedIn *)

Lemma li_skills_mono count e e' :
  e <= e' -> LinkedIn.skillsScore_of count e <= LinkedIn.skillsScore_of count e'.
Proof.
  intros H. unfold LinkedIn.skillsScore_of. apply min_le_compat.
  apply Qplus_le_compat; [apply Qle_refl|].
  apply sat_mono; [exact H | exact H | intros; lra].
Qed.

Lemma li_network_mono c c' :
  c <= c' -> LinkedIn.networkScore_of c <= LinkedIn.networkScore_of c'.
Proof.
  intros H. unfold LinkedIn.networkScore_of. apply min_le_compat.
  apply sat_mono; [exact H | qarith | intros; qarith].
Qed.

Lemma li_overall_mono e d s n e' d' s' n' :
  e <= e' -> d <= d' -> s <= s' -> n <= n' ->
  LinkedIn.overallScore_of e d s n <= LinkedIn.overallScore_of e' d' s' n'.
Proof.
  intros. unfold LinkedIn.overallScore_of. apply Math_round_le. lra.
Qed.

(** The LinkedIn overall score does not drop when numeric inputs grow. *)
Lemma linkedin_monotone now profile profile' experiences education education'
      skills skills' certifications :
  linkedin_profile_le profile profile' ->
  Forall2 linkedin_education_le education education' ->
  Forall2 linkedin_skill_le skills skills' ->
  exists m m',
    LinkedIn.calculateMetrics now profile experiences education skills
                              certifications = Ok m
    /\ LinkedIn.calculateMetrics now profile' experiences education' skills'
                                 certifications = Ok m'
    /\ LinkedIn.overallScore m <= LinkedIn.overallScore m'.
Proof.
  intros (_ & _ & _ & Hconn & _) Hedu Hskills.
  unfold LinkedIn.calculateMetrics. cbv zeta.
  rewrite !div_ok by apply max_1_nonzero. cbn [Js.bind].
  eexists. eexists. split; [reflexivity|]. split; [reflexivity|].
  cbn [LinkedIn.overallScore].
  rewrite <- (Forall2_len _ _ _ Hedu), <- (Forall2_len _ _ _ Hskills).
  rewrite <- (Forall2_existsb linkedin_education_le
                (fun e => LinkedIn.degree_includes e "master"
                          || LinkedIn.degree_includes e "phd"
                          || LinkedIn.degree_includes e "mba")%bool
                education education').
  2:{ intros a b (_ & Hd & _). unfold LinkedIn.degree_includes.
      rewrite Hd. reflexivity. }
  2:{ exact Hedu. }
  rewrite <- (Forall2_existsb linkedin_education_le
                (fun e => truthy (LinkedIn.fieldOfStudy e))
                education education').
  2:{ intros a b (_ & _ & -> & _). reflexivity. }
  2:{ exact Hedu. }
  apply li_overall_mono.
  - apply Qle_refl.
  - apply Qle_refl.
  - apply li_skills_mono. apply (Forall2_sum_by linkedin_skill_le);
      [|exact Hskills]. intros a b H. apply H.
  - apply li_network_mono, Hconn.
Qed.

(** *** Twitter *)

Lemma tw_engagement_mono l r e l' r' e' :
  l <= l' -> r <= r' -> e <= e' ->
  Twitter.engagementScore_of l r e <= Twitter.engagementScore_of l' r' e'.
Proof.
  intros Hl Hr He. unfold Twitter.engagementScore_of. apply min_le_compat.
  repeat apply Qplus_le_compat; apply sat_mono; try assumption;
    try lra; intros; lra.
Qed.

Lemma tw_influence_mono f l l' v :
  l <= l' ->
  Twitter.influenceScore_of f l v <= Twitter.influenceScore_of f l' v.
Proof.
  intros Hl. unfold Twitter.influenceScore_of. apply min_le_compat.
  apply Qplus_le_compat; [|apply Qle_refl].
  apply Qplus_le_compat; [apply Qle_refl|].
  apply sat_mono; [exact Hl | qarith | intros; qarith].
Qed.

Lemma tw_overall_mono e t i c e' t' i' c' :
  e <= e' -> t <= t' -> i <= i' -> c <= c' ->
  Twitter.overallScore_of e t i c <= Twitter.overallScore_of e' t' i' c'.
Proof.
  intros. unfold Twitter.overallScore_of. apply Math_round_le. lra.
Qed.

Lemma tweetsPerWeek_related (o o' : list Twitter.TwitterTweet) :
  Forall2 twitter_tweet_le o o' ->
  Twitter.tweetsPerWeek_of o = Twitter.tweetsPerWeek_of o'.
Proof.
  intros H. unfold Twitter.tweetsPerWeek_of. cbv zeta.
  set (cmp := fun a b => inject_Z (Twitter.createdAt a)
                         - inject_Z (Twitter.createdAt b)).
  assert (Hs : Forall2 twitter_tweet_le (sort_by cmp o) (sort_by cmp o')).
  { apply Forall2_sort_by; [|exact H].
    intros a a' b b' (_ & Ha & _) (_ & Hb & _). unfold cmp.
    rewrite Ha, Hb. reflexivity. }
  rewrite <- (Forall2_len _ _ _ Hs), <- (Forall2_len _ _ _ H).
  rewrite <- (Forall2_length Hs).
  destruct (geb (len (sort_by cmp o)) 2); [|reflexivity].
  pose proof (Forall2_at _ _ _ 0 Hs) as H0.
  pose proof (Forall2_at _ _ _ (List.length (sort_by cmp o) - 1) Hs) as H1.
  destruct (at_ (sort_by cmp o) 0) as [a|e],
           (at_ (sort_by cmp o') 0) as [a'|e']; try contradiction.
  2:{ subst. reflexivity. }
  cbn [Js.bind].
  destruct (at_ (sort_by cmp o) _) as [b|e],
           (at_ (sort_by cmp o') _) as [b'|e']; try contradiction.
  2:{ subst. reflexivity. }
  cbn [Js.bind].
  destruct H0 as (_ & -> & _). destruct H1 as (_ & -> & _). reflexivity.
Qed.

Lemma engagementRate_mono f te te' n rate rate' :
  0 < n -> te <= te' ->
  rate = (if gtb f 0 then te / n / f * 100 else 0) ->
  rate' = (if gtb f 0 then te' / n / f * 100 else 0) ->
  rate <= rate'.
Proof.
  intros Hn Hte -> ->. destruct (gtb f 0) eqn:E; [|apply Qle_refl].
  apply gtb_true in E.
  assert (te / n / f <= te' / n / f).
  { apply div_le_compat; [apply div_le_compat; assumption | exact E]. }
  lra.
Qed.

(** The Twitter overall score does not drop when numeric inputs other
    than the follower count grow. *)
Lemma twitter_monotone profile profile' tweets tweets' :
  twitter_profile_le profile profile' ->
  Forall2 twitter_tweet_le tweets tweets' ->
  exists m m',
    Twitter.calculateMetrics profile tweets = Ok m
    /\ Twitter.calculateMetrics profile' tweets' = Ok m'
    /\ Twitter.overallScore m <= Twitter.overallScore m'.
Proof.
  intros (_ & _ & Hfol & _ & _ & Hlisted & Hver) Htweets.
  unfold Twitter.calculateMetrics. cbv zeta.
  set (orig := filter (fun t => negb (Twitter.isRetweet t)) tweets).
  set (orig' := filter (fun t => negb (Twitter.isRetweet t)) tweets').
  assert (Ho : Forall2 twitter_tweet_le orig orig').
  { apply Forall2_filter; [|exact Htweets].
    intros a b (_ & _ & _ & _ & _ & _ & _ & -> & _). reflexivity. }
  rewrite <- (Forall2_len _ _ _ Ho), <- Hfol, <- Hver.
  destruct (Qeq_bool (len orig) 0) eqn:E0.
  - eexists. eexists. split; [reflexivity|]. split; [reflexivity|].
    apply Qle_refl.
  - apply len_nonzero in E0.
    rewrite !(div_ok _ (len orig)) by (apply pos_nonzero; exact E0).
    cbn [Js.bind].
    destruct (engagementRate_ok (Twitter.followers profile)
                (sum_by Twitter.likes orig + sum_by Twitter.retweets orig * 2)
                (len orig) E0) as (rate & -> & Hrate & _).
    destruct (engagementRate_ok (Twitter.followers profile)
                (sum_by Twitter.likes orig' + sum_by Twitter.retweets orig' * 2)
                (len orig) E0) as (rate' & -> & Hrate' & _).
    cbn [Js.bind].
    rewrite <- (tweetsPerWeek_related _ _ Ho).
    destruct (tweetsPerWeek_ok orig) as (tpw & -> & _). cbn [Js.bind].
    eexists. eexists. split; [reflexivity|]. split; [reflexivity|].
    cbn [Twitter.overallScore].
    rewrite <- (Forall2_filter_len twitter_tweet_le Twitter.isTechnicalTweet
                  orig orig').
    2:{ intros a b (Ht & _ & _ & _ & _ & _ & _ & _ & _ & Hh).
        unfold Twitter.isTechnicalTweet. rewrite Ht, Hh. reflexivity. }
    2:{ exact Ho. }
    assert (Hlikes : sum_by Twitter.likes orig <= sum_by Twitter.likes orig').
    { apply (Forall2_sum_by twitter_tweet_le); [|exact Ho].
      intros a b H. apply H. }
    assert (Hrts : sum_by Twitter.retweets orig
                   <= sum_by Twitter.retweets orig').
    { apply (Forall2_sum_by twitter_tweet_le); [|exact Ho].
      intros a b H. apply H. }
    apply tw_overall_mono.
    + apply tw_engagement_mono.
      * apply div_le_compat; assumption.
      * apply div_le_compat; assumption.
      * eapply engagementRate_mono; [exact E0 | | exact Hrate | exact Hrate'].
        lra.
    + apply Qle_refl.
    + apply tw_influence_mono, Hlisted.
    + apply Qle_refl.
Qed.

(** *** Blog *)

Lemma blog_content_mono a a' c e n :
  a <= a' ->
  Blog.contentQualityScore_of a c e n <= Blog.contentQualityScore_of a' c e n.
Proof.
  intros H. unfold Blog.contentQualityScore_of. apply min_le_compat.
  repeat apply Qplus_le_compat; try apply Qle_refl.
  apply sat_mono; [exact H | lra | intros; lra].
Qed.

Lemma blog_engagement_mono r c f r' c' f' :
  r <= r' -> c <= c' -> f <= f' ->
  Blog.engagementScore_of r c f <= Blog.engagementScore_of r' c' f'.
Proof.
  intros. unfold Blog.engagementScore_of. apply min_le_compat.
  repeat apply Qplus_le_compat; apply sat_mono; try assumption;
    try lra; intros; lra.
Qed.

Lemma blog_overall_mono q c e t q' c' e' t' :
  q <= q' -> c <= c' -> e <= e' -> t <= t' ->
  Blog.overallScore_of q c e t <= Blog.overallScore_of q' c' e' t'.
Proof.
  intros. unfold Blog.overallScore_of. apply Math_round_le. lra.
Qed.

Lemma monthsActive_related (posts posts' : list Blog.BlogPost) :
  Forall2 blog_post_le posts posts' ->
  Blog.monthsActive_of posts = Blog.monthsActive_of posts'.
Proof.
  intros H. unfold Blog.monthsActive_of. cbv zeta.
  set (cmp := fun a b => inject_Z (Blog.publishedAt a)
                         - inject_Z (Blog.publishedAt b)).
  assert (Hs : Forall2 blog_post_le (sort_by cmp posts) (sort_by cmp posts')).
  { apply Forall2_sort_by; [|exact H].
    intros a a' b b' (_ & _ & _ & Ha & _) (_ & _ & _ & Hb & _). unfold cmp.
    rewrite Ha, Hb. reflexivity. }
  rewrite <- (Forall2_length Hs).
  pose proof (Forall2_at _ _ _ 0 Hs) as H0.
  pose proof (Forall2_at _ _ _ (List.length (sort_by cmp posts) - 1) Hs) as H1.
  destruct (at_ (sort_by cmp posts) 0) as [a|e],
           (at_ (sort_by cmp posts') 0) as [a'|e']; try contradiction.
  2:{ subst. reflexivity. }
  cbn [Js.bind].
  destruct (at_ (sort_by cmp posts) _) as [b|e],
           (at_ (sort_by cmp posts') _) as [b'|e']; try contradiction.
  2:{ subst. reflexivity. }
  cbn [Js.bind].
  destruct H0 as (_ & _ & _ & -> & _). destruct H1 as (_ & _ & _ & -> & _).
  reflexivity.
Qed.

(** The blog overall score does not drop when numeric inputs grow. *)
Lemma blog_monotone profile profile' posts posts' :
  blog_profile_le profile profile' ->
  Forall2 blog_post_le posts posts' ->
  exists m m',
    Blog.calculateMetrics profile posts = Ok m
    /\ Blog.calculateMetrics profile' posts' = Ok m'
    /\ Blog.overallScore m <= Blog.overallScore m'.
Proof.
  intros (_ & _ & Hfol & _) Hposts.
  unfold Blog.calculateMetrics. cbv zeta.
  rewrite <- (Forall2_len _ _ _ Hposts).
  destruct (Qeq_bool (len posts) 0) eqn:E0.
  - eexists. eexists. split; [reflexivity|]. split; [reflexivity|].
    apply Qle_refl.
  - assert (Hne : posts <> []) by (intros ->; discriminate).
    apply len_nonzero in E0.
    rewrite !(div_ok _ (len posts)) by (apply pos_nonzero; exact E0).
    cbn [Js.bind].
    rewrite <- (monthsActive_related _ _ Hposts).
    destruct (monthsActive_ok posts Hne) as (months & -> & Hm).
    cbn [Js.bind]. rewrite div_ok by (apply pos_nonzero; exact Hm).
    cbn [Js.bind].
    eexists. eexists. split; [reflexivity|]. split; [reflexivity|].
    cbn [Blog.overallScore].
    rewrite <- (Forall2_filter_len blog_post_le
                  (fun p => truthy (Blog.coverImage p)) posts posts').
    2:{ intros a b (_ & _ & _ & _ & _ & _ & _ & _ & ->). reflexivity. }
    2:{ exact Hposts. }
    rewrite <- (Forall2_filter_len blog_post_le Blog.long_excerpt posts posts').
    2:{ intros a b (_ & He & _). unfold Blog.long_excerpt. rewrite He.
        reflexivity. }
    2:{ exact Hposts. }
    rewrite <- (Forall2_flat_map blog_post_le Blog.tags posts posts').
    2:{ intros a b (_ & _ & -> & _). reflexivity. }
    2:{ exact Hposts. }
    apply blog_overall_mono.
    + apply blog_content_mono, div_le_compat; [|exact E0].
      apply (Forall2_sum_by blog_post_le); [|exact Hposts].
      intros a b H. apply H.
    + apply Qle_refl.
    + apply blog_engagement_mono.
      * apply div_le_compat; [|exact E0].
        apply (Forall2_sum_by blog_post_le); [|exact Hposts].
        intros a b H. apply H.
      * apply div_le_compat; [|exact E0].
        apply (Forall2_sum_by blog_post_le); [|exact Hposts].
        intros a b H. apply H.
      * exact Hfol.
    + apply Qle_refl.
Qed.

(** C6, as the code has it: for the GitHub, LinkedIn and blog calculators
    the overall score does not drop when numeric inputs grow and all else
    stays; for the Twitter calculator this holds for every numeric input
    apart from the follower count, which is held fixed here. *)
Theorem numeric_inputs_monotone :
  (forall sixMonthsAgo profile profile' repositories repositories'
          stats stats',
      github_profile_le profile profile' ->
      Forall2 github_repo_le repositories repositories' ->
      github_stats_le stats stats' ->
      exists m m',
        GitHub.calculateMetrics sixMonthsAgo profile repositories stats = Ok m
        /\ GitHub.calculateMetrics sixMonthsAgo profile' repositories' stats'
           = Ok m'
        /\ GitHub.overallScore m <= GitHub.overallScore m')
  /\ (forall now profile profile' experiences education education'
             skills skills' certifications,
         linkedin_profile_le profile profile' ->
         Forall2 linkedin_education_le education education' ->
         Forall2 linkedin_skill_le skills skills' ->
         exists m m',
           LinkedIn.calculateMetrics now profile experiences education skills
                                     certifications = Ok m
           /\ LinkedIn.calculateMetrics now profile' experiences education'
                                        skills' certifications = Ok m'
           /\ LinkedIn.overallScore m <= LinkedIn.overallScore m')
  /\ (forall profile profile' tweets tweets',
         twitter_profile_le profile profile' ->
         Forall2 twitter_tweet_le tweets tweets' ->
         exists m m',
           Twitter.calculateMetrics profile tweets = Ok m
           /\ Twitter.calculateMetrics profile' tweets' = Ok m'
           /\ Twitter.overallScore m <= Twitter.overallScore m')
  /\ (forall profile profile' posts posts',
         blog_profile_le profile profile' ->
         Forall2 blog_post_le posts posts' ->
         exists m m',
           Blog.calculateMetrics profile posts = Ok m
           /\ Blog.calculateMetrics profile' posts' = Ok m'
           /\ Blog.overallScore m <= Blog.overallScore m').
Proof.
  split; [exact github_monotone|]. split; [exact linkedin_monotone|].
  split; [exact twitter_monotone | exact blog_monotone].
Qed.

Lemma numeric_inputs_monotone_witness :
  (exists m m',
      GitHub.calculateMetrics 0 gh_profile [sample_repo 20] gh_stats = Ok m
      /\ GitHub.calculateMetrics 0 gh_profile [sample_repo 120] gh_stats
         = Ok m'
      /\ GitHub.overallScore m <= GitHub.overallScore m')
  /\ (exists m m',
         LinkedIn.calculateMetrics sample_date (li_profile 120) [] []
                                   [sample_skill 3] [] = Ok m
         /\ LinkedIn.calculateMetrics sample_date (li_profile 300) [] []
                                      [sample_skill 9] [] = Ok m'
         /\ LinkedIn.overallScore m <= LinkedIn.overallScore m')
  /\ (exists m m',
         Twitter.calculateMetrics (tw_profile 100) [sample_tweet 1] = Ok m
         /\ Twitter.calculateMetrics (tw_profile 100) [sample_tweet 5] = Ok m'
         /\ Twitter.overallScore m <= Twitter.overallScore m')
  /\ (exists m m',
         Blog.calculateMetrics (blog_profile 10) [sample_post] = Ok m
         /\ Blog.calculateMetrics (blog_profile 50) [sample_post] = Ok m'
         /\ Blog.overallScore m <= Blog.overallScore m').
Proof.
  destruct numeric_inputs_monotone as (Hg & Hl & Ht & Hb).
  split; [|split; [|split]].
  - apply Hg.
    + unfold github_profile_le. cbn. repeat split; lra.
    + constructor; [|constructor]. unfold github_repo_le. cbn.
      repeat split; try lra. repeat constructor; cbn; lra.
    + unfold github_stats_le. cbn. repeat split; lra.
  - apply Hl.
    + unfold linkedin_profile_le. cbn. repeat split; lra.
    + constructor.
    + constructor; [|constructor]. unfold linkedin_skill_le. cbn.
      split; [reflexivity | lra].
  - apply Ht.
    + unfold twitter_profile_le. cbn. repeat split; lra.
    + constructor; [|constructor]. unfold twitter_tweet_le. cbn.
      repeat split; lra.
  - apply Hb.
    + unfold blog_profile_le. cbn. repeat split; lra.
    + constructor; [|constructor]. unfold blog_post_le. cbn.
      repeat split; lra.
Defined.

(** C6, counterexample: one original tweet with one like; with 100
    followers the overall score is 10, with 200 followers it is 6, since
    the engagement rate is taken per follower. *)
Lemma followers_counterexample : ~ twitter_monotone_in_followers.
Proof.
  intros H.
  let v := eval vm_compute in
             (Twitter.calculateMetrics (tw_profile 100) [sample_tweet 1]) in
  let v' := eval vm_compute in
              (Twitter.calculateMetrics (tw_profile 200) [sample_tweet 1]) in
  match constr:((v, v')) with
  | (Ok ?m, Ok ?m') =>
      pose proof (H 100 200 [sample_tweet 1] m m') as Hle
  end.
  assert (Hlt : 100 <= 200) by lra.
  specialize (Hle Hlt eq_refl eq_refl). vm_compute in Hle.
  apply Hle. reflexivity.
Qed.

(** * Further properties

    ** The aggregation service *)

Import AggregationMore MoreSamples.

Lemma aggregate_fold cache conns init :
  let p := fold_left (aggregate_connection cache) conns init in
  let has pl := existsb (fun c => match platform c, pl with
                                  | GITHUB, GITHUB | LINKEDIN, LINKEDIN
                                  | TWITTER, TWITTER | DEVTO, DEVTO
                                  | HASHNODE, HASHNODE | MEDIUM, MEDIUM => true
                                  | _, _ => false
                                  end) conns in
  pf_github p = (if has GITHUB then pf_github cache else pf_github init)
  /\ pf_linkedin p
     = (if has LINKEDIN then pf_linkedin cache else pf_linkedin init)
  /\ pf_twitter p
     = (if has TWITTER then pf_twitter cache else pf_twitter init)
  /\ pf_devto p = (if has DEVTO then pf_devto cache else pf_devto init)
  /\ pf_hashnode p
     = (if has HASHNODE then pf_hashnode cache else pf_hashnode init)
  /\ pf_medium p = (if has MEDIUM then pf_medium cache else pf_medium init).
Proof.
  cbv zeta. revert init. induction conns as [|c conns IH]; intros init.
  - simpl. repeat split.
  - cbn [fold_left existsb]. specialize (IH (aggregate_connection cache init c)).
    destruct IH as (Hg & Hl & Ht & Hd & Hh & Hm).
    rewrite Hg, Hl, Ht, Hd, Hh, Hm. unfold aggregate_connection.
    destruct (platform c); cbn;
      repeat split;
      repeat match goal with
             | |- context [if existsb ?f conns then _ else _] =>
                 destruct (existsb f conns)
             end; reflexivity.
Qed.

(** X1.  [aggregateProfile] fails for a user without a candidate profile;
    otherwise a platform key holds the cached data exactly when the
    candidate is connected to that platform, and is unset when the
    platform is not connected, whatever the cache holds. *)
Theorem aggregate_connected_and_cached now userId db :
  (findUnique db userId = None ->
   aggregateProfile now userId db
   = Throw (NotFound "Candidate profile not found"))
  /\ (forall cp,
         findUnique db userId = Some cp ->
         exists profile,
           aggregateProfile now userId db = Ok profile
           /\ candidateId profile = cp_id cp
           /\ pf_github (platforms profile)
              = (if connected GITHUB cp then pf_github (cachedData cp)
                 else None)
           /\ pf_linkedin (platforms profile)
              = (if connected LINKEDIN cp then pf_linkedin (cachedData cp)
                 else None)
           /\ pf_twitter (platforms profile)
              = (if connected TWITTER cp then pf_twitter (cachedData cp)
                 else None)
           /\ pf_devto (platforms profile)
              = (if connected DEVTO cp then pf_devto (cachedData cp)
                 else None)
           /\ pf_hashnode (platforms profile)
              = (if connected HASHNODE cp then pf_hashnode (cachedData cp)
                 else None)
           /\ pf_medium (platforms profile)
              = (if connected MEDIUM cp then pf_medium (cachedData cp)
                 else None)).
Proof.
  split.
  - intros H. unfold aggregateProfile. rewrite H. reflexivity.
  - intros cp H. unfold aggregateProfile. rewrite H.
    eexists. split; [reflexivity|]. split; [reflexivity|].
    cbn [platforms].
    exact (aggregate_fold (cachedData cp) (platformConnections cp)
                          no_platforms).
Qed.

Lemma aggregate_connected_and_cached_witness :
  exists profile,
    aggregateProfile 0 "u1" partly_cached = Ok profile
    /\ pf_linkedin (platforms profile) = None
    /\ pf_twitter (platforms profile) = None
    /\ option_map gh_score (pf_github (platforms profile)) = Some 50.
Proof.
  destruct (proj2 (aggregate_connected_and_cached 0 "u1"%string partly_cached)
              _ eq_refl)
    as (profile & H & _ & Hg & Hl & Ht & _).
  exists profile. split; [exact H|]. rewrite Hg, Hl, Ht.
  repeat split; reflexivity.
Defined.

Lemma missing_in {A} (present : option A) (key s : string) :
  In s (missing present key) <-> s = key /\ present = None.
Proof.
  destruct present; simpl; intuition congruence.
Qed.

Lemma scored_keys {A} (present : option A) (key s : string) (score : A -> Q) :
  In s (map fst (scored present key score)) <-> s = key /\ present <> None.
Proof.
  destruct present; simpl; intuition congruence.
Qed.

Lemma blog_missing_in p s :
  In s (if gtb (len (blogScores_of p)) 0 then [] else ["blog"%string])
  <-> s = "blog"%string /\ blogScore_of (blogScores_of p) = None.
Proof.
  unfold blogScore_of. destruct (gtb (len (blogScores_of p)) 0); simpl;
    intuition congruence.
Qed.

Lemma option_map_none {A B} (f : A -> B) (o : option A) :
  option_map f o = None <-> o = None.
Proof. destruct o; simpl; intuition congruence. Qed.

Lemma in_missing s p :
  In s (platformsMissing_of p)
  <-> (s = "github"%string /\ pf_github p = None)
      \/ (s = "linkedin"%string /\ pf_linkedin p = None)
      \/ (s = "twitter"%string /\ pf_twitter p = None)
      \/ (s = "blog"%string /\ blogScore_of (blogScores_of p) = None).
Proof.
  unfold platformsMissing_of.
  rewrite !in_app_iff, !missing_in, blog_missing_in. reflexivity.
Qed.

Lemma in_connected s p :
  In s (map fst (scored (pf_github p) "github" gh_score
                 ++ scored (pf_linkedin p) "linkedin" li_score
                 ++ scored (pf_twitter p) "twitter" tw_score
                 ++ scored (pf_devto p) "devto" blog_score
                 ++ scored (pf_hashnode p) "hashnode" blog_score
                 ++ scored (pf_medium p) "medium" blog_score))
  <-> (s = "github"%string /\ pf_github p <> None)
      \/ (s = "linkedin"%string /\ pf_linkedin p <> None)
      \/ (s = "twitter"%string /\ pf_twitter p <> None)
      \/ (s = "devto"%string /\ pf_devto p <> None)
      \/ (s = "hashnode"%string /\ pf_hashnode p <> None)
      \/ (s = "medium"%string /\ pf_medium p <> None).
Proof.
  rewrite !map_app, !in_app_iff, !scored_keys. reflexivity.
Qed.

(** X2.  In the breakdown of a composite score a family is listed as
    missing exactly when its score is null: ["github"], ["linkedin"],
    ["twitter"] for the three single-platform families and ["blog"] for
    the blog family; the connected list names the platforms that have
    data, the blog providers under their own names (["devto"],
    ["hashnode"], ["medium"]), and ["blog"] itself is never listed as
    connected. *)
Theorem missing_iff_null_score this now profile :
  let c := calculateCompositeScore this now profile in
  let b := breakdown c in
  (In "github"%string (platformsMissing b) <-> githubScore c = None)
  /\ (In "linkedin"%string (platformsMissing b) <-> linkedinScore c = None)
  /\ (In "twitter"%string (platformsMissing b) <-> socialScore c = None)
  /\ (In "blog"%string (platformsMissing b) <-> blogScore c = None)
  /\ (In "github"%string (platformsConnected b) <-> githubScore c <> None)
  /\ (In "linkedin"%string (platformsConnected b) <-> linkedinScore c <> None)
  /\ (In "twitter"%string (platformsConnected b) <-> socialScore c <> None)
  /\ (In "devto"%string (platformsConnected b)
      <-> pf_devto (platforms profile) <> None)
  /\ (In "hashnode"%string (platformsConnected b)
      <-> pf_hashnode (platforms profile) <> None)
  /\ (In "medium"%string (platformsConnected b)
      <-> pf_medium (platforms profile) <> None)
  /\ ~ In "blog"%string (platformsConnected b).
Proof.
  cbv zeta.
  cbn [calculateCompositeScore breakdown platformsMissing platformsConnected
       platformScores githubScore linkedinScore socialScore blogScore].
  assert (Hsome : forall A (f : A -> Q) (o : option A),
             option_map f o <> None <-> o <> None).
  { intros A f o. rewrite option_map_none. reflexivity. }
  repeat match goal with |- _ /\ _ => split end;
    try (etransitivity;
         [ first [apply in_missing | apply in_connected]
         | rewrite ?option_map_none, ?Hsome;
           split;
           [ intros H;
             repeat (destruct H as [[H1 H2]|H];
                     [try discriminate H1; exact H2|]);
             destruct H as [H1 H2]; try discriminate H1; exact H2
           | intros H; tauto ] ]).
  intros H. apply in_connected in H.
  repeat (destruct H as [[H1 _]|H]; [discriminate H1|]).
  destruct H as [H1 _]. discriminate H1.
Qed.

Lemma strength_improvement_once (score : option Q) (s1 s2 : string) (w : Q) :
  (List.length (strength score s1) + List.length (improvement score s2)
   <= List.length (with_weight score w))%nat.
Proof.
  destruct score as [v|]; simpl; [|lia].
  destruct (geb v 70) eqn:E1, (ltb v 50) eqn:E2; simpl; try lia.
  apply geb_true in E1. apply ltb_true in E2. lra.
Qed.

Lemma strength_in (score : option Q) (s key : string) :
  In s (strength score key) <-> s = key /\ exists v, score = Some v /\ 70 <= v.
Proof.
  destruct score as [v|]; simpl.
  - destruct (geb v 70) eqn:E; simpl.
    + apply geb_true in E. split.
      * intros [<-|[]]. split; [reflexivity|]. exists v. auto.
      * intros [-> _]. auto.
    + apply geb_false in E. split; [tauto|].
      intros (_ & v' & Hv & Hle). injection Hv as <-. lra.
  - split; [tauto|]. intros (_ & v & Hv & _). discriminate.
Qed.

Lemma improvement_in (score : option Q) (s key : string) :
  In s (improvement score key)
  <-> s = key /\ exists v, score = Some v /\ v < 50.
Proof.
  destruct score as [v|]; simpl.
  - destruct (ltb v 50) eqn:E; simpl.
    + apply ltb_true in E. split.
      * intros [<-|[]]. split; [reflexivity|]. exists v. auto.
      * intros [-> _]. auto.
    + assert (H : 50 <= v).
      { unfold ltb in E. apply negb_false_iff in E.
        apply Qle_bool_iff in E. exact E. }
      split; [tauto|].
      intros (_ & v' & Hv & Hlt). injection Hv as <-. lra.
  - split; [tauto|]. intros (_ & v & Hv & _). discriminate.
Qed.

(** X3.  A family is named among the strengths exactly when its score is
    at least 70 and among the improvements exactly when it is below 50
    (shown for GitHub and for the blog family); no family is in both, and
    a family scoring from 50 up to 70 is in neither, so the two lists
    together never hold more entries than there are families with a
    score. *)
Theorem strengths_and_improvements this now profile :
  let c := calculateCompositeScore this now profile in
  (In "Strong GitHub presence with quality code"%string (strengths c)
   <-> exists v, githubScore c = Some v /\ 70 <= v)
  /\ (In "Improve GitHub activity and project quality"%string
         (improvements c)
      <-> exists v, githubScore c = Some v /\ v < 50)
  /\ (In "Active content creator with quality blogs"%string (strengths c)
      <-> exists v, blogScore c = Some v /\ 70 <= v)
  /\ (In "Write more technical blog content"%string (improvements c)
      <-> exists v, blogScore c = Some v /\ v < 50)
  /\ (List.length (strengths c) + List.length (improvements c)
      <= List.length (present_families (weights this) c))%nat.
Proof.
  cbv zeta.
  cbn [calculateCompositeScore strengths improvements githubScore blogScore].
  assert (Hst : forall s g l t b,
             In s (strength g "Strong GitHub presence with quality code"
                   ++ strength l "Well-developed professional network"
                   ++ strength t "Strong social media engagement"
                   ++ strength b "Active content creator with quality blogs")
             <-> (s = "Strong GitHub presence with quality code"%string
                  /\ exists v, g = Some v /\ 70 <= v)
                 \/ (s = "Well-developed professional network"%string
                     /\ exists v, l = Some v /\ 70 <= v)
                 \/ (s = "Strong social media engagement"%string
                     /\ exists v, t = Some v /\ 70 <= v)
                 \/ (s = "Active content creator with quality blogs"%string
                     /\ exists v, b = Some v /\ 70 <= v)).
  { intros s g l t b. rewrite !in_app_iff, !strength_in. reflexivity. }
  assert (Him : forall s g l t b,
             In s (improvement g "Improve GitHub activity and project quality"
                   ++ improvement l "Enhance LinkedIn profile and connections"
                   ++ improvement t
                        "Increase technical content on social media"
                   ++ improvement b "Write more technical blog content")
             <-> (s = "Improve GitHub activity and project quality"%string
                  /\ exists v, g = Some v /\ v < 50)
                 \/ (s = "Enhance LinkedIn profile and connections"%string
                     /\ exists v, l = Some v /\ v < 50)
                 \/ (s = "Increase technical content on social media"%string
                     /\ exists v, t = Some v /\ v < 50)
                 \/ (s = "Write more technical blog content"%string
                     /\ exists v, b = Some v /\ v < 50)).
  { intros s g l t b. rewrite !in_app_iff, !improvement_in. reflexivity. }
  split; [|split; [|split; [|split]]];
    try (etransitivity; [first [apply Hst | apply Him]|]).
  - split.
    + intros [[_ H]|[[H _]|[[H _]|[H _]]]]; try discriminate. exact H.
    + intros H. left. split; [reflexivity | exact H].
  - split.
    + intros [[_ H]|[[H _]|[[H _]|[H _]]]]; try discriminate. exact H.
    + intros H. left. split; [reflexivity | exact H].
  - split.
    + intros [[H _]|[[H _]|[[H _]|[_ H]]]]; try discriminate. exact H.
    + intros H. right. right. right. split; [reflexivity | exact H].
  - split.
    + intros [[H _]|[[H _]|[[H _]|[_ H]]]]; try discriminate. exact H.
    + intros H. right. right. right. split; [reflexivity | exact H].
  - unfold present_families.
    cbn [calculateCompositeScore githubScore linkedinScore socialScore
         blogScore].
    rewrite !length_app.
    pose proof (strength_improvement_once
                  (option_map gh_score (pf_github (platforms profile)))
                  "Strong GitHub presence with quality code"
                  "Improve GitHub activity and project quality"
                  (github (weights this))) as H1.
    pose proof (strength_improvement_once
                  (option_map li_score (pf_linkedin (platforms profile)))
                  "Well-developed professional network"
                  "Enhance LinkedIn profile and connections"
                  (linkedin (weights this))) as H2.
    pose proof (strength_improvement_once
                  (option_map tw_score (pf_twitter (platforms profile)))
                  "Strong social media engagement"
                  "Increase technical content on social media"
                  (twitter (weights this))) as H3.
    pose proof (strength_improvement_once
                  (blogScore_of (blogScores_of (platforms profile)))
                  "Active content creator with quality blogs"
                  "Write more technical blog content"
                  (blog (weights this))) as H4.
    lia.
Qed.

(** ** Stored scores *)

Lemma findFirst_none db cid :
  findFirst db cid = None <-> rows_of cid db = [].
Proof.
  unfold findFirst, scores_desc, rows_of. split; intros H.
  - apply (sort_by_nil (fun a b => inject_Z (createdAt b)
                                   - inject_Z (createdAt a))).
    destruct (sort_by _ _); [reflexivity | discriminate].
  - rewrite H. reflexivity.
Qed.

Lemma same_platforms_same_score this now now' p p' :
  platforms p = platforms p' ->
  let c := calculateCompositeScore this now p in
  let c' := calculateCompositeScore this now' p' in
  overallScore c' = overallScore c
  /\ githubScore c' = githubScore c /\ linkedinScore c' = linkedinScore c
  /\ blogScore c' = blogScore c /\ socialScore c' = socialScore c
  /\ breakdown c' = breakdown c
  /\ strengths c' = strengths c /\ improvements c' = improvements c
  /\ recommendations c' = recommendations c
  /\ calculatedAt c' = now'.
Proof.
  intros H. unfold calculateCompositeScore. cbn. rewrite H.
  repeat split; reflexivity.
Qed.

(** X6.  [getCurrentScore] returns null for an unknown user and for a
    candidate for whom no score has been stored, whatever platform data
    are cached; once [calculateAndStoreScore] has run it returns the score
    that call computed, recommendations and breakdown included, stamped
    with the time of the read. *)
Theorem current_score_after_store this now now' userId db :
  (findUnique db userId = None ->
   getCurrentScore this now userId db = Ok None)
  /\ (forall cp, findUnique db userId = Some cp ->
                 rows_of (cp_id cp) db = [] ->
                 getCurrentScore this now userId db = Ok None)
  /\ (forall r db',
         calculateAndStoreScore this now userId db = Ok (r, db') ->
         exists c,
           getCurrentScore this now' userId db' = Ok (Some c)
           /\ overallScore c = overallScore (current r)
           /\ githubScore c = githubScore (current r)
           /\ linkedinScore c = linkedinScore (current r)
           /\ blogScore c = blogScore (current r)
           /\ socialScore c = socialScore (current r)
           /\ breakdown c = breakdown (current r)
           /\ strengths c = strengths (current r)
           /\ improvements c = improvements (current r)
           /\ recommendations c = recommendations (current r)
           /\ calculatedAt c = now').
Proof.
  split; [|split].
  - intros H. unfold getCurrentScore. rewrite H. reflexivity.
  - intros cp H Hrows. unfold getCurrentScore. rewrite H.
    apply findFirst_none in Hrows. rewrite Hrows. reflexivity.
  - intros r db' Hcall.
    destruct (findUnique db userId) as [cp|] eqn:Hcp.
    2:{ unfold calculateAndStoreScore in Hcall. rewrite Hcp in Hcall.
        discriminate. }
    destruct (next_call_previous this now userId db cp r db' Hcp Hcall)
      as (Hcp' & row & Hrow & _).
    destruct (calculateAndStoreScore_found this now userId db cp Hcp)
      as (pr & Hpr & E).
    rewrite E in Hcall. cbv zeta in Hcall. injection Hcall as <- <-.
    unfold getCurrentScore. rewrite Hcp', Hrow.
    unfold aggregateProfile in *. rewrite Hcp'. rewrite Hcp in Hpr.
    injection Hpr as <-. cbn [bind].
    eexists. split; [reflexivity|].
    cbn [current].
    apply (same_platforms_same_score this now now'). reflexivity.
Qed.

Lemma current_score_after_store_witness :
  getCurrentScore aggregationService 0 "u1" db_50 = Ok None
  /\ getCurrentScore aggregationService 0 "nobody" db_50 = Ok None.
Proof.
  destruct (current_score_after_store aggregationService 0 0 "u1" db_50)
    as (_ & H & _).
  destruct (current_score_after_store aggregationService 0 0 "nobody" db_50)
    as (H' & _).
  split.
  - eapply H; reflexivity.
  - apply H'. reflexivity.
Defined.

Lemma insert_by_newest_first (x : CandidateScoreRow) l :
  StronglySorted (fun a b => (createdAt b <= createdAt a)%Z) l ->
  StronglySorted (fun a b => (createdAt b <= createdAt a)%Z)
    (insert_by (fun a b => inject_Z (createdAt b) - inject_Z (createdAt a))
               x l).
Proof.
  induction 1 as [|y ys Hs IH Hy]; simpl.
  - constructor; constructor.
  - destruct (Qle_bool (inject_Z (createdAt y) - inject_Z (createdAt x)) 0)
      eqn:E.
    + apply Qle_bool_iff in E.
      assert (Hxy : (createdAt y <= createdAt x)%Z).
      { rewrite Zle_Qle. lra. }
      constructor; [constructor; assumption|].
      constructor; [exact Hxy|].
      rewrite Forall_forall in *. intros z Hz. specialize (Hy z Hz). lia.
    + assert (Hyx : (createdAt x <= createdAt y)%Z).
      { destruct (Z.le_gt_cases (createdAt x) (createdAt y)) as [H|H];
          [exact H|].
        assert (Qle_bool (inject_Z (createdAt y) - inject_Z (createdAt x)) 0
                = true); [|congruence].
        apply Qle_bool_iff. apply Z.lt_le_incl in H. rewrite Zle_Qle in H.
        lra. }
      constructor; [exact IH|].
      rewrite Forall_forall in *. intros z Hz.
      apply insert_by_in in Hz. destruct Hz as [->|Hz]; auto.
Qed.

Lemma scores_desc_newest_first db cid :
  StronglySorted (fun a b => (createdAt b <= createdAt a)%Z)
                 (scores_desc db cid).
Proof.
  unfold scores_desc. induction (filter _ _) as [|x l IH]; simpl.
  - constructor.
  - apply insert_by_newest_first. exact IH.
Qed.

Lemma StronglySorted_firstn {A} (R : A -> A -> Prop) n l :
  StronglySorted R l -> StronglySorted R (firstn n l).
Proof.
  intros H. revert n. induction H as [|x l Hs IH Hx]; intros [|n]; simpl;
    try constructor.
  - apply IH.
  - rewrite Forall_forall in *. intros y Hy. apply Hx.
    rewrite <- (firstn_skipn n l). apply in_or_app. left. exact Hy.
Qed.

(** X7.  [getScoreHistory] returns at most [limit] entries, newest first
    by [calculatedAt], each rebuilt from a stored row of the candidate;
    every entry carries the weights the service has at the time of the
    read (not those the score was calculated with), no recommendations and
    an empty breakdown; for an unknown user the history is empty. *)
Theorem history_newest_first this userId limit db :
  let history := getScoreHistory this userId limit db in
  (List.length history <= limit)%nat
  /\ StronglySorted (fun a b => (calculatedAt b <= calculatedAt a)%Z) history
  /\ (forall c, In c history ->
        recommendations c = []
        /\ bd_weights (breakdown c) = weights this
        /\ platformScores (breakdown c) = []
        /\ platformsConnected (breakdown c) = []
        /\ platformsMissing (breakdown c) = []
        /\ exists cp row,
            findUnique db userId = Some cp
            /\ In row (candidateScore db)
            /\ cs_candidateId row = cp_id cp
            /\ overallScore c = compositeScore row
            /\ calculatedAt c = createdAt row)
  /\ (findUnique db userId = None -> history = []).
Proof.
  cbv zeta. unfold getScoreHistory.
  destruct (findUnique db userId) as [cp|] eqn:Hcp.
  2:{ simpl. repeat split; try constructor; try lia; intros ? []. }
  unfold findMany, slice0.
  split; [|split; [|split]].
  - rewrite length_map. apply firstn_le_length.
  - pose proof (StronglySorted_firstn _ limit _
                  (scores_desc_newest_first db (cp_id cp))) as H.
    induction H as [|x l Hs IH Hx]; simpl; constructor.
    + exact IH.
    + rewrite Forall_forall in *. intros c Hc. apply in_map_iff in Hc.
      destruct Hc as (row & <- & Hrow). simpl. apply Hx. exact Hrow.
  - intros c Hc. apply in_map_iff in Hc. destruct Hc as (row & <- & Hrow).
    simpl. repeat split.
    exists cp, row. split; [reflexivity|].
    assert (H : In row (scores_desc db (cp_id cp))).
    { rewrite <- (firstn_skipn limit (scores_desc db (cp_id cp))).
      apply in_or_app. left. exact Hrow. }
    unfold scores_desc in H. apply sort_by_in, filter_In in H.
    destruct H as [H1 H2]. apply Nat.eqb_eq in H2. auto.
  - discriminate.
Qed.

Lemma history_newest_first_witness :
  getScoreHistory aggregationService "nobody" 10 db_50 = [].
Proof.
  destruct (history_newest_first aggregationService "nobody" 10 db_50)
    as (_ & _ & _ & H).
  apply H. reflexivity.
Defined.

Lemma fresh_id_above rows r : In r rows -> (id r < fresh_id rows)%nat.
Proof.
  unfold fresh_id. induction rows as [|x rows IH]; simpl; [tauto|].
  intros [->|H]; [lia|]. specialize (IH H). lia.
Qed.

Lemma upsert_ids now where_id cid c rows :
  NoDup (map id rows) -> NoDup (map id (upsert now where_id cid c rows)).
Proof.
  intros H. unfold upsert. destruct (existsb _ rows).
  - rewrite map_map.
    erewrite map_ext; [exact H|].
    intros r. destruct where_id as [i|]; [|reflexivity].
    destruct (Nat.eqb (id r) i); reflexivity.
  - rewrite map_app. simpl.
    apply NoDup_app; [exact H | repeat constructor; intros [] |].
    intros i Hi [<-|[]]. apply in_map_iff in Hi.
    destruct Hi as (r & Hr & Hin). apply fresh_id_above in Hin. lia.
Qed.

Lemma NoDup_map_injective {A B} (f : A -> B) (l : list A) x y :
  NoDup (map f l) -> In x l -> In y l -> f x = f y -> x = y.
Proof.
  induction l as [|z l IH]; simpl; [tauto|].
  intros H. inversion H as [|? ? Hz Hl]; subst.
  intros [->|Hx] [->|Hy] E; auto.
  - exfalso. apply Hz. rewrite E. apply in_map. exact Hy.
  - exfalso. apply Hz. rewrite <- E. apply in_map. exact Hx.
Qed.

Lemma findFirst_in db cid row :
  findFirst db cid = Some row ->
  In row (candidateScore db) /\ cs_candidateId row = cid.
Proof.
  unfold findFirst. intros H.
  assert (Hin : In row (scores_desc db cid)).
  { destruct (scores_desc db cid); simpl in H;
      [discriminate | injection H as ->; left; reflexivity]. }
  unfold scores_desc in Hin. apply sort_by_in, filter_In in Hin.
  destruct Hin as [H1 H2]. apply Nat.eqb_eq in H2. auto.
Qed.

Lemma filter_update_other (upd : CandidateScoreRow -> CandidateScoreRow)
      (p : CandidateScoreRow -> bool) rows :
  (forall r, In r rows -> p (upd r) = p r) ->
  (forall r, In r rows -> p r = true -> upd r = r) ->
  filter p (map upd rows) = filter p rows.
Proof.
  induction rows as [|x rows IH]; simpl; [reflexivity|].
  intros H1 H2. rewrite (H1 x) by auto.
  destruct (p x) eqn:E.
  - rewrite (H2 x) by auto. f_equal. apply IH; auto.
  - apply IH; auto.
Qed.

(** X8.  With unique row ids, [calculateAndStoreScore] writes one score
    row and nothing else: the candidate profiles are as before, the rows
    of every other candidate are unchanged, the row ids stay unique, and
    the candidate has afterwards as many rows as before, or one if there
    was none. *)
Theorem store_writes_one_row this now userId db cp r db' :
  NoDup (map id (candidateScore db)) ->
  findUnique db userId = Some cp ->
  calculateAndStoreScore this now userId db = Ok (r, db') ->
  candidateProfile db' = candidateProfile db
  /\ NoDup (map id (candidateScore db'))
  /\ (forall other, other <> cp_id cp ->
                    rows_of other db' = rows_of other db)
  /\ List.length (rows_of (cp_id cp) db')
     = Nat.max 1 (List.length (rows_of (cp_id cp) db)).
Proof.
  intros Hids Hcp Hcall.
  destruct (calculateAndStoreScore_found this now userId db cp Hcp)
    as (pr & _ & E).
  rewrite E in Hcall. cbv zeta in Hcall. injection Hcall as _ <-.
  cbn [candidateProfile candidateScore].
  split; [reflexivity|]. split; [apply upsert_ids; exact Hids|].
  unfold rows_of. cbn [candidateScore].
  destruct (findFirst db (cp_id cp)) as [row|] eqn:Hrow.
  - destruct (findFirst_in _ _ _ Hrow) as [Hin Hcid]. cbn [option_map].
    rewrite upsert_update.
    2:{ apply existsb_exists. exists row. split; [exact Hin|].
        apply Nat.eqb_refl. }
    assert (Hsame : forall x, In x (candidateScore db) ->
                              Nat.eqb (id x) (id row) = true -> x = row).
    { intros x Hx Hi. apply Nat.eqb_eq in Hi.
      exact (NoDup_map_injective id _ x row Hids Hx Hin Hi). }
    split.
    + intros other Hother. apply filter_update_other.
      * intros x _. destruct (Nat.eqb (id x) (id row)); reflexivity.
      * intros x Hx Hp. destruct (Nat.eqb (id x) (id row)) eqn:Hi;
          [|reflexivity].
        apply Hsame in Hi; [|exact Hx]. subst x.
        apply Nat.eqb_eq in Hp. congruence.
    + rewrite filter_map_commute.
      2:{ intros x. destruct (Nat.eqb (id x) (id row)); reflexivity. }
      rewrite length_map.
      assert (Hpos : In row (filter (fun x => Nat.eqb (cs_candidateId x)
                                                      (cp_id cp))
                                    (candidateScore db))).
      { apply filter_In. split; [exact Hin|]. apply Nat.eqb_eq. exact Hcid. }
      destruct (filter _ (candidateScore db)); [destruct Hpos|].
      simpl. lia.
  - cbn [option_map].
    destruct (upsert_create now (cp_id cp) (calculateCompositeScore this now pr)
                            (candidateScore db)) as (new & -> & Hc & _).
    apply findFirst_none in Hrow. unfold rows_of in Hrow.
    split.
    + intros other Hother. rewrite filter_app. simpl. rewrite Hc.
      destruct (Nat.eqb (cp_id cp) other) eqn:Eo.
      * apply Nat.eqb_eq in Eo. congruence.
      * apply app_nil_r.
    + rewrite filter_app, Hrow. simpl. rewrite Hc, Nat.eqb_refl. reflexivity.
Qed.

Lemma store_writes_one_row_witness :
  exists r db',
    calculateAndStoreScore aggregationService 1000 "u1" db_50 = Ok (r, db')
    /\ List.length (rows_of 1 db') = 1%nat.
Proof.
  eexists. eexists. split; [reflexivity|].
  pose proof (fun cp r db' =>
                store_writes_one_row aggregationService 1000 "u1" db_50
                  cp r db' (NoDup_nil _)) as H.
  specialize (H _ _ _ eq_refl eq_refl).
  destruct H as (_ & _ & _ & H). exact H.
Defined.

(** ** Weights *)

(** X9.  Two successive [setWeights] calls amount to one call with the
    second object laid over the first, key by key: a key named in both
    takes the second value; an empty object changes nothing, and a call
    repeated with the same object changes nothing more. *)
Theorem setWeights_composes (first second : PartialWeights) this :
  setWeights second (setWeights first this)
  = setWeights (over first second) this
  /\ getWeights (setWeights no_weights this) = getWeights this
  /\ setWeights first (setWeights first this) = setWeights first this.
Proof.
  destruct this as [[g l t b]].
  destruct first as [[g1|] [l1|] [t1|] [b1|]];
    destruct second as [[g2|] [l2|] [t2|] [b2|]];
    repeat split; reflexivity.
Qed.

(** ** Refreshing the platform data *)

Lemma Platform_eq_dec (a b : Platform) : {a = b} + {a <> b}.
Proof.
  decide equality.
Qed.

Lemma refresh_step_linkedin f now st c :
  pf_linkedin (snd (refresh_connection f now st c)) = pf_linkedin (snd st).
Proof.
  unfold refresh_connection, fetched.
  destruct (platform c); try reflexivity;
    match goal with
    | |- context [match ?r with Ok _ => _ | Throw _ => _ end] => destruct r
    end; reflexivity.
Qed.

Lemma refresh_step_other f now st c pl :
  platform c <> pl ->
  data_at pl (fst (refresh_connection f now st c)) = data_at pl (fst st)
  /\ data_at pl (snd (refresh_connection f now st c)) = data_at pl (snd st).
Proof.
  intros H. unfold refresh_connection, fetched.
  destruct (platform c), pl; try congruence; try (split; reflexivity);
    match goal with
    | |- context [match ?r with Ok _ => _ | Throw _ => _ end] => destruct r
    end; split; reflexivity.
Qed.

Lemma refresh_step_throw f now cache st c e :
  assigned f cache (platform c) (conn_username c) = Throw e ->
  refresh_connection f now st c = st.
Proof.
  unfold refresh_connection, assigned, fetched.
  destruct (platform c); try discriminate;
    match goal with
    | |- context [bind ?r _] => destruct r
    end; simpl; intros H; try discriminate; reflexivity.
Qed.

Lemma refresh_step_ok f now cache st c v :
  assigned f cache (platform c) (conn_username c) = Ok v ->
  pf_linkedin (snd st) = pf_linkedin cache ->
  data_at (platform c) (fst (refresh_connection f now st c)) = v
  /\ (platform c <> LINKEDIN ->
      data_at (platform c) (snd (refresh_connection f now st c))
      = option_map (stored now) v).
Proof.
  unfold refresh_connection, assigned, fetched.
  destruct (platform c);
    try (intros H Hl; injection H as <-; simpl; rewrite Hl;
         split; [reflexivity | congruence]);
    match goal with
    | |- context [bind ?r _] => destruct r
    end; simpl; intros H Hl; try discriminate; injection H as <-;
    split; reflexivity.
Qed.

Lemma refresh_fold f now cache pl conns :
  forall st,
    pf_linkedin (snd st) = pf_linkedin cache ->
    let st' := fold_left (refresh_connection f now) conns st in
    pf_linkedin (snd st') = pf_linkedin cache
    /\ ((forall c, In c conns -> platform c = pl ->
                   exists e, assigned f cache pl (conn_username c) = Throw e) ->
        data_at pl (fst st') = data_at pl (fst st)
        /\ data_at pl (snd st') = data_at pl (snd st))
    /\ (forall d,
           data_at pl (fst st') = Some d ->
           (data_at pl (fst st) = Some d
            /\ data_at pl (snd st') = data_at pl (snd st))
           \/ (exists c, In c conns /\ platform c = pl
                         /\ assigned f cache pl (conn_username c) = Ok (Some d)
                         /\ (pl <> LINKEDIN ->
                             data_at pl (snd st') = Some (stored now d)))).
Proof.
  induction conns as [|c conns IH]; intros st Hl; cbn [fold_left].
  - cbv zeta. split; [exact Hl|]. split; [auto|]. intros d Hd. left. auto.
  - cbv zeta.
    assert (Hl1 : pf_linkedin (snd (refresh_connection f now st c))
                  = pf_linkedin cache).
    { rewrite refresh_step_linkedin. exact Hl. }
    specialize (IH (refresh_connection f now st c) Hl1). cbv zeta in IH.
    destruct IH as (IHl & IHa & IHb).
    split; [exact IHl|]. split.
    + intros Hthrow.
      destruct IHa as [Ha1 Ha2].
      { intros c' Hc'. apply Hthrow. right. exact Hc'. }
      rewrite Ha1, Ha2.
      destruct (Platform_eq_dec (platform c) pl) as [Epl|Epl].
      * destruct (Hthrow c (or_introl eq_refl) Epl) as [e He].
        rewrite <- Epl in He.
        rewrite (refresh_step_throw f now cache st c e He). auto.
      * apply refresh_step_other. exact Epl.
    + intros d Hd. destruct (IHb d Hd) as [[H1 H2]|(c' & Hc' & Hpl & Ha & Hs)].
      * destruct (Platform_eq_dec (platform c) pl) as [Epl|Epl].
        -- destruct (assigned f cache (platform c) (conn_username c))
             as [v|e] eqn:Ea.
           ++ destruct (refresh_step_ok f now cache st c v Ea Hl) as [Hv Hsv].
              right. exists c. split; [left; reflexivity|].
              split; [exact Epl|]. rewrite <- Epl. rewrite <- Epl in H1, H2.
              rewrite Hv in H1. subst v. split; [exact Ea|].
              intros Hne. rewrite H2. rewrite (Hsv Hne). reflexivity.
           ++ rewrite (refresh_step_throw f now cache st c e Ea) in H1, H2 |- *.
              left. auto.
        -- destruct (refresh_step_other f now st c pl Epl) as [E1 E2].
           left. rewrite <- E1, <- E2. auto.
      * right. exists c'. split; [right; exact Hc'|]. auto.
Qed.

Lemma findUnique_with_cache db userId cp cache :
  findUnique db userId = Some cp ->
  findUnique (with_cache (cp_id cp) cache db) userId
  = Some {| cp_id := cp_id cp; cp_userId := cp_userId cp;
            cp_userName := cp_userName cp;
            platformConnections := platformConnections cp;
            cachedData := cache |}.
Proof.
  unfold findUnique, with_cache. cbn [candidateProfile].
  induction (candidateProfile db) as [|x l IH]; simpl; [discriminate|].
  destruct (String.eqb (cp_userId x) userId) eqn:E.
  - intros H. injection H as ->.
    rewrite Nat.eqb_refl. simpl. rewrite E. reflexivity.
  - intros H. destruct (Nat.eqb (cp_id x) (cp_id cp)); simpl; rewrite E;
      apply IH; exact H.
Qed.

(** What a refresh returns and leaves in the cache, for a candidate that
    exists. *)
Lemma refresh_found f now userId db cp :
  findUnique db userId = Some cp ->
  exists profile db' cp',
    refreshAllPlatformData f now userId db = Ok (profile, db')
    /\ findUnique db' userId = Some cp'
    /\ cp_id cp' = cp_id cp
    /\ platformConnections cp' = platformConnections cp
    /\ candidateScore db' = candidateScore db
    /\ data_at LINKEDIN (cachedData cp') = data_at LINKEDIN (cachedData cp)
    /\ (forall pl,
           (forall c, In c (platformConnections cp) -> platform c = pl ->
                      exists e, assigned f (cachedData cp) pl (conn_username c)
                                = Throw e) ->
           data_at pl (platforms profile) = None
           /\ data_at pl (cachedData cp') = data_at pl (cachedData cp))
    /\ (forall pl d,
           data_at pl (platforms profile) = Some d ->
           (exists c, In c (platformConnections cp) /\ platform c = pl
                      /\ assigned f (cachedData cp) pl (conn_username c)
                         = Ok (Some d))
           /\ (pl <> LINKEDIN ->
               data_at pl (cachedData cp') = Some (stored now d))).
Proof.
  intros Hcp. unfold refreshAllPlatformData. rewrite Hcp.
  set (st' := fold_left (refresh_connection f now) (platformConnections cp)
                        (no_platforms, cachedData cp)).
  eexists. eexists. eexists. split; [reflexivity|].
  split; [apply findUnique_with_cache; exact Hcp|].
  cbn [cp_id platformConnections cachedData platforms].
  split; [reflexivity|]. split; [reflexivity|]. split; [reflexivity|].
  split; [|split].
  - destruct (refresh_fold f now (cachedData cp) LINKEDIN
                (platformConnections cp) (no_platforms, cachedData cp)
                eq_refl) as (Hl & _).
    fold st' in Hl. unfold data_at. rewrite Hl. reflexivity.
  - intros pl Hthrow.
    destruct (refresh_fold f now (cachedData cp) pl
                (platformConnections cp) (no_platforms, cachedData cp)
                eq_refl) as (_ & Ha & _).
    fold st' in Ha. destruct (Ha Hthrow) as [H1 H2]. rewrite H1, H2.
    split; [destruct pl; reflexivity | reflexivity].
  - intros pl d Hd.
    destruct (refresh_fold f now (cachedData cp) pl
                (platformConnections cp) (no_platforms, cachedData cp)
                eq_refl) as (_ & _ & Hb).
    fold st' in Hb. destruct (Hb d Hd) as [[H1 _]|(c & Hc & Hpl & Ha & Hs)].
    + destruct pl; discriminate.
    + split; [exists c; auto | exact Hs].
Qed.

(** X10.  [refreshAllPlatformData] fails only for a user without a
    candidate profile; a connector that throws is passed over.  A platform
    none of whose connections could be fetched (or that is not connected)
    is unset in the returned profile and keeps the cached data it had; a
    platform set in the returned profile holds what a connection of that
    platform fetched (for LinkedIn: what the cache holds), and the cache
    then holds the same data with the time of the store; LinkedIn data in
    the cache and the stored scores are never touched. *)
Theorem refresh_passes_over_failures f now userId db :
  (findUnique db userId = None ->
   refreshAllPlatformData f now userId db
   = Throw (NotFound "Candidate profile not found"))
  /\ (forall cp,
         findUnique db userId = Some cp ->
         exists profile db' cp',
           refreshAllPlatformData f now userId db = Ok (profile, db')
           /\ findUnique db' userId = Some cp'
           /\ cp_id cp' = cp_id cp
           /\ platformConnections cp' = platformConnections cp
           /\ candidateScore db' = candidateScore db
           /\ data_at LINKEDIN (cachedData cp')
              = data_at LINKEDIN (cachedData cp)
           /\ (forall pl,
                  (forall c, In c (platformConnections cp) ->
                             platform c = pl ->
                             exists e, assigned f (cachedData cp) pl
                                                (conn_username c) = Throw e) ->
                  data_at pl (platforms profile) = None
                  /\ data_at pl (cachedData cp') = data_at pl (cachedData cp))
           /\ (forall pl d,
                  data_at pl (platforms profile) = Some d ->
                  (exists c, In c (platformConnections cp) /\ platform c = pl
                             /\ assigned f (cachedData cp) pl (conn_username c)
                                = Ok (Some d))
                  /\ (pl <> LINKEDIN ->
                      data_at pl (cachedData cp') = Some (stored now d)))).
Proof.
  split.
  - intros H. unfold refreshAllPlatformData. rewrite H. reflexivity.
  - intros cp Hcp. exact (refresh_found f now userId db cp Hcp).
Qed.

Lemma refresh_passes_over_failures_witness :
  exists profile db',
    refreshAllPlatformData github_down 5000 "u1" partly_cached
    = Ok (profile, db')
    /\ pf_github (platforms profile) = None
    /\ option_map tw_score (pf_twitter (platforms profile)) = Some 40
    /\ option_map (fun cp => option_map gh_score (pf_github (cachedData cp)))
                  (findUnique db' "u1") = Some (Some 50).
Proof.
  destruct (refresh_passes_over_failures github_down 5000 "u1" partly_cached)
    as [_ H].
  destruct (H _ eq_refl) as (profile & db' & cp' & E & _).
  exists profile, db'. split; [exact E|].
  injection E as <- <-. repeat split.
Defined.

Lemma connected_in pl cp :
  connected pl cp = true
  <-> exists c, In c (platformConnections cp) /\ platform c = pl.
Proof.
  unfold connected. rewrite existsb_exists. split.
  - intros (c & Hc & H). exists c. split; [exact Hc|].
    destruct (platform c), pl; try discriminate; reflexivity.
  - intros (c & Hc & <-). exists c. split; [exact Hc|].
    destruct (platform c); reflexivity.
Qed.

(** X11.  [refreshAndRecalculate] scores what the cache holds after the
    refresh, not the profile the refresh returned: when no GitHub
    connection could be fetched, the refreshed profile has no GitHub data
    and yet the recalculated score counts GitHub from the data cached
    before; when the fetch succeeded, the score counts the fetched data;
    LinkedIn always counts from the cache. *)
Theorem recalculation_scores_the_cache this f now userId db cp :
  findUnique db userId = Some cp ->
  exists profile db1 r db2,
    refreshAllPlatformData f now userId db = Ok (profile, db1)
    /\ refreshAndRecalculate this f now userId db = Ok (r, db2)
    /\ (connected GITHUB cp = true ->
        (forall c, In c (platformConnections cp) -> platform c = GITHUB ->
                   exists e, fetch_github f (conn_username c) = Throw e) ->
        pf_github (platforms profile) = None
        /\ githubScore (current r)
           = option_map gh_score (pf_github (cachedData cp)))
    /\ (forall d, pf_github (platforms profile) = Some d ->
                  githubScore (current r) = Some (gh_score d))
    /\ linkedinScore (current r)
       = (if connected LINKEDIN cp
          then option_map li_score (pf_linkedin (cachedData cp)) else None).
Proof.
  intros Hcp.
  destruct (refresh_found f now userId db cp Hcp)
    as (profile & db1 & cp1 & E & Hcp1 & Hid & Hconns & _ & Hli & Hthrow & Hset).
  destruct (calculateAndStoreScore_found this now userId db1 cp1 Hcp1)
    as (pr & Hpr & Ecall).
  exists profile, db1. eexists. eexists.
  split; [exact E|].
  split.
  { unfold refreshAndRecalculate. rewrite E. cbn [bind snd].
    rewrite Ecall. cbv zeta. reflexivity. }
  cbn [current calculateCompositeScore githubScore linkedinScore].
  unfold aggregateProfile in Hpr. rewrite Hcp1 in Hpr. injection Hpr as <-.
  cbn [platforms].
  destruct (aggregate_fold (cachedData cp1) (platformConnections cp1)
                           no_platforms) as (Hg & Hl & _).
  rewrite Hg, Hl. clear Hg Hl.
  assert (Hc : forall pl, connected pl cp1 = connected pl cp).
  { intros pl. unfold connected. rewrite Hconns. reflexivity. }
  fold (connected GITHUB cp1). fold (connected LINKEDIN cp1).
  rewrite !Hc.
  split; [|split].
  - intros Hgh Hfail. rewrite Hgh.
    destruct (Hthrow GITHUB) as [H1 H2].
    { intros c Hin Hpl. destruct (Hfail c Hin Hpl) as [e He]. exists e.
      simpl. rewrite He. reflexivity. }
    simpl in H1, H2.
    destruct (pf_github (platforms profile)); [discriminate|].
    split; [reflexivity|].
    destruct (pf_github (cachedData cp1)), (pf_github (cachedData cp));
      simpl in H2; congruence.
  - intros d Hd.
    destruct (Hset GITHUB (GitHubOf d)) as [(c & Hin & Hpl & _) Hst].
    { simpl. rewrite Hd. reflexivity. }
    assert (Hgh : connected GITHUB cp = true).
    { apply connected_in. exists c. auto. }
    rewrite Hgh. specialize (Hst ltac:(discriminate)). simpl in Hst.
    destruct (pf_github (cachedData cp1)); simpl in Hst; [|discriminate].
    injection Hst as ->. reflexivity.
  - simpl in Hli.
    destruct (connected LINKEDIN cp); [|reflexivity].
    destruct (pf_linkedin (cachedData cp1)), (pf_linkedin (cachedData cp));
      simpl in Hli; congruence.
Qed.

Lemma recalculation_scores_the_cache_witness :
  exists profile db1 r db2,
    refreshAllPlatformData github_down 5000 "u1" partly_cached
    = Ok (profile, db1)
    /\ refreshAndRecalculate aggregationService github_down 5000 "u1"
                             partly_cached = Ok (r, db2)
    /\ pf_github (platforms profile) = None
    /\ githubScore (current r) = Some 50.
Proof.
  destruct (recalculation_scores_the_cache aggregationService github_down
              5000 "u1" partly_cached _ eq_refl)
    as (profile & db1 & r & db2 & E1 & E2 & H & _).
  exists profile, db1, r, db2. split; [exact E1|]. split; [exact E2|].
  apply H.
  - reflexivity.
  - intros c _ _. eexists. reflexivity.
Defined.

(** ** The connectors *)

Lemma filter_all_false {A} (p : A -> bool) (l : list A) :
  Forall (fun x => p x = false) l -> filter p l = [].
Proof.
  induction 1 as [|x l Hx _ IH]; simpl; [reflexivity|].
  rewrite Hx. exact IH.
Qed.

Lemma filter_without {A} (p : A -> bool) (a dropped b : list A) :
  Forall (fun x => p x = false) dropped ->
  filter p (a ++ dropped ++ b) = filter p (a ++ b).
Proof.
  intros H. rewrite !filter_app, (filter_all_false p dropped H). reflexivity.
Qed.

Lemma twitter_of_originals profile tweets tweets' :
  filter (fun t => negb (Twitter.isRetweet t)) tweets
  = filter (fun t => negb (Twitter.isRetweet t)) tweets' ->
  Twitter.calculateMetrics profile tweets
  = Twitter.calculateMetrics profile tweets'.
Proof.
  intros H. unfold Twitter.calculateMetrics. rewrite H. reflexivity.
Qed.

Lemma github_of_own_repositories sixMonthsAgo profile repositories
      repositories' stats :
  filter (fun r => negb (GitHub.isForked r)) repositories
  = filter (fun r => negb (GitHub.isForked r)) repositories' ->
  GitHub.calculateMetrics sixMonthsAgo profile repositories stats
  = GitHub.calculateMetrics sixMonthsAgo profile repositories' stats.
Proof.
  intros H. unfold GitHub.calculateMetrics. rewrite H. reflexivity.
Qed.

(** X12.  Retweets and forked repositories count for nothing: the
    Twitter metrics of a timeline are those of the timeline without its
    retweets, wherever they stand, and the GitHub metrics are those of the
    repositories without the forks.  A timeline of retweets only is scored
    like an empty one: the overall score is
    [min(followers / 1000 * 5, 25)], at most 25, with the advice to tweet
    more. *)
Theorem retweets_and_forks_ignored :
  (forall profile a retweets b,
      Forall (fun t => Twitter.isRetweet t = true) retweets ->
      Twitter.calculateMetrics profile (a ++ retweets ++ b)
      = Twitter.calculateMetrics profile (a ++ b))
  /\ (forall profile retweets,
         Forall (fun t => Twitter.isRetweet t = true) retweets ->
         exists m,
           Twitter.calculateMetrics profile retweets = Ok m
           /\ Twitter.overallScore m
              = Math_min (Twitter.followers profile / 1000 * 5) 25
           /\ Twitter.overallScore m <= 25
           /\ Twitter.recommendations m
              = ["Tweet more to build your social presence"%string])
  /\ (forall sixMonthsAgo profile a forks b stats,
         Forall (fun r => GitHub.isForked r = true) forks ->
         GitHub.calculateMetrics sixMonthsAgo profile (a ++ forks ++ b) stats
         = GitHub.calculateMetrics sixMonthsAgo profile (a ++ b) stats).
Proof.
  split; [|split].
  - intros profile a retweets b H. apply twitter_of_originals.
    apply filter_without. apply Forall_forall. intros t Ht.
    rewrite Forall_forall in H. rewrite (H t Ht). reflexivity.
  - intros profile retweets H.
    rewrite (twitter_of_originals profile retweets []).
    + eexists. split; [reflexivity|]. cbn.
      split; [reflexivity|]. split; [apply Q.le_min_r | reflexivity].
    + simpl. apply filter_all_false. apply Forall_forall. intros t Ht.
      rewrite Forall_forall in H. rewrite (H t Ht). reflexivity.
  - intros sixMonthsAgo profile a forks b stats H.
    apply github_of_own_repositories.
    apply filter_without. apply Forall_forall. intros r Hr.
    rewrite Forall_forall in H. rewrite (H r Hr). reflexivity.
Qed.

Lemma retweets_and_forks_ignored_witness :
  Twitter.calculateMetrics (tw_profile 100)
    ([sample_tweet 3] ++ [a_retweet] ++ [sample_tweet 5])
  = Twitter.calculateMetrics (tw_profile 100)
      ([sample_tweet 3] ++ [sample_tweet 5]).
Proof.
  destruct retweets_and_forks_ignored as [H _].
  apply H. repeat constructor.
Defined.

Lemma blog_family_with_zero (others : list Q) :
  blogScore_of (others ++ [0])
  = Some (Math_round (fold_right Qplus 0 others / (len others + 1))).
Proof.
  unfold blogScore_of.
  assert (Hsum : fold_right Qplus 0 (others ++ [0])
                 == fold_right Qplus 0 others).
  { induction others as [|x l IH]; simpl; [ring | rewrite IH; reflexivity]. }
  assert (Hlen : len (others ++ [0]) == len others + 1).
  { unfold len. rewrite length_app, Nat2Z.inj_add, inject_Z_plus.
    reflexivity. }
  assert (G : gtb (len (others ++ [0])) 0 = true).
  { apply len_pos. destruct others; discriminate. }
  rewrite G. f_equal. apply Math_round_comp.
  rewrite fold_left_Qplus, Hlen, Hsum. field.
  pose proof (len_nonneg others). lra.
Qed.

(** X13.  The Medium connector is a placeholder: whatever the user name,
    it returns a profile without posts whose overall score is 0, with the
    advice to start writing.  A connected Medium account therefore counts
    as a blog provider scoring 0: the blog family score is the rounded sum
    of the dev.to and Hashnode scores divided by their number plus one, so
    Medium alone gives a blog score of 0 (and the blog family is not
    reported missing), and Medium beside dev.to alone halves the dev.to
    score. *)
Theorem medium_placeholder_counts_as_zero now username :
  exists d,
    BlogConnector.fetchMediumData now username = Ok d
    /\ Blog.posts d = []
    /\ blog_score d = 0
    /\ blog_recs d
       = ["Start writing blog posts to build your content portfolio"%string]
    /\ forall this t profile,
        pf_medium (platforms profile) = Some d ->
        let c := calculateCompositeScore this t profile in
        let others := provider (pf_devto (platforms profile))
                      ++ provider (pf_hashnode (platforms profile)) in
        blogScore c
        = Some (Math_round (fold_right Qplus 0 others / (len others + 1)))
        /\ ~ In "blog"%string (platformsMissing (breakdown c))
        /\ (pf_devto (platforms profile) = None ->
            pf_hashnode (platforms profile) = None ->
            blogScore c = Some 0
            /\ In "Write more technical blog content"%string
                  (improvements c))
        /\ (forall devto,
               pf_devto (platforms profile) = Some devto ->
               pf_hashnode (platforms profile) = None ->
               blogScore c = Some (Math_round (blog_score devto / 2))).
Proof.
  eexists. split; [reflexivity|]. split; [reflexivity|].
  split; [reflexivity|]. split; [reflexivity|].
  intros this t profile Hm. cbv zeta.
  assert (Hscore : blogScore (calculateCompositeScore this t profile)
                   = Some (Math_round
                             (fold_right Qplus 0
                                (provider (pf_devto (platforms profile))
                                 ++ provider (pf_hashnode (platforms profile)))
                              / (len (provider (pf_devto (platforms profile))
                                      ++ provider
                                           (pf_hashnode (platforms profile)))
                                 + 1)))).
  { cbn [calculateCompositeScore blogScore]. unfold blogScores_of.
    rewrite Hm. rewrite app_assoc. apply blog_family_with_zero. }
  split; [exact Hscore|]. split; [|split].
  - cbn [calculateCompositeScore breakdown platformsMissing].
    unfold platformsMissing_of. rewrite !in_app_iff, !missing_in.
    rewrite blog_missing_in.
    cbn [calculateCompositeScore blogScore] in Hscore. rewrite Hscore.
    intros [[H _]|[[H _]|[[H _]|[_ H]]]]; discriminate.
  - intros Hd Hh.
    assert (Hzero : blogScore (calculateCompositeScore this t profile)
                    = Some 0).
    { rewrite Hscore, Hd, Hh. reflexivity. }
    split; [exact Hzero|].
    cbn [calculateCompositeScore improvements blogScore] in *.
    rewrite Hzero. rewrite !in_app_iff. right. right. right.
    left. reflexivity.
  - intros devto Hd Hh. rewrite Hscore, Hd, Hh. f_equal.
    apply Math_round_comp. simpl. change (len [blog_score devto]) with 1.
    field.
Qed.

Lemma medium_placeholder_counts_as_zero_witness :
  exists d,
    BlogConnector.fetchMediumData 0 "octo" = Ok d
    /\ blogScore (calculateCompositeScore aggregationService 0
                    (profile_of {| pf_github := None; pf_linkedin := None;
                                   pf_twitter := None;
                                   pf_devto := Some (blog_data 80 []);
                                   pf_hashnode := None;
                                   pf_medium := Some d |}))
       = Some (Math_round (80 / 2)).
Proof.
  destruct (medium_placeholder_counts_as_zero 0 "octo")
    as (d & E & _ & _ & _ & H).
  exists d. split; [exact E|].
  destruct (H aggregationService 0%Z
              (profile_of {| pf_github := None; pf_linkedin := None;
                             pf_twitter := None;
                             pf_devto := Some (blog_data 80 []);
                             pf_hashnode := None;
                             pf_medium := Some d |}) eq_refl)
    as (_ & _ & _ & Hhalf).
  apply (Hhalf (blog_data 80 [])); reflexivity.
Defined.

(** *** LinkedIn: manual entry *)

Lemma sum_by_zero {A} (f : A -> Q) (l : list A) :
  Forall (fun x => f x == 0) l -> sum_by f l == 0.
Proof.
  induction 1 as [|x l Hx _ IH].
  - reflexivity.
  - rewrite sum_by_cons, Hx, IH. reflexivity.
Qed.

Lemma li_skills_unendorsed count endorsements :
  endorsements == 0 -> LinkedIn.skillsScore_of count endorsements <= 50.
Proof.
  intros He. unfold LinkedIn.skillsScore_of.
  apply Qle_trans with ((if geb count 10 then 50 else count * 5)
                        + (if geb endorsements 50 then 50 else endorsements)).
  - apply Q.le_min_l.
  - assert (G : geb endorsements 50 = false).
    { apply geb_false. rewrite He. reflexivity. }
    rewrite G, He. destruct (geb count 10) eqn:E.
    + lra.
    + apply geb_false in E. lra.
Qed.

Lemma sort_unendorsed (names : list string) :
  sort_by (fun a b => LinkedIn.endorsements b - LinkedIn.endorsements a)
          (map (fun skill => {| LinkedIn.skill_name := skill;
                                LinkedIn.endorsements := 0 |}) names)
  = map (fun skill => {| LinkedIn.skill_name := skill;
                         LinkedIn.endorsements := 0 |}) names.
Proof.
  induction names as [|x l IH]; simpl; [reflexivity|].
  rewrite IH. destruct l; reflexivity.
Qed.

Lemma read_experiences_ok (l : list LinkedInConnector.ManualExperience) :
  forallb (fun exp =>
             LinkedInConnector.date_parses (LinkedInConnector.me_startDate exp)
             && match LinkedInConnector.me_endDate exp with
                | Some s => LinkedInConnector.date_parses s
                | None => true
                end) l = true ->
  exists es, LinkedInConnector.read_experiences l = Ok es.
Proof.
  induction l as [|exp rest IH]; simpl; intros H.
  - eexists. reflexivity.
  - apply andb_prop in H. destruct H as [Hexp Hrest].
    destruct (IH Hrest) as [es Hes]. rewrite Hes.
    apply andb_prop in Hexp. destruct Hexp as [Hstart Hend].
    unfold LinkedInConnector.read_experience.
    destruct (LinkedInConnector.me_startDate exp); [|discriminate].
    destruct (LinkedInConnector.me_endDate exp) as [[d'|]|];
      [|discriminate|]; eexists; reflexivity.
Qed.

Lemma read_experiences_throw (l : list LinkedInConnector.ManualExperience) :
  forallb (fun exp =>
             LinkedInConnector.date_parses (LinkedInConnector.me_startDate exp)
             && match LinkedInConnector.me_endDate exp with
                | Some s => LinkedInConnector.date_parses s
                | None => true
                end) l = false ->
  LinkedInConnector.read_experiences l = Throw NotFinite.
Proof.
  induction l as [|exp rest IH]; simpl; intros H; [discriminate|].
  unfold LinkedInConnector.read_experience.
  destruct (LinkedInConnector.me_startDate exp); [|reflexivity].
  destruct (LinkedInConnector.me_endDate exp) as [[d'|]|];
    simpl in H |- *; try reflexivity; rewrite (IH H); reflexivity.
Qed.

(** X14.  A LinkedIn profile entered by hand whose date strings all parse
    gets metrics (no division by zero), is marked as a manual entry, and
    has every skill at 0 endorsements; so its skills score is at most 50
    and its overall score at most 88, and the top skills are the first ten
    skills in the order they were entered.  The dates are not validated:
    when the start date or the end date of a position does not parse, the
    entry gets no score (the scores are NaN in JavaScript, [NotFinite]
    here).  The bound is reached: an entry with everything the calculator
    rewards scores 88. *)
Theorem manual_linkedin_capped_at_88 :
  (forall now instant input,
      LinkedInConnector.dates_parse input = true ->
      exists d,
        LinkedInConnector.createFromManualInput now instant input = Ok d
        /\ LinkedIn.isManualEntry (LinkedIn.profile d) = true
        /\ Forall (fun s => LinkedIn.endorsements s = 0) (LinkedIn.skills d)
        /\ LinkedIn.skillsScore (LinkedIn.metrics d) <= 50
        /\ li_score d <= 88
        /\ LinkedIn.topSkills (LinkedIn.breakdown (LinkedIn.metrics d))
           = firstn 10 (LinkedInConnector.or_empty
                          (LinkedInConnector.mi_skills input)))
  /\ (forall now instant input,
         LinkedInConnector.dates_parse input = false ->
         LinkedInConnector.createFromManualInput now instant input
         = Throw NotFinite)
  /\ (exists d,
         LinkedInConnector.createFromManualInput
           {| LinkedIn.getFullYear := 2024; LinkedIn.getMonth := 0 |} 0
           full_manual_input = Ok d
         /\ li_score d = 88).
Proof.
  split; [|split].
  { intros now instant input Hdates.
    destruct (read_experiences_ok _ Hdates) as [es Hes].
    unfold LinkedInConnector.createFromManualInput. rewrite Hes.
    cbn [bind]. unfold LinkedIn.calculateMetrics.
    cbv zeta.
    rewrite div_ok by apply max_1_nonzero. cbn [bind].
    eexists. split; [reflexivity|].
    unfold li_score.
    cbn [LinkedIn.profile LinkedIn.isManualEntry LinkedIn.skills
         LinkedIn.metrics LinkedIn.skillsScore LinkedIn.overallScore
         LinkedIn.breakdown LinkedIn.topSkills].
    set (names := LinkedInConnector.or_empty
                    (LinkedInConnector.mi_skills input)).
    assert (Hzero : sum_by LinkedIn.endorsements
                      (map (fun skill => {| LinkedIn.skill_name := skill;
                                            LinkedIn.endorsements := 0 |})
                           names) == 0).
    { apply sum_by_zero. apply Forall_forall. intros s Hs.
      apply in_map_iff in Hs. destruct Hs as (n & <- & _). reflexivity. }
    split; [reflexivity|]. split; [|split; [|split]].
    - apply Forall_forall. intros s Hs. apply in_map_iff in Hs.
      destruct Hs as (n & <- & _). reflexivity.
    - change 50 with (inject_Z 50). rewrite <- (Math_round_Z 50).
      apply Math_round_le. change (inject_Z 50) with 50.
      apply li_skills_unendorsed. exact Hzero.
    - unfold LinkedIn.overallScore_of.
      change 88 with (Math_round (100 * 0.35 + 100 * 0.2 + 50 * 0.25
                                  + 100 * 0.2)).
      apply Math_round_le.
      match goal with
      | |- ?e * _ + ?d * _ + ?s * _ + ?n * _ <= _ =>
          assert (He : e <= 100) by apply Q.le_min_r;
          assert (Hd : d <= 100) by apply Q.le_min_r;
          assert (Hs : s <= 50) by (apply li_skills_unendorsed; exact Hzero);
          assert (Hn : n <= 100) by apply Q.le_min_r
      end.
      lra.
    - rewrite sort_unendorsed. unfold slice0.
      rewrite <- firstn_map, map_map. simpl. rewrite map_id. reflexivity.
  }
  { intros now instant input Hdates.
    unfold LinkedInConnector.createFromManualInput.
    rewrite (read_experiences_throw _ Hdates). reflexivity. }
  eexists. split; [reflexivity|]. vm_compute. reflexivity.
Qed.

Lemma manual_linkedin_capped_at_88_witness :
  (exists d,
      LinkedInConnector.createFromManualInput
        {| LinkedIn.getFullYear := 2024; LinkedIn.getMonth := 0 |} 0
        full_manual_input = Ok d
      /\ li_score d <= 88)
  /\ LinkedInConnector.createFromManualInput
       {| LinkedIn.getFullYear := 2024; LinkedIn.getMonth := 0 |} 0
       undated_manual_input = Throw NotFinite.
Proof.
  destruct manual_linkedin_capped_at_88 as (Hok & Hnan & _).
  split.
  - destruct (Hok {| LinkedIn.getFullYear := 2024; LinkedIn.getMonth := 0 |}
                  0%Z full_manual_input eq_refl)
      as (d & Hd & _ & _ & _ & Hle & _).
    exists d. split; assumption.
  - exact (Hnan {| LinkedIn.getFullYear := 2024; LinkedIn.getMonth := 0 |}
                0%Z undated_manual_input eq_refl).
Defined.

Lemma segment_of_name name tail :
  (forall c, In c (list_ascii_of_string name) ->
             c <> "/"%char /\ c <> "?"%char) ->
  (tail = EmptyString
   \/ exists t, tail = String "/" t \/ tail = String "?" t) ->
  LinkedInConnector.segment (name ++ tail) = name.
Proof.
  intros Hname Htail. induction name as [|c name IH]; simpl.
  - destruct Htail as [->|[t [->| ->]]]; reflexivity.
  - destruct (Hname c (or_introl eq_refl)) as [H1 H2].
    apply Ascii.eqb_neq in H1, H2. rewrite H1, H2. simpl. f_equal.
    apply IH. intros c' Hc'. apply Hname. right. exact Hc'.
Qed.

Lemma drop_prefix_slash literal s rest :
  LinkedInConnector.drop_prefix literal s = Some rest ->
  forall c, In c (list_ascii_of_string literal) ->
            In c (list_ascii_of_string s).
Proof.
  revert s. induction literal as [|a literal IH]; intros s H c Hc;
    [destruct Hc|].
  destruct s as [|b s]; simpl in H; [discriminate|].
  destruct (Ascii.eqb a b) eqn:E; [|discriminate].
  apply Ascii.eqb_eq in E. subst b.
  destruct Hc as [<-|Hc]; [left; reflexivity|].
  right. exact (IH s H c Hc).
Qed.

Lemma match_after_none literal s :
  In "/"%char (list_ascii_of_string literal) ->
  ~ In "/"%char (list_ascii_of_string s) ->
  LinkedInConnector.match_after literal s = None.
Proof.
  intros Hl. induction s as [|c s IH]; intros Hs.
  - simpl. destruct (LinkedInConnector.drop_prefix literal "") eqn:E;
      [|reflexivity].
    exfalso. apply Hs. exact (drop_prefix_slash _ _ _ E _ Hl).
  - cbn [LinkedInConnector.match_after].
    destruct (LinkedInConnector.drop_prefix literal (String c s)) eqn:E.
    + exfalso. apply Hs. exact (drop_prefix_slash _ _ _ E _ Hl).
    + apply IH. intros H. apply Hs. right. exact H.
Qed.

Lemma split_slash_name name :
  ~ In "/"%char (list_ascii_of_string name) ->
  LinkedInConnector.split_slash name = [name].
Proof.
  induction name as [|c name IH]; intros H; simpl; [reflexivity|].
  destruct (Ascii.eqb c "/") eqn:E.
  - apply Ascii.eqb_eq in E. exfalso. apply H. left. auto.
  - rewrite IH; [reflexivity|]. intros H'. apply H. right. exact H'.
Qed.

(** X15.  [extractUsername] reads the handle off a LinkedIn profile URL:
    for a handle that is not empty and holds neither [/] nor [?], the URL
    [https://www.linkedin.com/in/<handle>], alone or followed by a slash
    or a query, gives the handle, and so do the [/pub/] form and the bare
    handle. *)
Theorem extractUsername_reads_the_handle name tail :
  name <> EmptyString ->
  (forall c, In c (list_ascii_of_string name) ->
             c <> "/"%char /\ c <> "?"%char) ->
  (tail = EmptyString
   \/ exists t, tail = String "/" t \/ tail = String "?" t) ->
  LinkedInConnector.extractUsername
    ("https://www.linkedin.com/in/" ++ name ++ tail) = name
  /\ LinkedInConnector.extractUsername
       ("https://www.linkedin.com/pub/" ++ name) = name
  /\ LinkedInConnector.extractUsername name = name.
Proof.
  intros Hne Hname Htail.
  assert (Hslash : ~ In "/"%char (list_ascii_of_string name)).
  { intros H. destruct (Hname _ H) as [H' _]. congruence. }
  assert (Hseg : forall t,
             (t = EmptyString
              \/ exists t', t = String "/" t' \/ t = String "?" t') ->
             String.eqb (LinkedInConnector.segment (name ++ t)) "" = false).
  { intros t Ht. rewrite (segment_of_name name t Hname Ht).
    apply String.eqb_neq. exact Hne. }
  assert (Hnone : forall literal,
             In "/"%char (list_ascii_of_string literal) ->
             LinkedInConnector.match_after literal name = None).
  { intros literal Hl. apply match_after_none; assumption. }
  split; [|split].
  - unfold LinkedInConnector.extractUsername.
    cbn [append LinkedInConnector.match_after LinkedInConnector.drop_prefix
         Ascii.eqb Bool.eqb].
    rewrite (Hseg tail Htail).
    rewrite (segment_of_name name tail Hname Htail). reflexivity.
  - unfold LinkedInConnector.extractUsername.
    cbn [append LinkedInConnector.match_after LinkedInConnector.drop_prefix
         Ascii.eqb Bool.eqb].
    rewrite (Hnone "linkedin.com/in/"%string)
      by (simpl; repeat (try (left; reflexivity); right)).
    assert (Hself : LinkedInConnector.segment name = name).
    { pose proof (segment_of_name name "" Hname (or_introl eq_refl)) as H.
      replace (name ++ "")%string with name in H; [exact H|].
      clear. induction name; simpl; congruence. }
    rewrite Hself.
    destruct (String.eqb name "") eqn:E; [|reflexivity].
    apply String.eqb_eq in E. contradiction.
  - unfold LinkedInConnector.extractUsername.
    rewrite (Hnone "linkedin.com/in/"%string)
      by (simpl; repeat (try (left; reflexivity); right)).
    rewrite (Hnone "linkedin.com/pub/"%string)
      by (simpl; repeat (try (left; reflexivity); right)).
    rewrite split_slash_name by exact Hslash. simpl.
    destruct (String.eqb name "") eqn:E; [|reflexivity].
    apply String.eqb_eq in E. contradiction.
Qed.

Lemma extractUsername_reads_the_handle_witness :
  LinkedInConnector.extractUsername "https://www.linkedin.com/in/octo?x=1"
  = "octo"%string.
Proof.
  destruct (extractUsername_reads_the_handle "octo" "?x=1") as [H _].
  - discriminate.
  - intros c [<-|[<-|[<-|[<-|[]]]]]; split; discriminate.
  - right. exists "x=1"%string. right. reflexivity.
  - exact H.
Defined.

(** *** GitHub: the contribution statistics *)

Lemma github_without_contributions sixMonthsAgo profile repositories :
  exists m,
    GitHub.calculateMetrics sixMonthsAgo profile repositories
                            GitHubConnector.empty_stats = Ok m
    /\ GitHub.commitFrequency m = 0
    /\ GitHub.collaborationScore m = 0
    /\ GitHub.overallScore m <= 55
    /\ In "Maintain consistent commit activity"%string
          (GitHub.recommendations m)
    /\ In "Contribute to other projects through PRs and code reviews"%string
          (GitHub.recommendations m).
Proof.
  unfold GitHub.calculateMetrics. cbv zeta.
  rewrite !div_ok by apply max_1_nonzero. cbn [bind].
  destruct (avgCommitsPerRepo_ok
              (GitHub.totalCommits GitHubConnector.empty_stats)
              (len (filter (fun r => negb (GitHub.isForked r)) repositories)))
    as [avg Havg].
  rewrite Havg. cbn [bind].
  eexists. split; [reflexivity|].
  cbn [GitHub.commitFrequency GitHub.collaborationScore GitHub.overallScore
       GitHub.recommendations GitHubConnector.empty_stats
       GitHub.totalCommits GitHub.totalPRs GitHub.totalReviews
       GitHub.totalIssues].
  split; [reflexivity|]. split; [reflexivity|]. split; [|split].
  - unfold GitHub.overallScore_of.
    change 55 with (Math_round (100 * 0.25 + 100 * 0.15 + 0 * 0.25 + 0 * 0.2
                                + 100 * 0.15)).
    apply Math_round_le.
    match goal with
    | |- ?cq * _ + ?ld * _ + ?cf * _ + ?cs * _ + ?pi * _ <= _ =>
        assert (Hcq : cq <= 100) by apply Q.le_min_r;
        assert (Hld : ld <= 100);
        [|assert (Hcf : cf == 0) by reflexivity;
          assert (Hcs : cs == 0) by reflexivity;
          assert (Hpi : pi <= 100) by apply Q.le_min_r]
    end.
    + unfold GitHub.languageDiversity_of.
      match goal with
      | |- Math_min ?x 1 * 100 <= 100 =>
          pose proof (Q.le_min_r x 1) as H; unfold Math_min; lra
      end.
    + rewrite Hcf, Hcs. lra.
  - rewrite !in_app_iff. right. right. right. left. left. reflexivity.
  - rewrite !in_app_iff. right. right. right. right. left. left. reflexivity.
Qed.

(** X16.  Without a token, or when the GraphQL request fails,
    [fetchContributionStats] reports no contributions at all, and
    [fetchAllData] goes on with them: the commit frequency and the
    collaboration score are 0 and the overall GitHub score is at most 55,
    whatever the profile and the repositories; the metrics advise to
    commit and to collaborate more. *)
Theorem github_without_token_capped_at_55 sixMonthsAgo now token profile
        repositories graphql :
  truthy token = false \/ (exists e, graphql = Throw e) ->
  exists d,
    GitHubConnector.fetchAllData sixMonthsAgo now token (Ok profile)
                                 (Ok repositories) graphql = Ok d
    /\ GitHub.contributionStats d = GitHubConnector.empty_stats
    /\ GitHub.commitFrequency (GitHub.metrics d) = 0
    /\ GitHub.collaborationScore (GitHub.metrics d) = 0
    /\ gh_score d <= 55
    /\ In "Maintain consistent commit activity"%string (gh_recs d)
    /\ In "Contribute to other projects through PRs and code reviews"%string
          (gh_recs d).
Proof.
  intros H.
  assert (Hstats : GitHubConnector.fetchContributionStats token graphql
                   = GitHubConnector.empty_stats).
  { unfold GitHubConnector.fetchContributionStats.
    destruct H as [-> | [e ->]]; [reflexivity|].
    destruct (negb (truthy token)); reflexivity. }
  unfold GitHubConnector.fetchAllData. cbn [bind]. rewrite Hstats.
  destruct (github_without_contributions sixMonthsAgo profile repositories)
    as (m & E & Hm).
  rewrite E. cbn [bind]. eexists. split; [reflexivity|].
  split; [reflexivity|]. exact Hm.
Qed.

Lemma github_without_token_capped_at_55_witness :
  exists d,
    GitHubConnector.fetchAllData 0 0 None (Ok gh_profile)
      (Ok [sample_repo 1000])
      (Throw (NotFound "Bad credentials")) = Ok d
    /\ gh_score d <= 55.
Proof.
  destruct (github_without_token_capped_at_55 0 0 None gh_profile
              [sample_repo 1000] (Throw (NotFound "Bad credentials")))
    as (d & E & _ & _ & _ & H & _).
  - left. reflexivity.
  - exists d. split; [exact E | exact H].
Defined.

Import GitHubConnector.

Lemma calendar_loop_days weeks :
  calendar_loop weeks = fold_left day_step (List.concat weeks) no_streaks.
Proof.
  unfold calendar_loop. generalize no_streaks.
  induction weeks as [|w weeks IH]; intros st; simpl; [reflexivity|].
  rewrite fold_left_app. apply IH.
Qed.

Lemma days_snoc days d :
  fold_left day_step (days ++ [d]) no_streaks
  = day_step (fold_left day_step days no_streaks) d.
Proof.
  rewrite fold_left_app. reflexivity.
Qed.

Lemma streaks_bounded days :
  let st := fold_left day_step days no_streaks in
  0 <= tempStreak st /\ tempStreak st <= longest st
  /\ longest st
     <= len (filter (fun d => gtb (contributionCount d) 0) days).
Proof.
  induction days as [|d days IH] using rev_ind.
  - simpl. change (len (@nil ContributionDay)) with 0. lra.
  - cbv zeta in *. rewrite days_snoc, filter_app.
    destruct IH as (H0 & H1 & H2).
    set (st := fold_left day_step days no_streaks) in *.
    unfold day_step. simpl filter.
    destruct (gtb (contributionCount d) 0) eqn:E;
      cbn [tempStreak longest].
    + assert (Hlen : len (filter (fun d => gtb (contributionCount d) 0) days
                          ++ [d])
                     == len (filter (fun d => gtb (contributionCount d) 0)
                                    days) + 1).
      { unfold len. rewrite length_app, Nat2Z.inj_add, inject_Z_plus.
        reflexivity. }
      rewrite Hlen.
      destruct (gtb (tempStreak st + 1) (longest st)) eqn:G.
      * lra.
      * apply gtb_false in G. lra.
    + rewrite app_nil_r. lra.
Qed.

Lemma record_set_new k v m :
  ~ In k (map fst m) -> record_set k v m = m ++ [(k, v)].
Proof.
  induction m as [|[k' v'] m IH]; simpl; [reflexivity|].
  intros H. destruct (String.eqb k k') eqn:E.
  - apply String.eqb_eq in E. exfalso. apply H. left. auto.
  - rewrite IH; [reflexivity|]. intros H'. apply H. right. exact H'.
Qed.

Lemma by_day_entries days :
  NoDup (map date days) ->
  contributionsByDay (fold_left day_step days no_streaks)
  = map (fun d => (date d, contributionCount d)) days.
Proof.
  induction days as [|d days IH] using rev_ind; intros Hnd; [reflexivity|].
  rewrite days_snoc, map_app. simpl map.
  rewrite map_app in Hnd. apply NoDup_remove in Hnd. simpl in Hnd.
  rewrite app_nil_r in Hnd. destruct Hnd as [Hnd Hd].
  assert (E : contributionsByDay
                (day_step (fold_left day_step days no_streaks) d)
              = record_set (date d) (contributionCount d)
                  (contributionsByDay (fold_left day_step days no_streaks))).
  { unfold day_step. destruct (gtb (contributionCount d) 0); reflexivity. }
  rewrite E, (IH Hnd). apply record_set_new.
  rewrite map_map. exact Hd.
Qed.

Lemma record_get_entry days d :
  NoDup (map date days) -> In d days ->
  record_get (map (fun d => (date d, contributionCount d)) days) (date d)
  = Some (contributionCount d).
Proof.
  induction days as [|x days IH]; simpl; [tauto|].
  intros Hnd. inversion Hnd as [|? ? Hx Hrest]; subst.
  intros [->|Hd].
  - rewrite String.eqb_refl. reflexivity.
  - destruct (String.eqb (date d) (date x)) eqn:E.
    + apply String.eqb_eq in E. exfalso. apply Hx. rewrite <- E.
      apply in_map. exact Hd.
    + apply IH; assumption.
Qed.

Lemma streak_from_temp byDay days :
  (forall d, In d days ->
             record_get byDay (date d) = Some (contributionCount d)) ->
  forall acc,
    streak_from byDay (rev (map date days)) acc
    == acc + tempStreak (fold_left day_step days no_streaks).
Proof.
  induction days as [|d days IH] using rev_ind; intros Hget acc.
  - simpl. ring.
  - rewrite map_app, rev_app_distr, days_snoc. simpl rev. simpl app.
    cbn [streak_from]. rewrite (Hget d) by (apply in_or_app; right; left;
                                            reflexivity).
    specialize (IH (fun d' Hd' => Hget d' (in_or_app _ _ _ (or_introl Hd')))).
    set (st := fold_left day_step days no_streaks) in *.
    unfold day_step.
    destruct (gtb (contributionCount d) 0); cbn [tempStreak].
    + rewrite IH. ring.
    + ring.
Qed.

Lemma ltb_leb a b : String.ltb a b = true -> String.leb a b = true.
Proof.
  unfold String.ltb, String.leb. destruct (String.compare a b); congruence.
Qed.

Lemma ltb_irrefl a : String.ltb a a = false.
Proof.
  unfold String.ltb. pose proof (String.compare_antisym a a) as H.
  destruct (String.compare a a); simpl in H; congruence.
Qed.

Lemma sort_strings_sorted l :
  StronglySorted (fun a b => String.ltb a b = true) l ->
  sort_strings l = l.
Proof.
  induction 1 as [|x l Hs IH Hx]; simpl; [reflexivity|].
  rewrite IH. destruct l as [|y l]; [reflexivity|].
  simpl. inversion Hx as [|? ? Hxy _]; subst.
  rewrite (ltb_leb _ _ Hxy). reflexivity.
Qed.

Lemma sorted_NoDup l :
  StronglySorted (fun a b => String.ltb a b = true) l -> NoDup l.
Proof.
  induction 1 as [|x l Hs IH Hx]; constructor; [|exact IH].
  intros Hin. rewrite Forall_forall in Hx. specialize (Hx x Hin).
  rewrite ltb_irrefl in Hx. discriminate.
Qed.

(** X17.  With a token and an answer from GraphQL, the longest streak
    that [fetchContributionStats] reports is never negative and never
    more than the number of calendar days with a contribution; when the
    days of the calendar come in strictly ascending date order, the
    current streak is at most the longest streak, and it is 0 when the
    last day of the calendar has no contribution. *)
Theorem streaks_of_the_calendar token contributions :
  truthy token = true ->
  let days := List.concat (GitHubConnector.weeks contributions) in
  let stats :=
    GitHubConnector.fetchContributionStats token (Ok contributions) in
  0 <= GitHub.longestStreak stats
  /\ GitHub.longestStreak stats
     <= len (filter (fun d => gtb (GitHubConnector.contributionCount d) 0)
                    days)
  /\ GitHub.longestStreak stats <= len days
  /\ (StronglySorted (fun a b => String.ltb a b = true)
                     (map GitHubConnector.date days) ->
      0 <= GitHub.currentStreak stats
      /\ GitHub.currentStreak stats <= GitHub.longestStreak stats
      /\ (forall earlier d,
             days = earlier ++ [d] ->
             GitHubConnector.contributionCount d <= 0 ->
             GitHub.currentStreak stats == 0)).
Proof.
  intros Htoken. cbv zeta. unfold fetchContributionStats.
  rewrite Htoken. cbn [negb GitHub.longestStreak GitHub.currentStreak].
  rewrite calendar_loop_days.
  set (days := List.concat (weeks contributions)).
  destruct (streaks_bounded days) as (H0 & H1 & H2).
  split; [lra|]. split; [exact H2|]. split.
  { apply Qle_trans with (1 := H2). apply len_filter_le. }
  intros Hsorted.
  pose proof (sorted_NoDup _ Hsorted) as Hnd.
  rewrite (by_day_entries days Hnd).
  assert (Hkeys : map fst (map (fun d => (date d, contributionCount d)) days)
                  = map date days).
  { rewrite map_map. reflexivity. }
  rewrite Hkeys, (sort_strings_sorted _ Hsorted).
  assert (Hcur : streak_from (map (fun d => (date d, contributionCount d))
                                  days)
                             (rev (map date days)) 0
                 == tempStreak (fold_left day_step days no_streaks)).
  { rewrite streak_from_temp; [ring|].
    intros d Hd. apply record_get_entry; assumption. }
  rewrite Hcur. split; [exact H0|]. split; [exact H1|].
  intros earlier d Hdays Hd. rewrite Hcur, Hdays, days_snoc.
  set (st := fold_left day_step earlier no_streaks).
  unfold day_step.
  assert (G : gtb (contributionCount d) 0 = false)
    by (apply gtb_false; exact Hd).
  rewrite G. reflexivity.
Qed.

Lemma streaks_of_the_calendar_witness :
  GitHub.currentStreak
    (GitHubConnector.fetchContributionStats (Some "token"%string)
                                            (Ok a_calendar))
  <= GitHub.longestStreak
       (GitHubConnector.fetchContributionStats (Some "token"%string)
                                               (Ok a_calendar)).
Proof.
  destruct (streaks_of_the_calendar (Some "token"%string) a_calendar eq_refl)
    as (_ & _ & _ & H).
  destruct H as (_ & H & _); [|exact H].
  repeat constructor.
Defined.

(** *** GitHub: the cached platform data *)













(** ** The notification service *)

Import NotificationService ScoreUpdateService.

Lemma lookup_set_same store u ns : lookup (set store u ns) u = Some ns.
Proof.
  induction store as [|[v old] store IH]; simpl.
  - rewrite String.eqb_refl. reflexivity.
  - destruct (String.eqb v u) eqn:E; simpl; rewrite E; auto.
Qed.

Lemma lookup_set_other store u v ns :
  u <> v -> lookup (set store u ns) v = lookup store v.
Proof.
  intros Huv. induction store as [|[w old] store IH]; simpl.
  - apply String.eqb_neq in Huv. rewrite Huv. reflexivity.
  - destruct (String.eqb w u) eqn:E; simpl.
    + apply String.eqb_eq in E. subst w.
      apply String.eqb_neq in Huv. rewrite Huv. reflexivity.
    + destruct (String.eqb w v); auto.
Qed.

Lemma get_set_same store u ns : get (set store u ns) u = ns.
Proof.
  unfold get. rewrite lookup_set_same. reflexivity.
Qed.

Lemma get_set_other store u v ns :
  u <> v -> get (set store u ns) v = get store v.
Proof.
  intros H. unfold get. rewrite lookup_set_other by exact H. reflexivity.
Qed.

Lemma get_in_place_same store u ns :
  (get store u = [] -> ns = []) -> get (in_place store u ns) u = ns.
Proof.
  unfold in_place, get. destruct (lookup store u) eqn:E.
  - rewrite lookup_set_same. reflexivity.
  - rewrite E. intros H. symmetry. apply H. reflexivity.
Qed.

Lemma get_in_place_other store u v ns :
  u <> v -> get (in_place store u ns) v = get store v.
Proof.
  intros H. unfold in_place. destruct (lookup store u); [|reflexivity].
  apply get_set_other. exact H.
Qed.

Lemma len_cons {A} (x : A) l : len (x :: l) == len l + 1.
Proof.
  unfold len. simpl List.length. rewrite Nat2Z.inj_succ. unfold Z.succ.
  rewrite inject_Z_plus. reflexivity.
Qed.

Lemma len_gtb_nat {A} (l : list A) (n : nat) :
  gtb (len l) (inject_Z (Z.of_nat n)) = Nat.ltb n (List.length l).
Proof.
  destruct (Nat.ltb n (List.length l)) eqn:E.
  - apply Nat.ltb_lt in E. apply gtb_true. unfold len.
    rewrite <- Zlt_Qlt. lia.
  - apply Nat.ltb_ge in E. apply gtb_false. unfold len.
    rewrite <- Zle_Qle. lia.
Qed.

Lemma created_inbox id now u ty d store :
  get (snd (createNotification id now u ty d store)) u
  = firstn 100 (fst (createNotification id now u ty d store) :: get store u).
Proof.
  unfold createNotification. cbn [fst snd]. rewrite get_set_same.
  change 100 with (inject_Z (Z.of_nat 100)).
  rewrite len_gtb_nat. unfold slice0.
  destruct (Nat.ltb 100 _) eqn:E; [reflexivity|].
  apply Nat.ltb_ge in E. symmetry. apply firstn_all2. exact E.
Qed.

(** X19.  [createNotification] puts the new notification, unread, at the
    head of the user's notifications and keeps the hundred newest: the
    list afterwards is the first 100 of the new notification followed by
    the old list, so it never holds more than 100 and the oldest goes when
    it is full; the notifications of every other user stay as they are. *)
Theorem create_keeps_hundred_newest id now u ty d store :
  let created := createNotification id now u ty d store in
  read (fst created) = false
  /\ NotificationService.id (fst created) = id
  /\ get (snd created) u = firstn 100 (fst created :: get store u)
  /\ hd_error (get (snd created) u) = Some (fst created)
  /\ List.length (get (snd created) u)
     = Nat.min 100 (S (List.length (get store u)))
  /\ (forall v, v <> u -> get (snd created) v = get store v).
Proof.
  cbv zeta. split; [reflexivity|]. split; [reflexivity|].
  rewrite created_inbox.
  split; [reflexivity|]. split; [reflexivity|]. split.
  - rewrite length_firstn. reflexivity.
  - intros v Hv. unfold createNotification. cbn [snd].
    apply get_set_other. congruence.
Qed.

Lemma create_keeps_hundred_newest_witness :
  get (snd (createNotification "n1" 0 "u1" Notification.PROFILE_VIEW
                               (PlatformsOf []) [])) "u2" = [].
Proof.
  destruct (create_keeps_hundred_newest "n1" 0 "u1" Notification.PROFILE_VIEW
              (PlatformsOf []) []) as (_ & _ & _ & _ & _ & H).
  apply H. discriminate.
Defined.

Lemma mark_counting_fold ns :
  forall acc,
    fst (fold_left mark_counting ns acc)
    = rev (map (fun n => if negb (read n) then mark n else n) ns) ++ fst acc
    /\ snd (fold_left mark_counting ns acc)
       == snd acc + len (filter (fun n => negb (read n)) ns).
Proof.
  induction ns as [|n ns IH]; intros acc; cbn [fold_left].
  - simpl. split; [reflexivity|]. change (len (@nil Notification)) with 0.
    ring.
  - destruct (IH (mark_counting acc n)) as [H1 H2]. rewrite H1, H2.
    unfold mark_counting. cbn [map rev filter].
    destruct (negb (read n)); cbn [fst snd].
    + split; [rewrite <- app_assoc; reflexivity|]. rewrite len_cons. ring.
    + split; [rewrite <- app_assoc; reflexivity|]. reflexivity.
Qed.

Lemma all_marked ns :
  filter (fun n => negb (read n))
         (map (fun n => if negb (read n) then mark n else n) ns) = [].
Proof.
  induction ns as [|n ns IH]; simpl; [reflexivity|].
  destruct (read n) eqn:E; simpl; [rewrite E|]; simpl; exact IH.
Qed.

Lemma marked_inbox store u :
  get (snd (markAllAsRead store u)) u
  = map (fun n => if negb (read n) then mark n else n) (get store u).
Proof.
  unfold markAllAsRead. cbn [snd].
  destruct (mark_counting_fold (get store u) ([], 0)) as [H _].
  rewrite H. cbn [fst]. rewrite app_nil_r, rev_involutive.
  apply get_in_place_same. intros ->. reflexivity.
Qed.

(** X20.  [markAllAsRead] returns the number of notifications that were
    unread, which is what [getUnreadCount] gave before the call;
    afterwards [getUnreadCount] is 0, the unread-only listing is empty and
    a second call returns 0; the notifications keep their ids and their
    order, and other users are not touched. *)
Theorem markAllAsRead_counts_unread store u :
  let done := markAllAsRead store u in
  fst done == getUnreadCount store u
  /\ getUnreadCount (snd done) u = 0
  /\ (forall limit, getNotifications (snd done) u limit true = [])
  /\ fst (markAllAsRead (snd done) u) == 0
  /\ map NotificationService.id (get (snd done) u)
     = map NotificationService.id (get store u)
  /\ (forall v, v <> u -> get (snd done) v = get store v).
Proof.
  cbv zeta.
  assert (Hcount : forall s, fst (markAllAsRead s u) == getUnreadCount s u).
  { intros s. unfold markAllAsRead, getUnreadCount. cbn [fst].
    destruct (mark_counting_fold (get s u) ([], 0)) as [_ H].
    rewrite H. cbn [snd]. ring. }
  assert (Hzero : getUnreadCount (snd (markAllAsRead store u)) u = 0).
  { unfold getUnreadCount. rewrite marked_inbox, all_marked. reflexivity. }
  split; [apply Hcount|]. split; [exact Hzero|]. split; [|split; [|split]].
  - intros limit. unfold getNotifications.
    rewrite marked_inbox, all_marked. unfold slice0. apply firstn_nil.
  - rewrite Hcount, Hzero. reflexivity.
  - rewrite marked_inbox, map_map. apply map_ext.
    intros n. destruct (negb (read n)); reflexivity.
  - intros v Hv. unfold markAllAsRead. cbn [snd].
    apply get_in_place_other. congruence.
Qed.

Lemma markAllAsRead_counts_unread_witness :
  get (snd (markAllAsRead [] "u1")) "u2" = [].
Proof.
  destruct (markAllAsRead_counts_unread [] "u1") as (_ & _ & _ & _ & _ & H).
  apply H. discriminate.
Defined.

Lemma find_id_some nid (ns : list Notification) :
  (exists n, find (fun n => String.eqb (NotificationService.id n) nid) ns
             = Some n)
  <-> exists n, In n ns /\ NotificationService.id n = nid.
Proof.
  split.
  - intros [n H]. apply find_some in H. destruct H as [H1 H2].
    apply String.eqb_eq in H2. eauto.
  - intros (n & Hin & Hid).
    destruct (find (fun n => String.eqb (NotificationService.id n) nid) ns)
      as [m|] eqn:E; [eauto|].
    exfalso. pose proof (find_none _ _ E n Hin) as H. simpl in H.
    apply String.eqb_neq in H. contradiction.
Qed.

Lemma mark_first_ids nid ns :
  map NotificationService.id (mark_first nid ns)
  = map NotificationService.id ns.
Proof.
  induction ns as [|n ns IH]; simpl; [reflexivity|].
  destruct (String.eqb (NotificationService.id n) nid); simpl; congruence.
Qed.

Lemma mark_first_in nid ns m :
  NoDup (map NotificationService.id ns) ->
  In m (mark_first nid ns) ->
  (NotificationService.id m = nid /\ read m = true)
  \/ (NotificationService.id m <> nid /\ In m ns).
Proof.
  induction ns as [|n ns IH]; simpl; [tauto|].
  intros Hnd. inversion Hnd as [|? ? Hn Hns]; subst.
  destruct (String.eqb (NotificationService.id n) nid) eqn:E.
  - apply String.eqb_eq in E. intros [<-|Hm].
    + left. auto.
    + right. split; [|auto]. intros Hid. apply Hn. rewrite E, <- Hid.
      apply in_map. exact Hm.
  - apply String.eqb_neq in E. intros [<-|Hm].
    + right. auto.
    + destruct (IH Hns Hm) as [H|[H1 H2]]; auto.
Qed.

Lemma mark_first_unread nid ns :
  (List.length (filter (fun n => negb (read n)) (mark_first nid ns))
   <= List.length (filter (fun n => negb (read n)) ns))%nat.
Proof.
  induction ns as [|n ns IH]; simpl; [lia|].
  destruct (String.eqb (NotificationService.id n) nid); simpl.
  - destruct (negb (read n)); simpl; lia.
  - destruct (negb (read n)); simpl; lia.
Qed.

(** X21.  [markAsRead] returns true exactly when the user has a
    notification with the given id; on false the store is unchanged.  On
    true the notifications keep their ids and order, no notification
    becomes unread, other users are not touched, and, the ids being
    unique, the notification with the id is read afterwards while every
    other one is as it was. *)
Theorem markAsRead_marks_the_id store u nid :
  let done := markAsRead store u nid in
  (fst done = true
   <-> exists n, In n (get store u) /\ NotificationService.id n = nid)
  /\ (fst done = false -> snd done = store)
  /\ map NotificationService.id (get (snd done) u)
     = map NotificationService.id (get store u)
  /\ (List.length (filter (fun n => negb (read n)) (get (snd done) u))
      <= List.length (filter (fun n => negb (read n)) (get store u)))%nat
  /\ (forall v, v <> u -> get (snd done) v = get store v)
  /\ (NoDup (map NotificationService.id (get store u)) ->
      forall m, In m (get (snd done) u) ->
                (NotificationService.id m = nid /\ read m = true)
                \/ (NotificationService.id m <> nid /\ In m (get store u))).
Proof.
  cbv zeta. unfold markAsRead.
  pose proof (find_id_some nid (get store u)) as Hfind.
  destruct (find _ (get store u)) as [n|] eqn:E; cbn [fst snd].
  - assert (Hget : get (in_place store u (mark_first nid (get store u))) u
                   = mark_first nid (get store u)).
    { apply get_in_place_same. intros H. rewrite H in E. discriminate. }
    rewrite Hget.
    split; [split; [intros _; apply Hfind; eauto | reflexivity]|].
    split; [discriminate|].
    split; [apply mark_first_ids|].
    split; [apply mark_first_unread|].
    split.
    + intros v Hv. apply get_in_place_other. congruence.
    + intros Hnd m Hm. apply mark_first_in; assumption.
  - split.
    { split; [discriminate|]. intros H. apply Hfind in H.
      destruct H as [? H]. discriminate. }
    split; [reflexivity|]. split; [reflexivity|]. split; [lia|].
    split; [reflexivity|].
    intros _ m Hm.
    destruct (String.eqb (NotificationService.id m) nid) eqn:Em.
    + exfalso. pose proof (find_none _ _ E m Hm) as H. simpl in H. congruence.
    + apply String.eqb_neq in Em. auto.
Qed.

Lemma markAsRead_marks_the_id_witness :
  getUnreadCount (snd (markAsRead two_notifications "u1" "n2")) "u1" = 0
  /\ snd (markAsRead two_notifications "u1" "n9") = two_notifications.
Proof.
  destruct (markAsRead_marks_the_id two_notifications "u1" "n9")
    as (_ & H & _).
  split; [reflexivity|]. apply H. reflexivity.
Defined.

Lemma remove_first_length nid ns :
  existsb (fun n => String.eqb (NotificationService.id n) nid) ns = true ->
  S (List.length (remove_first nid ns)) = List.length ns.
Proof.
  induction ns as [|n ns IH]; simpl; [discriminate|].
  destruct (String.eqb (NotificationService.id n) nid); simpl; auto.
Qed.

Lemma remove_first_others nid ns :
  filter (fun n => negb (String.eqb (NotificationService.id n) nid))
         (remove_first nid ns)
  = filter (fun n => negb (String.eqb (NotificationService.id n) nid)) ns.
Proof.
  induction ns as [|n ns IH]; simpl; [reflexivity|].
  destruct (String.eqb (NotificationService.id n) nid) eqn:E; simpl.
  - reflexivity.
  - rewrite E. simpl. congruence.
Qed.

Lemma remove_first_gone nid ns :
  NoDup (map NotificationService.id ns) ->
  ~ In nid (map NotificationService.id (remove_first nid ns)).
Proof.
  induction ns as [|n ns IH]; simpl; [tauto|].
  intros Hnd. inversion Hnd as [|? ? Hn Hns]; subst.
  destruct (String.eqb (NotificationService.id n) nid) eqn:E.
  - apply String.eqb_eq in E. rewrite <- E. exact Hn.
  - apply String.eqb_neq in E. simpl. intros [H|H]; [contradiction|].
    exact (IH Hns H).
Qed.

(** X22.  [deleteNotification] returns true exactly when the user has a
    notification with the given id, and then removes one notification:
    the first with that id; the notifications with other ids stay, in
    their order, and with unique ids none with the given id is left.  On
    false the store is unchanged; other users are never touched. *)
Theorem delete_removes_one store u nid :
  let done := deleteNotification store u nid in
  (fst done = true
   <-> exists n, In n (get store u) /\ NotificationService.id n = nid)
  /\ (fst done = true ->
      S (List.length (get (snd done) u)) = List.length (get store u))
  /\ (fst done = false -> snd done = store)
  /\ filter (fun n => negb (String.eqb (NotificationService.id n) nid))
            (get (snd done) u)
     = filter (fun n => negb (String.eqb (NotificationService.id n) nid))
              (get store u)
  /\ (forall v, v <> u -> get (snd done) v = get store v)
  /\ (NoDup (map NotificationService.id (get store u)) ->
      ~ In nid (map NotificationService.id (get (snd done) u))).
Proof.
  cbv zeta. unfold deleteNotification.
  destruct (existsb _ (get store u)) eqn:E; cbn [fst snd].
  - rewrite get_set_same.
    split.
    { split; [|reflexivity]. intros _. apply existsb_exists in E.
      destruct E as (n & Hn & Hid). apply String.eqb_eq in Hid. eauto. }
    split; [intros _; apply remove_first_length; exact E|].
    split; [discriminate|].
    split; [apply remove_first_others|].
    split.
    + intros v Hv. apply get_set_other. congruence.
    + apply remove_first_gone.
  - assert (Hnone : forall n, In n (get store u) ->
                              NotificationService.id n <> nid).
    { intros n Hn Hid.
      assert (existsb (fun n => String.eqb (NotificationService.id n) nid)
                      (get store u) = true); [|congruence].
      apply existsb_exists. exists n. split; [exact Hn|].
      apply String.eqb_eq. exact Hid. }
    split.
    { split; [discriminate|]. intros (n & Hn & Hid).
      exfalso. exact (Hnone n Hn Hid). }
    split; [discriminate|]. split; [reflexivity|]. split; [reflexivity|].
    split; [reflexivity|].
    intros _ H. apply in_map_iff in H. destruct H as (n & Hid & Hn).
    exact (Hnone n Hn Hid).
Qed.

Lemma delete_removes_one_witness :
  List.length (get (snd (deleteNotification two_notifications "u1" "n1"))
                   "u1") = 1%nat
  /\ snd (deleteNotification two_notifications "u1" "n9") = two_notifications.
Proof.
  destruct (delete_removes_one two_notifications "u1" "n1") as (_ & H1 & _).
  destruct (delete_removes_one two_notifications "u1" "n9") as (_ & _ & H2 & _).
  split.
  - apply eq_add_S. exact (H1 eq_refl).
  - apply H2. reflexivity.
Defined.

(** X23.  [getNotifications] returns at most [limit] notifications, the
    first ones of the user's list, or of its unread part when unread-only
    is asked, in the order of the list (newest first); with unread-only
    every notification returned is unread, and the number of unread
    notifications is [getUnreadCount]; a user without notifications gets
    the empty list. *)
Theorem getNotifications_first_of_list store u limit unreadOnly :
  let listed := getNotifications store u limit unreadOnly in
  (List.length listed <= limit)%nat
  /\ (exists rest,
         listed ++ rest
         = if unreadOnly then filter (fun n => negb (read n)) (get store u)
           else get store u)
  /\ (unreadOnly = true -> Forall (fun n => read n = false) listed)
  /\ len (getNotifications store u
            (List.length (get store u)) true) = getUnreadCount store u
  /\ (lookup store u = None -> listed = []).
Proof.
  cbv zeta. unfold getNotifications, slice0.
  split; [apply firstn_le_length|].
  split; [eexists; apply firstn_skipn|].
  split; [|split].
  - intros ->. apply Forall_forall. intros n Hn.
    assert (H : In n (filter (fun n => negb (read n)) (get store u))).
    { rewrite <- (firstn_skipn limit (filter _ _)). apply in_or_app. auto. }
    apply filter_In in H. destruct H as [_ H].
    destruct (read n); [discriminate | reflexivity].
  - unfold getUnreadCount. rewrite firstn_all2; [reflexivity|].
    apply filter_length_le.
  - intros H. unfold get. rewrite H.
    destruct unreadOnly; simpl; apply firstn_nil.
Qed.

Lemma getNotifications_first_of_list_witness :
  Forall (fun n => read n = false)
         (getNotifications two_notifications "u1" 20 true)
  /\ getNotifications two_notifications "u2" 20 false = [].
Proof.
  destruct (getNotifications_first_of_list two_notifications "u1" 20 true)
    as (_ & _ & H1 & _).
  destruct (getNotifications_first_of_list two_notifications "u2" 20 false)
    as (_ & _ & _ & _ & H2).
  split; [apply H1; reflexivity | apply H2; reflexivity].
Defined.

Lemma first_result_unchanged this now u db cp r db' :
  findUnique db u = Some cp ->
  rows_of (cp_id cp) db = [] ->
  calculateAndStoreScore this now u db = Ok (r, db') ->
  previous r = None /\ changed r = false.
Proof.
  intros Hcp Hrows Hcall.
  destruct (calculateAndStoreScore_found this now u db cp Hcp)
    as (pr & _ & E).
  rewrite E in Hcall. cbv zeta in Hcall. injection Hcall as <- _.
  apply findFirst_none in Hrows. rewrite Hrows. simpl. auto.
Qed.

Lemma changed_result this now u db r db' :
  calculateAndStoreScore this now u db = Ok (r, db') ->
  changed r = true ->
  exists prev,
    previous r = Some prev
    /\ ~ overallScore prev == overallScore (current r)
    /\ changeAmount r = overallScore (current r) - overallScore prev.
Proof.
  intros Hcall Hch.
  destruct (findUnique db u) as [cp|] eqn:Hcp.
  2:{ unfold calculateAndStoreScore in Hcall. rewrite Hcp in Hcall.
      discriminate. }
  destruct (calculateAndStoreScore_found this now u db cp Hcp)
    as (pr & _ & E).
  rewrite E in Hcall. cbv zeta in Hcall. injection Hcall as <- _.
  cbn [changed previous changeAmount current] in *.
  destruct (option_map (of_row this) (findFirst db (cp_id cp))) as [prev|];
    [|discriminate].
  exists prev. split; [reflexivity|]. split; [|reflexivity].
  apply neqb_true. exact Hch.
Qed.

(** X24.  After a calculation, [notifyScoreUpdate] creates a notification
    exactly when the result says the score changed, and otherwise leaves
    the store alone; the first score of a candidate is never announced.
    The notification, unread at the head of the user's list, carries the
    stored previous score and the current one, which differ, their
    difference as change amount and the first three recommendations at
    most; it is a SCORE_IMPROVEMENT when the score rose and a
    SCORE_DECLINE when it fell. *)
Theorem score_notification_after_calculation this id now u db r db' store :
  calculateAndStoreScore this now u db = Ok (r, db') ->
  let out := notifyScoreUpdate id now u r store in
  (forall cp, findUnique db u = Some cp -> rows_of (cp_id cp) db = [] ->
              out = (None, store))
  /\ (fst out = None <-> changed r = false)
  /\ (fst out = None -> snd out = store)
  /\ (forall n,
         fst out = Some n ->
         hd_error (get (snd out) u) = Some n
         /\ read n = false
         /\ exists d,
             data n = ScoreChangeOf d
             /\ (exists prev, previous r = Some prev
                              /\ Notification.previousScore d
                                 = overallScore prev)
             /\ Notification.currentScore d = overallScore (current r)
             /\ ~ Notification.previousScore d == Notification.currentScore d
             /\ Notification.sc_changeAmount d
                = Notification.currentScore d - Notification.previousScore d
             /\ (type n = Notification.SCORE_IMPROVEMENT
                 <-> Notification.previousScore d
                     < Notification.currentScore d)
             /\ (type n = Notification.SCORE_DECLINE
                 <-> Notification.currentScore d
                     < Notification.previousScore d)
             /\ Notification.sc_recommendations d
                = firstn 3 (recommendations (current r))
             /\ (List.length (Notification.sc_recommendations d) <= 3)%nat).
Proof.
  intros Hcall. cbv zeta. unfold notifyScoreUpdate.
  destruct (changed r) eqn:Hch; cbn [negb fst snd].
  - split.
    { intros cp Hcp Hrows.
      destruct (first_result_unchanged this now u db cp r db' Hcp Hrows Hcall)
        as [_ H]. congruence. }
    split; [split; discriminate|]. split; [discriminate|].
    intros n Hn. injection Hn as <-.
    split; [rewrite created_inbox; reflexivity|].
    split; [reflexivity|].
    destruct (changed_result this now u db r db' Hcall Hch)
      as (prev & Hprev & Hne & Hamount).
    eexists. split; [reflexivity|].
    cbn [Notification.currentScore Notification.previousScore
         Notification.sc_changeAmount Notification.sc_recommendations
         createNotification fst type].
    rewrite Hprev, Hamount.
    split; [exists prev; split; reflexivity|].
    split; [reflexivity|]. split; [exact Hne|]. split; [reflexivity|].
    split; [|split; [|split]].
    + destruct (gtb _ 0) eqn:G.
      * apply gtb_true in G. split; [intros _; lra | reflexivity].
      * apply gtb_false in G. split; [discriminate | intros H; lra].
    + destruct (gtb _ 0) eqn:G.
      * apply gtb_true in G. split; [discriminate | intros H; lra].
      * apply gtb_false in G. split; [|reflexivity]. intros _.
        apply Qnot_le_lt. intros H. apply Hne. lra.
    + reflexivity.
    + exact (firstn_le_length 3 (recommendations (current r))).
  - split; [reflexivity|]. split; [tauto|]. split; [reflexivity|].
    discriminate.
Qed.

Lemma score_notification_after_calculation_witness :
  exists r db',
    calculateAndStoreScore aggregationService 1000 "u1" db_50 = Ok (r, db')
    /\ notifyScoreUpdate "n1" 1000 "u1" r [] = (None, []).
Proof.
  eexists. eexists. split; [reflexivity|].
  pose proof (fun r db' H =>
                score_notification_after_calculation aggregationService "n1"
                  1000 "u1" db_50 r db' [] H) as H.
  specialize (H _ _ eq_refl). destruct H as (H & _).
  eapply H; reflexivity.
Defined.

Lemma score_update_keeps_older id now u r store :
  let out := notifyScoreUpdate id now u r store in
  (changed r = false -> snd out = store)
  /\ (changed r = true ->
      exists n, get (snd out) u = firstn 100 (n :: get store u)
                /\ NotificationService.id n = id
                /\ (type n = Notification.SCORE_IMPROVEMENT
                    \/ type n = Notification.SCORE_DECLINE)).
Proof.
  cbv zeta. unfold notifyScoreUpdate.
  destruct (changed r); cbn [negb snd].
  - split; [discriminate|]. intros _. eexists.
    split; [apply created_inbox|]. split; [reflexivity|].
    cbn [createNotification fst type]. destruct (gtb _ 0); auto.
  - split; [reflexivity | discriminate].
Qed.

(** X25.  [onPlatformConnected] first files a PLATFORM_CONNECTED
    notification, always marked as not verified, and only then
    recalculates: for a user without a candidate profile the call fails
    with "Candidate profile not found", the database is untouched, and the
    notification is nevertheless in the store; for a candidate the call
    returns the result of [calculateAndStoreScore], and the notification
    of a changed score, if any, lies above the connection notification. *)
Theorem connection_notified_before_scoring this ids now u platform username
        st :
  let out := onPlatformConnected this ids now u platform username st in
  let filed (n : Notification) :=
    NotificationService.id n = fst ids
    /\ type n = Notification.PLATFORM_CONNECTED
    /\ data n = PlatformConnectionOf {| pc_platform := platform;
                                        pc_username := username;
                                        isVerified := false |}
    /\ read n = false in
  (findUnique (fst st) u = None ->
   fst out = Throw (NotFound "Candidate profile not found")
   /\ fst (snd out) = fst st
   /\ exists n, hd_error (get (snd (snd out)) u) = Some n /\ filed n)
  /\ (forall cp,
         findUnique (fst st) u = Some cp ->
         exists r,
           fst out = Ok r
           /\ calculateAndStoreScore this now u (fst st)
              = Ok (r, fst (snd out))
           /\ (changed r = false ->
               exists n, hd_error (get (snd (snd out)) u) = Some n /\ filed n)
           /\ (changed r = true ->
               exists s n,
                 getNotifications (snd (snd out)) u 2 false = [s; n]
                 /\ filed n
                 /\ NotificationService.id s = snd ids
                 /\ (type s = Notification.SCORE_IMPROVEMENT
                     \/ type s = Notification.SCORE_DECLINE))).
Proof.
  cbv zeta. unfold onPlatformConnected, notifyPlatformConnected.
  set (created := createNotification (fst ids) now u
                    Notification.PLATFORM_CONNECTED _ (snd st)).
  assert (Hinbox : get (snd created) u = firstn 100 (fst created :: get (snd st) u))
    by apply created_inbox.
  assert (Hfiled : NotificationService.id (fst created) = fst ids
                   /\ type (fst created) = Notification.PLATFORM_CONNECTED
                   /\ data (fst created)
                      = PlatformConnectionOf {| pc_platform := platform;
                                                pc_username := username;
                                                isVerified := false |}
                   /\ read (fst created) = false).
  { repeat split. }
  split.
  - intros Hcp. unfold calculateAndStoreScore. rewrite Hcp. cbn [fst snd].
    split; [reflexivity|]. split; [reflexivity|].
    exists (fst created). split; [rewrite Hinbox; reflexivity | exact Hfiled].
  - intros cp Hcp.
    destruct (calculateAndStoreScore_found this now u (fst st) cp Hcp)
      as (pr & _ & E).
    cbv zeta in E. rewrite E. cbn [fst snd].
    eexists. split; [reflexivity|]. split; [reflexivity|].
    match goal with
    | |- context [notifyScoreUpdate ?i ?t ?v ?r ?s] =>
        destruct (score_update_keeps_older i t v r s) as [Hsame Hnew]
    end.
    split.
    + intros Hch. rewrite (Hsame Hch).
      exists (fst created). split; [rewrite Hinbox; reflexivity | exact Hfiled].
    + intros Hch. destruct (Hnew Hch) as (s & Hs & Hid & Hty).
      exists s, (fst created). split; [|auto].
      unfold getNotifications, slice0. rewrite Hs, Hinbox. reflexivity.
Qed.

Lemma connection_notified_before_scoring_witness :
  fst (onPlatformConnected aggregationService ("n1"%string, "n2"%string) 1000 "nobody"
                           GITHUB "octo" (db_50, []))
  = Throw (NotFound "Candidate profile not found")
  /\ List.length
       (get (snd (snd (onPlatformConnected aggregationService ("n1"%string, "n2"%string)
                         1000 "nobody" GITHUB "octo" (db_50, []))))
            "nobody") = 1%nat.
Proof.
  destruct (connection_notified_before_scoring aggregationService
              ("n1"%string, "n2"%string) 1000 "nobody" GITHUB "octo" (db_50, []))
    as [H _].
  destruct (H eq_refl) as (H1 & _ & _).
  split; [exact H1 | reflexivity].
Defined.

Lemma refreshAndRecalculate_found this f now u db cp :
  findUnique db u = Some cp ->
  exists r db', refreshAndRecalculate this f now u db = Ok (r, db').
Proof.
  intros Hcp.
  destruct (refresh_found f now u db cp Hcp)
    as (profile & db1 & cp1 & E & Hcp1 & _).
  destruct (calculateAndStoreScore_found this now u db1 cp1 Hcp1)
    as (pr & _ & Ecall).
  unfold refreshAndRecalculate. rewrite E. cbn [bind snd].
  rewrite Ecall. cbv zeta. eauto.
Qed.

(** X26.  [refreshAndNotify] fails for a user without a candidate profile
    and then changes nothing.  For a candidate it returns the result of
    [refreshAndRecalculate] whatever the connectors do; when the candidate
    has a platform connection, the user gets a PLATFORM_DATA_REFRESHED
    notification that names the platform of every connection, those whose
    fetch failed included, among the two newest notifications; without a
    connection no such notification is created. *)
Theorem refresh_notification_names_all this f ids now u st :
  let out := refreshAndNotify this f ids now u st in
  (findUnique (fst st) u = None ->
   out = (Throw (NotFound "Candidate profile not found"), st))
  /\ (forall cp,
         findUnique (fst st) u = Some cp ->
         exists r,
           fst out = Ok r
           /\ refreshAndRecalculate this f now u (fst st)
              = Ok (r, fst (snd out))
           /\ (platformConnections cp = [] ->
               snd (snd out)
               = snd (notifyScoreUpdate (snd ids) now u r (snd st)))
           /\ (platformConnections cp <> [] ->
               exists n,
                 In n (getNotifications (snd (snd out)) u 2 false)
                 /\ NotificationService.id n = fst ids
                 /\ type n = Notification.PLATFORM_DATA_REFRESHED
                 /\ data n
                    = PlatformsOf (map platform (platformConnections cp)))).
Proof.
  cbv zeta. unfold refreshAndNotify. split.
  - intros Hcp. rewrite Hcp. reflexivity.
  - intros cp Hcp. rewrite Hcp.
    destruct (refreshAndRecalculate_found this f now u (fst st) cp Hcp)
      as (r & db' & E).
    rewrite E. cbn [fst snd]. exists r.
    split; [reflexivity|]. split; [reflexivity|].
    split.
    + intros Hnil. rewrite Hnil. reflexivity.
    + intros Hne.
      assert (G : gtb (len (map platform (platformConnections cp))) 0 = true).
      { apply len_pos. destruct (platformConnections cp);
          [congruence | discriminate]. }
      rewrite G. unfold notifyDataRefreshed.
      set (created := createNotification (fst ids) now u
                        Notification.PLATFORM_DATA_REFRESHED _ (snd st)).
      assert (Hinbox : get (snd created) u
                       = firstn 100 (fst created :: get (snd st) u))
        by apply created_inbox.
      exists (fst created).
      split; [|repeat split].
      destruct (score_update_keeps_older (snd ids) now u r (snd created))
        as [Hsame Hnew].
      unfold getNotifications, slice0.
      destruct (changed r) eqn:Hch.
      * destruct (Hnew eq_refl) as (s & Hs & _). rewrite Hs, Hinbox.
        simpl. auto.
      * rewrite (Hsame eq_refl), Hinbox. simpl. auto.
Qed.

Lemma refresh_notification_names_all_witness :
  exists n,
    In n (getNotifications
            (snd (snd (refreshAndNotify aggregationService github_down
                         ("n1"%string, "n2"%string) 5000 "u1" (partly_cached, []))))
            "u1" 2 false)
    /\ data n = PlatformsOf [GITHUB; TWITTER].
Proof.
  destruct (refresh_notification_names_all aggregationService github_down
              ("n1"%string, "n2"%string) 5000 "u1" (partly_cached, [])) as [_ H].
  destruct (H _ eq_refl) as (r & _ & _ & _ & Hn).
  destruct Hn as (n & Hin & _ & _ & Hdata); [discriminate|].
  exists n. split; [exact Hin | exact Hdata].
Defined.
